(** * Canvas API documentation scraper: extraction and aggregation

    A shallow embedding of the endpoint extractors
    ([utils/canvas_scraper.py], [utils/scraper_utils.py]), of the tabular
    projection ([utils/data_utils.py]) and of the filter-and-deduplicate loop
    of the driver ([main.py]), followed by the properties established about
    them.

    Conventions of the embedding.
    - A Python [str] is a [string]; every [ascii] stands for one code point
      below 256.
    - The tree that [BeautifulSoup(html, "html.parser")] builds is the input of
      the extractors: tags with a name, attributes and contents, and text
      nodes.  Elements are addressed by their path from the root, and
      document order is the preorder listing of the tree.
    - The endpoint dicts are built by dict literals with a fixed key set; they
      are records, with [getitem] giving the dict view that the driver's
      required-key scan uses. *)

From Stdlib Require Import Ascii.
From stdpp Require Import gmap strings list.

(** ** Python string operations *)

Module Py.

(** [str.isspace] for one code point (also the class [\s] of [re]). *)
Definition isspace (c : ascii) : bool :=
  let n := nat_of_ascii c in
  ((9 <=? n) && (n <=? 13)) || ((28 <=? n) && (n <=? 32))
  || (n =? 133) || (n =? 160).

Fixpoint lstrip (s : string) : string :=
  match s with
  | String c s' => if isspace c then lstrip s' else s
  | "" => ""
  end.

Fixpoint rstrip (s : string) : string :=
  match s with
  | String c s' =>
      match rstrip s' with
      | "" => if isspace c then "" else String c ""
      | r => String c r
      end
  | "" => ""
  end.

(** [s.strip()] *)
Definition strip (s : string) : string := rstrip (lstrip s).

(** Truth value of a string: [bool(s)]. *)
Definition truthy (s : string) : bool :=
  match s with "" => false | _ => true end.

(** [s[:n]] for [0 <= n]. *)
Fixpoint slice_to (n : nat) (s : string) : string :=
  match n, s with
  | S n', String c s' => String c (slice_to n' s')
  | _, _ => ""
  end.

(** [s[n:]] for [0 <= n]. *)
Fixpoint slice_from (n : nat) (s : string) : string :=
  match n, s with
  | S n', String _ s' => slice_from n' s'
  | _, _ => s
  end.

(** [s.find(sub)]: index of the first occurrence, [-1] when there is none. *)
Fixpoint find (sub s : string) : Z :=
  if String.prefix sub s then 0%Z
  else match s with
       | "" => (-1)%Z
       | String _ s' =>
           match find sub s' with
           | Zneg _ => (-1)%Z
           | i => (i + 1)%Z
           end
       end.

(** [sub in s] *)
Definition contains (sub s : string) : bool := (0 <=? find sub s)%Z.

(** [s.split(sep)] for a non-empty separator.  [skip] counts the characters
    of the separator occurrence still to be passed over, [cur] is the
    current piece, last character first. *)
Fixpoint split_go (sep : string) (skip : nat) (cur : string) (s : string)
  : list string :=
  match s with
  | "" => [String.rev cur]
  | String c s' =>
      match skip with
      | S k => split_go sep k cur s'
      | 0 =>
          if String.prefix sep s
          then String.rev cur :: split_go sep (String.length sep - 1) "" s'
          else split_go sep 0 (String c cur) s'
      end
  end.

Definition split (sep s : string) : list string := split_go sep 0 "" s.

(** [s.replace(old, new)]: every non-overlapping occurrence, left to right;
    with an empty [old], [new] goes before every character and at the
    end. *)
Fixpoint replace_go (old new : string) (skip : nat) (s : string) : string :=
  match s with
  | "" => ""
  | String c s' =>
      match skip with
      | S k => replace_go old new k s'
      | 0 =>
          if String.prefix old s
          then new +:+ replace_go old new (String.length old - 1) s'
          else String c (replace_go old new 0 s')
      end
  end.

Fixpoint intersperse_before (new s : string) : string :=
  match s with
  | "" => new
  | String c s' => new +:+ String c (intersperse_before new s')
  end.

Definition replace (old new s : string) : string :=
  match old with
  | "" => intersperse_before new s
  | _ => replace_go old new 0 s
  end.

(** [c.upper()] and [c.lower()] for an ASCII letter; the other code points
    are left as they are. *)
Definition upper (c : ascii) : ascii :=
  let n := nat_of_ascii c in
  if (97 <=? n) && (n <=? 122) then ascii_of_nat (n - 32) else c.

Definition lower (c : ascii) : ascii :=
  let n := nat_of_ascii c in
  if (65 <=? n) && (n <=? 90) then ascii_of_nat (n + 32) else c.

Fixpoint lowercase (s : string) : string :=
  match s with
  | "" => ""
  | String c s' => String (lower c) (lowercase s')
  end.

(** [s.capitalize()] for ASCII text: the first character in upper case,
    the others in lower case. *)
Definition capitalize (s : string) : string :=
  match s with
  | "" => ""
  | String c s' => String (upper c) (lowercase s')
  end.

(** ["".join(l)] *)
Definition join (l : list string) : string := fold_right String.append "" l.

End Py.

(** ** The fragment of [re] that the patterns of the repository use *)

Module Re.

Inductive regex : Type :=
| Lit (s : string)               (* literal text *)
| Cat (r1 r2 : regex)            (* r1 r2 *)
| Alt (r1 r2 : regex)            (* r1|r2 *)
| Plus (p : ascii -> bool)       (* C+ , greedy, on a character class *)
| LazyStar (p : ascii -> bool)   (* C*? on a character class *)
| Grp (r : regex).               (* ( r ), a capturing group *)

(** Remainders after [C*], longest match first. *)
Fixpoint star_greedy (p : ascii -> bool) (s : string) : list string :=
  match s with
  | String c s' => if p c then star_greedy p s' ++ [s] else [s]
  | "" => [""]
  end.

Definition plus_greedy (p : ascii -> bool) (s : string) : list string :=
  match s with
  | String c s' => if p c then star_greedy p s' else []
  | "" => []
  end.

(** Remainders after [C*?], shortest match first. *)
Fixpoint star_lazy (p : ascii -> bool) (s : string) : list string :=
  s :: match s with
       | String c s' => if p c then star_lazy p s' else []
       | "" => []
       end.

(** The text consumed between [s] and its suffix [rest]. *)
Definition consumed (s rest : string) : string :=
  Py.slice_to (String.length s - String.length rest) s.

(** All the ways [r] matches at the start of [s], in the order in which a
    backtracking matcher tries them: the captured groups and the rest of
    the subject. *)
Fixpoint matches (r : regex) (s : string) : list (list string * string) :=
  match r with
  | Lit l =>
      if String.prefix l s then [([], Py.slice_from (String.length l) s)]
      else []
  | Cat r1 r2 =>
      flat_map (fun m1 =>
                  List.map (fun m2 => (m1.1 ++ m2.1, m2.2)) (matches r2 m1.2))
               (matches r1 s)
  | Alt r1 r2 => matches r1 s ++ matches r2 s
  | Plus p => List.map (fun rest => ([], rest)) (plus_greedy p s)
  | LazyStar p => List.map (fun rest => ([], rest)) (star_lazy p s)
  | Grp r1 =>
      List.map (fun m => (consumed s m.2 :: m.1, m.2)) (matches r1 s)
  end.

(** [re.match(r, s)]: the groups of the first match at the start. *)
Definition re_match (r : regex) (s : string) : option (list string) :=
  match matches r s with
  | m :: _ => Some m.1
  | [] => None
  end.

(** [re.search(r, s)]: the groups of the match at the leftmost position. *)
Fixpoint re_search (r : regex) (s : string) : option (list string) :=
  match re_match r s with
  | Some g => Some g
  | None =>
      match s with
      | String _ s' => re_search r s'
      | "" => None
      end
  end.

(** Character classes. *)
Definition space : ascii -> bool := Py.isspace.                (* \s *)
Definition not_space (c : ascii) : bool := negb (Py.isspace c). (* [^\s] *)
Definition any (c : ascii) : bool :=                             (* . *)
  negb (nat_of_ascii c =? 10).

(** [\w]: alphanumeric code points and the underscore. *)
Definition word (c : ascii) : bool :=
  let n := nat_of_ascii c in
  ((48 <=? n) && (n <=? 57)) || ((65 <=? n) && (n <=? 90)) || (n =? 95)
  || ((97 <=? n) && (n <=? 122))
  || (n =? 170) || (n =? 178) || (n =? 179) || (n =? 181) || (n =? 185)
  || (n =? 186) || ((188 <=? n) && (n <=? 190))
  || ((192 <=? n) && (n <=? 214)) || ((216 <=? n) && (n <=? 246))
  || (248 <=? n).

(** [[\/\w\.\-]] *)
Definition path_char (c : ascii) : bool :=
  (nat_of_ascii c =? 47) || word c || (nat_of_ascii c =? 46)
  || (nat_of_ascii c =? 45).

End Re.

(** ** The parse tree of BeautifulSoup *)

Module Bs4.

#[warnings="-register-all"]
Inductive node : Type :=
| Tag (name : string) (attrs : list (string * string)) (contents : list node)
| NavigableString (s : string).

(** An element of a soup: the child indices that lead to it from the root,
    and the node found there.  The root is the [BeautifulSoup] object
    itself, a tag whose name is ["[document]"]. *)
Record element : Type := Element { pos : list nat; elt : node }.

Definition root (soup : node) : element := Element [] soup.

Definition contents_of (n : node) : list node :=
  match n with
  | Tag _ _ cs => cs
  | NavigableString _ => []
  end.

Fixpoint node_at (n : node) (p : list nat) : option node :=
  match p with
  | [] => Some n
  | i :: p' =>
      match contents_of n !! i with
      | Some c => node_at c p'
      | None => None
      end
  end.

(** [tag.descendants]: everything below [n] in document order, [p] being
    the position of [n]. *)
Fixpoint descendants (p : list nat) (n : node) {struct n} : list element :=
  match n with
  | NavigableString _ => []
  | Tag _ _ cs =>
      (fix children (i : nat) (cs : list node) {struct cs} : list element :=
         match cs with
         | [] => []
         | c :: cs' =>
             Element (p ++ [i]) c :: descendants (p ++ [i]) c
               ++ children (S i) cs'
         end) 0 cs
  end.

(** The same listing for the children [cs] of the node at [p], the first of
    them being child number [i]. *)
Definition descendants_of_children (p : list nat)
  : nat -> list node -> list element :=
  fix children (i : nat) (cs : list node) {struct cs} : list element :=
    match cs with
    | [] => []
    | c :: cs' =>
        Element (p ++ [i]) c :: descendants (p ++ [i]) c
          ++ children (S i) cs'
    end.

(** [.name == nm], false on text nodes. *)
Definition is_tag (nm : string) (e : element) : bool :=
  match elt e with
  | Tag nm' _ _ => String.eqb nm' nm
  | NavigableString _ => false
  end.

Definition is_a_tag (e : element) : bool :=
  match elt e with
  | Tag _ _ _ => true
  | NavigableString _ => false
  end.

(** [tag.find(nm)] and [tag.find_all(nm)]: search below the tag. *)
Definition find_all (e : element) (nm : string) : list element :=
  List.filter (is_tag nm) (descendants (pos e) (elt e)).

Definition find (e : element) (nm : string) : option element :=
  head (find_all e nm).

(** What follows the element at [p] in a document-order listing. *)
Fixpoint after (p : list nat) (l : list element) : list element :=
  match l with
  | [] => []
  | x :: l' => if bool_decide (pos x = p) then l' else after p l'
  end.

(** [e.next_elements]: every node parsed after the start of [e], its own
    descendants first, then the rest of the document. *)
Definition next_elements (soup : node) (e : element) : list element :=
  after (pos e) (root soup :: descendants [] soup).

(** [e.find_next(f)] for a function [f] of a tag; [e.find_next(nm)] for a
    tag name. *)
Definition find_next_matching (soup : node) (e : element)
    (f : element -> bool) : option element :=
  List.find (fun x => is_a_tag x && f x) (next_elements soup e).

Definition find_next (soup : node) (e : element) (nm : string)
  : option element :=
  find_next_matching soup e (is_tag nm).

(** [e.parent] and [e.next_sibling]; [None] as in Python. *)
Definition parent (soup : node) (e : element) : option element :=
  match pos e with
  | [] => None
  | _ =>
      let p := removelast (pos e) in
      Element p <$> node_at soup p
  end.

Definition next_sibling (soup : node) (e : element) : option element :=
  match last (pos e) with
  | None => None
  | Some i =>
      let p := removelast (pos e) ++ [S i] in
      Element p <$> node_at soup p
  end.

(** The strings below a node, in document order. *)
Fixpoint strings (n : node) : list string :=
  match n with
  | NavigableString s => [s]
  | Tag _ _ cs => flat_map strings cs
  end.

(** [n.get_text(strip=True)]: the strings are stripped and the empty ones
    dropped before they are joined; [n.text] joins them as they are. *)
Definition get_text (strip : bool) (n : node) : string :=
  if strip
  then Py.join (List.filter Py.truthy (List.map Py.strip (strings n)))
  else Py.join (strings n).

Definition text (n : node) : string := get_text false n.

(** [tag.get(key)] *)
Fixpoint lookup_attr (key : string) (attrs : list (string * string))
  : option string :=
  match attrs with
  | [] => None
  | (k, v) :: attrs' => if String.eqb k key then Some v else lookup_attr key attrs'
  end.

Definition get (n : node) (key : string) : option string :=
  match n with
  | Tag _ attrs _ => lookup_attr key attrs
  | NavigableString _ => None
  end.

(** [soup.select("t1 > ... > tn")]: [chain] lists the tag names from the
    element outwards, [tn] first. *)
Fixpoint matches_chain (soup : node) (chain : list string) (e : element)
  : bool :=
  match chain with
  | [] => true
  | nm :: [] => is_tag nm e
  | nm :: outer =>
      is_tag nm e &&
      match parent soup e with
      | Some up => matches_chain soup outer up
      | None => false
      end
  end.

Definition select_children (soup : node) (names : list string)
  : list element :=
  List.filter (matches_chain soup (rev names)) (descendants [] soup).

End Bs4.

(** ** The endpoint dicts *)

Module models.

(** [{"name": ..., "type": ..., "description": ...}] *)
Record param : Type :=
  { param_name : string; param_type : string; param_desc : string }.

(** The two dict literals of the repository differ in their example keys:
    [example_request] and [example_response] in [canvas_scraper], a single
    [example] in [scraper_utils]. *)
Inductive example_fields : Type :=
| RequestResponse (example_request example_response : string)
| Example (example : option string).

Record endpoint : Type :=
  { resource : string;
    name : string;
    http_method : string;
    path : string;
    description : string;
    parameters : list param;
    examples : example_fields }.

Inductive value : Type :=
| VStr (s : string)
| VList (l : list param)
| VNone.

(** [bool(v)] *)
Definition truth (v : value) : bool :=
  match v with
  | VStr s => Py.truthy s
  | VList l => match l with [] => false | _ => true end
  | VNone => false
  end.

(** The dict literal, key by key. *)
Definition items (e : endpoint) : list (string * value) :=
  [ ("resource", VStr (resource e));
    ("name", VStr (name e));
    ("http_method", VStr (http_method e));
    ("path", VStr (path e));
    ("description", VStr (description e));
    ("parameters", VList (parameters e)) ]
  ++ match examples e with
     | RequestResponse rq rs =>
         [ ("example_request", VStr rq); ("example_response", VStr rs) ]
     | Example x =>
         [ ("example", match x with Some s => VStr s | None => VNone end) ]
     end.

Fixpoint assoc (key : string) (l : list (string * value)) : option value :=
  match l with
  | [] => None
  | (k, v) :: l' => if String.eqb k key then Some v else assoc key l'
  end.

(** [endpoint[key]], [None] when [key not in endpoint]. *)
Definition getitem (e : endpoint) (key : string) : option value :=
  assoc key (items e).

End models.

(** ** utils/canvas_scraper.py *)

Module canvas_scraper.
Import Bs4 models.

(** [r"(GET|POST|PUT|DELETE)\s+(/[^\s]+)"] *)
Definition method_path : Re.regex :=
  Re.Cat
    (Re.Grp (Re.Alt (Re.Lit "GET") (Re.Alt (Re.Lit "POST")
               (Re.Alt (Re.Lit "PUT") (Re.Lit "DELETE")))))
    (Re.Cat (Re.Plus Re.space)
            (Re.Grp (Re.Cat (Re.Lit "/") (Re.Plus Re.not_space)))).

(** The body of the loop over the rows of the parameters table: a row with
    at least three [td] cells gives a parameter, the others nothing. *)
Definition parameter_of_row (row : element) : option param :=
  match find_all row "td" with
  | c0 :: c1 :: c2 :: _ =>
      Some {| param_name := get_text true (elt c0);
              param_type := get_text true (elt c1);
              param_desc := get_text true (elt c2) |}
  | _ => None
  end.

(** The method name (title): the text of the first anchor of the section,
    or the empty string. *)
Definition method_name (section : element) : string :=
  match find section "a" with
  | Some a_tag => get_text true (elt a_tag)
  | None => ""
  end.

(** The description: the first paragraph after the HTTP method. *)
Definition first_paragraph (soup : node) (h3 : element) : string :=
  match find_next soup h3 "p" with
  | Some p_tag => get_text true (elt p_tag)
  | None => ""
  end.

(** The parameters: the rows of the next table, the header row skipped. *)
Definition table_parameters (soup : node) (section : element) : list param :=
  match find_next soup section "table" with
  | Some params_table =>
      omap parameter_of_row (drop 1 (find_all params_table "tr"))
  | None => []
  end.

(** The example after the next [h4] whose text contains [marker]
    (["Example Request"], ["Example Response"]). *)
Definition example_block (soup : node) (section : element) (marker : string)
  : string :=
  match find_next_matching soup section
          (fun tag => is_tag "h4" tag && Py.contains marker (text (elt tag)))
  with
  | Some header =>
      match find_next soup header "pre" with
      | Some code_block => get_text true (elt code_block)
      | None => ""
      end
  | None => ""
  end.

Definition extract_endpoint_from_section (soup : node) (section : element)
    (resource_name : string) : option endpoint :=
  let name := method_name section in
  if negb (Py.truthy name) then None else
  (* the HTTP method and path *)
  match find_next soup section "h3" with
  | None => None
  | Some h3 =>
      let http_path := get_text true (elt h3) in
      match Re.re_match method_path http_path with
      | Some [http_method; path] =>
          Some {| resource := resource_name;
                  name := name;
                  http_method := http_method;
                  path := path;
                  description := first_paragraph soup h3;
                  parameters := table_parameters soup section;
                  examples :=
                    RequestResponse
                      (example_block soup section "Example Request")
                      (example_block soup section "Example Response") |}
      | _ => None
      end
  end.

Definition parse_canvas_api_page (soup : node) (resource_name : string)
  : list endpoint :=
  let method_sections := select_children soup ["div"; "div"; "h2"] in
  omap (fun section => extract_endpoint_from_section soup section resource_name)
       method_sections.

End canvas_scraper.

(** ** utils/scraper_utils.py *)

Module scraper_utils.
Import Bs4 models.

(** What a call does: it returns, or an exception leaves it. *)
Inductive outcome (A : Type) : Type :=
| Return (a : A)
| Raise (exn : string).
Arguments Return {A} a.
Arguments Raise {A} exn.

Definition methods : Re.regex :=
  Re.Alt (Re.Lit "GET") (Re.Alt (Re.Lit "POST") (Re.Alt (Re.Lit "PUT")
    (Re.Alt (Re.Lit "DELETE") (Re.Lit "PATCH")))).

(** [r"(GET|POST|PUT|DELETE|PATCH)\s+(/[^\s]+)"] *)
Definition strict_pattern : Re.regex :=
  Re.Cat (Re.Grp methods)
    (Re.Cat (Re.Plus Re.space)
            (Re.Grp (Re.Cat (Re.Lit "/") (Re.Plus Re.not_space)))).

(** [r"(GET|POST|PUT|DELETE|PATCH)\s+([\/\w\.\-]+)"] *)
Definition loose_pattern : Re.regex :=
  Re.Cat (Re.Grp methods)
    (Re.Cat (Re.Plus Re.space) (Re.Grp (Re.Plus Re.path_char))).

Definition match_method_text (method_text : string) : option (list string) :=
  match Re.re_search strict_pattern method_text with
  | Some g => Some g
  | None => Re.re_search loose_pattern method_text
  end.

(** [not current], for what [next_sibling] gives: [None], or a string
    without characters. *)
Definition falsy (current : option element) : bool :=
  match current with
  | None => true
  | Some e => match elt e with NavigableString "" => true | _ => false end
  end.

(** The loop over the next siblings, [n] rounds of it: the description it
    finds, if any. *)
Fixpoint scan_siblings (soup : node) (n : nat) (current : option element)
  : option string :=
  match n with
  | 0 => None
  | S n' =>
      match current with
      | None => None
      | Some cur =>
          if falsy current then None else
          let text := get_text true (elt cur) in
          if (is_tag "p" cur || is_tag "div" cur)
             && Py.truthy text && (10 <? String.length text)
          then Some text
          else scan_siblings soup n' (next_sibling soup cur)
      end
  end.

(** [d[:500] + "..." if len(d) > 500 else d] *)
Definition limit_description (description : string) : string :=
  if 500 <? String.length description
  then Py.slice_to 500 description +:+ "..."
  else description.

(** The name taken from the path: its last segment, the path itself when
    that segment is empty, and a synthesized name as the last resort. *)
Definition name_of_path (http_method path resource_name : string) : string :=
  let name_parts := Py.split "/" path in
  let name :=
    match last name_parts with
    | Some l => if Py.truthy l then l else path
    | None => path
    end in
  if negb (Py.truthy name) || String.eqb name "/"
  then http_method +:+ " " +:+ resource_name +:+ " endpoint"
  else name.

(** The end of [parse_api_method], from the generic description on. *)
Definition finish (resource_name http_method path description : string)
  : outcome (option endpoint) :=
  let description :=
    if negb (Py.truthy description)
    then "API endpoint for " +:+ path
    else description in
  let description := limit_description description in
  let name := name_of_path http_method path resource_name in
  Return (Some {| resource := resource_name;
                  name := name;
                  http_method := http_method;
                  path := path;
                  description := description;
                  parameters := [];
                  examples := Example None |}).

Definition parse_api_method (soup : node) (method_element : element)
    (resource_name : string) : outcome (option endpoint) :=
  let method_text := get_text true (elt method_element) in
  match match_method_text method_text with
  | Some [http_method; path] =>
      (* the description in the next siblings *)
      let found := scan_siblings soup 10 (next_sibling soup method_element) in
      let description := default "" found in
      if negb (bool_decide (is_Some found)) && negb (is_a_tag method_element)
      then Raise "AttributeError" (* a string has no [get] *)
      else
      (* the title attribute *)
      let title := Bs4.get (elt method_element) "title" in
      let description :=
        match found, title with
        | None, Some t => if Py.truthy t then t else description
        | _, _ => description
        end in
      (* the text of the parent, without the text of the heading *)
      if negb (Py.truthy description)
      then match parent soup method_element with
           | None => Raise "AttributeError" (* [None] has no [get_text] *)
           | Some up =>
               let parent_text := get_text true (elt up) in
               if Py.truthy parent_text
                  && negb (String.eqb parent_text method_text)
               then finish resource_name http_method path
                      (Py.strip (Py.replace method_text "" parent_text))
               else finish resource_name http_method path description
           end
      else finish resource_name http_method path description
  | _ => Return None
  end.

End scraper_utils.

(** ** utils/data_utils.py *)

Module data_utils.
Import models.

Record row : Type :=
  { row_resource : string;
    row_name : string;
    row_http_method : string;
    row_path : string;
    row_description : string;
    row_scope : string;
    parameter_count : nat }.

(** [r"<code>(.*?)</code>"] *)
Definition code_pattern : Re.regex :=
  Re.Cat (Re.Lit "<code>")
    (Re.Cat (Re.Grp (Re.LazyStar Re.any)) (Re.Lit "</code>")).

(** The key [description] is in every endpoint dict, so that
    [endpoint.get("description", "")] is the field. *)
Definition extract_scope (endpoint : endpoint) : string :=
  let description := description endpoint in
  if Py.contains "Scope:" description then
    let scope_parts := Py.split "Scope:" description in
    if 1 <? length scope_parts then
      let part := default "" (scope_parts !! 1) in
      match Re.re_search code_pattern part with
      | Some code_match => default "" (code_match !! 0)
      | None =>
          let end_pos := Py.find "." part in
          let end_pos :=
            if (end_pos =? -1)%Z then Py.find (String "010" "") part
            else end_pos in
          if (end_pos =? -1)%Z then Py.strip part
          else Py.strip (Py.slice_to (Z.to_nat end_pos) part)
      end
    else ""
  else "".

(** [d[:200] + "..." if len(d) > 200 else d] *)
Definition csv_description (description : string) : string :=
  if 200 <? String.length description
  then Py.slice_to 200 description +:+ "..."
  else description.

Definition csv_row (endpoint : endpoint) : row :=
  {| row_resource := resource endpoint;
     row_name := name endpoint;
     row_http_method := http_method endpoint;
     row_path := path endpoint;
     row_description := csv_description (description endpoint);
     row_scope := extract_scope endpoint;
     parameter_count := length (parameters endpoint) |}.

(** The rows that [save_endpoints_to_csv] writes after the header; nothing
    is written for an empty list. *)
Definition save_endpoints_to_csv (endpoints : list endpoint) : list row :=
  match endpoints with
  | [] => []
  | _ => List.map csv_row endpoints
  end.

End data_utils.

(** ** config.py *)

Module config.

Definition BASE_URL : string := "https://canvas.instructure.com/doc/api/".

Definition RESOURCE_LINKS : list string :=
  [ "users.html"; "courses.html"; "accounts.html"; "enrollments.html";
    "assignments.html"; "submissions.html"; "files.html"; "groups.html";
    "discussion_topics.html"; "modules.html"; "pages.html"; "quizzes.html" ].

Definition REQUIRED_KEYS : list string :=
  [ "resource"; "name"; "http_method"; "path"; "description" ].

End config.

(** ** main.py *)

Module main.
Import models.

(** The two accumulators of [crawl_canvas_api]. *)
Record state : Type :=
  { all_endpoints : list endpoint;
    seen_endpoint_ids : gset string }.

Definition initial : state :=
  {| all_endpoints := []; seen_endpoint_ids := ∅ |}.

(** [f"{endpoint['resource']}_{endpoint['http_method']}_{endpoint['path']}"] *)
Definition endpoint_id (endpoint : endpoint) : string :=
  resource endpoint +:+ "_" +:+ http_method endpoint +:+ "_" +:+ path endpoint.

(** [all(key in endpoint and endpoint[key] for key in REQUIRED_KEYS)] *)
Definition has_required_keys (endpoint : endpoint) : bool :=
  forallb (fun key =>
             match getitem endpoint key with
             | Some v => truth v
             | None => false
             end)
          config.REQUIRED_KEYS.

(** The body of the filter-and-deduplicate loop. *)
Definition filter_step (st : state) (endpoint : endpoint) : state :=
  if bool_decide (endpoint_id endpoint ∈ seen_endpoint_ids st) then st
  else if negb (has_required_keys endpoint) then st
  else {| all_endpoints := all_endpoints st ++ [endpoint];
          seen_endpoint_ids := {[ endpoint_id endpoint ]} ∪ seen_endpoint_ids st |}.

Definition filter_endpoints (st : state) (endpoints : list endpoint) : state :=
  foldl filter_step st endpoints.

(** What [crawler.arun] gives back, the page already parsed. *)
Record crawl_result : Type :=
  { success : bool; cleaned_html : Bs4.node }.

(** One round of the loop over the resource pages, for a page whose
    resource name and crawl result are given: a failed fetch is passed
    over, the endpoints of a fetched page are filtered. *)
Definition crawl_step (st : state) (page : string * crawl_result) : state :=
  let (resource_name, result) := page in
  if negb (success result) then st
  else filter_endpoints st
         (canvas_scraper.parse_canvas_api_page (cleaned_html result) resource_name).

Definition crawl_pages (pages : list (string * crawl_result)) : state :=
  foldl crawl_step initial pages.

(** The resource name from the file name: ["users.html"] gives ["Users"]. *)
Definition resource_name_of (resource_link : string) : string :=
  Py.capitalize (Py.replace ".html" "" resource_link).

(** The pages of a run: for every link of the configuration, the name of
    the resource and what [arun] gives for its URL. *)
Definition pages_of (arun : string -> crawl_result) (links : list string)
  : list (string * crawl_result) :=
  (fun resource_link =>
     (resource_name_of resource_link,
      arun (config.BASE_URL +:+ resource_link))) <$> links.

(** The loop of [crawl_canvas_api], [arun] being the crawler. *)
Definition crawl_canvas_api (arun : string -> crawl_result) : state :=
  crawl_pages (pages_of arun config.RESOURCE_LINKS).

(** The rows of the CSV file written at the end. *)
Definition saved_rows (final : state) : list data_utils.row :=
  data_utils.save_endpoints_to_csv (all_endpoints final).

End main.

(** ** States of the aggregation that a run can reach *)

Inductive reachable : main.state -> Prop :=
| reachable_initial : reachable main.initial
| reachable_step st endpoint :
    reachable st -> reachable (main.filter_step st endpoint).

(** The identity of an endpoint as the specification has it. *)
Definition identity (e : models.endpoint) : string * string * string :=
  (models.resource e, models.http_method e, models.path e).

(** The required-field gate, field by field. *)
Definition required_fields_present (e : models.endpoint) : Prop :=
  models.resource e ≠ "" ∧ models.name e ≠ "" ∧ models.http_method e ≠ ""
  ∧ models.path e ≠ "" ∧ models.description e ≠ "".

(** The aggregation as the specification words it: a candidate is kept when
    its key has not been seen and its required fields are there, and its key
    is seen from then on. *)
Fixpoint first_seen (seen : gset string) (candidates : list models.endpoint)
  : list models.endpoint :=
  match candidates with
  | [] => []
  | e :: rest =>
      if bool_decide (main.endpoint_id e ∈ seen) then first_seen seen rest
      else if bool_decide (required_fields_present e)
           then e :: first_seen ({[ main.endpoint_id e ]} ∪ seen) rest
           else first_seen seen rest
  end.

(** The batch of candidates that a page contributes: what the extractor
    finds on it, nothing when the fetch failed. *)
Definition batch_of (page : string * main.crawl_result) : list models.endpoint :=
  if main.success page.2
  then canvas_scraper.parse_canvas_api_page (main.cleaned_html page.2) page.1
  else [].

(** The accepted records and the seen-set go together. *)
Definition coherent (st : main.state) : Prop :=
  NoDup (main.endpoint_id <$> main.all_endpoints st)
  ∧ ∀ e, e ∈ main.all_endpoints st →
         main.endpoint_id e ∈ main.seen_endpoint_ids st.

(** Where a listed element is: strictly below the node listed, at the place
    its position says. *)
Definition placed (n : Bs4.node) : Prop :=
  ∀ p e, e ∈ Bs4.descendants p n →
         ∃ q, q ≠ [] ∧ Bs4.pos e = p ++ q ∧ Bs4.node_at n q = Some (Bs4.elt e).

(** ** Documents and candidates used as examples *)

Module scenarios.
Import Bs4 models.

Definition txt : string -> node := NavigableString.
Definition el (nm : string) (cs : list node) : node := Tag nm [] cs.
Definition document (cs : list node) : node := Tag "[document]" [] cs.

(** A parameters table: a header row and two rows of three cells. *)
Definition users_table : node :=
  el "table"
    [ el "tr" [ el "th" [txt "Parameter"]; el "th" [txt "Type"];
                el "th" [txt "Description"] ];
      el "tr" [ el "td" [txt "id"]; el "td" [txt "integer"];
                el "td" [txt "The user id."] ];
      el "tr" [ el "td" [txt "name"]; el "td" [txt "string"];
                el "td" [txt "The user name."] ] ].

(** The heading itself reads [GET /api/v1/users]; the paragraph and the
    table follow it. *)
Definition heading_only : node :=
  document [ el "div" [ el "div"
    [ el "h2" [txt "GET /api/v1/users"];
      el "p" [txt "Lists users."];
      users_table ] ] ].

(** The same, the text of the heading inside an anchor. *)
Definition heading_anchor : node :=
  document [ el "div" [ el "div"
    [ el "h2" [ el "a" [txt "GET /api/v1/users"] ];
      el "p" [txt "Lists users."];
      users_table ] ] ].

(** The layout of the Canvas pages: the name in an anchor of the [h2], the
    method and path in the [h3] that follows. *)
Definition canvas_layout : node :=
  document [ el "div" [ el "div"
    [ el "h2" [ el "a" [txt "List users"] ];
      el "h3" [txt "GET /api/v1/users"];
      el "p" [txt "Lists users."];
      users_table ] ] ].

(** An [h2] without an anchor before a well-formed [h3], and the same
    page with an anchor and nothing but the [h3] after it. *)
Definition no_anchor : node :=
  document [ el "div" [ el "div"
    [ el "h2" [txt "List users"];
      el "h3" [txt "GET /api/v1/users"];
      el "p" [txt "Lists users."];
      users_table ] ] ].

Definition anchor_and_h3_only : node :=
  document [ el "div" [ el "div"
    [ el "h2" [ el "a" [txt "List users"] ];
      el "h3" [txt "GET /api/v1/users"] ] ] ].

(** A heading alone in its container, for [parse_api_method]. *)
Definition lone_heading : node :=
  document [ el "div" [ Tag "h2" [("class", "api_method_name")]
                          [txt "PATCH /api/v1/users/:id"] ] ].

Definition first_h2 (soup : node) : element :=
  default (root soup) (head (select_children soup ["div"; "div"; "h2"])).

Definition lone_h2 : element :=
  Element [0; 0] (Tag "h2" [("class", "api_method_name")]
                            [txt "PATCH /api/v1/users/:id"]).

(** Two sections; the first heading has an anchor and no [h3] of its
    own. *)
Definition two_sections : node :=
  document [ el "div" [ el "div"
    [ el "h2" [ el "a" [txt "First"] ];
      el "p" [txt "An overview without a method line."];
      el "h2" [ el "a" [txt "Second"] ];
      el "h3" [txt "GET /api/v1/second"];
      el "p" [txt "Lists the second things."];
      users_table;
      el "h4" [txt "Example Request:"];
      el "pre" [txt "curl https://canvas/api/v1/second"] ] ] ].

(** A paragraph of 600 characters after a Canvas heading. *)
Definition long_text : string :=
  String.string_of_list_ascii (repeat "x"%char 600).

Definition long_paragraph : node :=
  document [ el "div" [ el "div"
    [ el "h2" [ el "a" [txt "List users"] ];
      el "h3" [txt "GET /api/v1/users"];
      el "p" [txt long_text] ] ] ].

(** A heading that reads [FETCH /foo], in both layouts. *)
Definition fetch_page : node :=
  document [ el "div" [ el "div"
    [ el "h2" [ el "a" [txt "FETCH /foo"] ];
      el "h3" [txt "FETCH /foo"];
      el "p" [txt "Fetches a foo."] ] ] ].

(** Two candidates with different identities and one key. *)
Definition under_a : endpoint :=
  {| resource := "A"; name := "first"; http_method := "GET";
     path := "/x_POST_/y"; description := "The first one.";
     parameters := []; examples := RequestResponse "" "" |}.

Definition under_a_get_x : endpoint :=
  {| resource := "A_GET_/x"; name := "second"; http_method := "POST";
     path := "/y"; description := "The second one.";
     parameters := []; examples := RequestResponse "" "" |}.

Definition with_description (d : string) : endpoint :=
  {| resource := "Users"; name := "List users"; http_method := "GET";
     path := "/api/v1/users"; description := d;
     parameters := []; examples := RequestResponse "" "" |}.

End scenarios.

(** ** utils/scraper_utils.py: the selection of the headings *)

Module selectors.
Import Bs4.

(** The values of a [class] attribute: the maximal runs of characters that
    are not white space.  [cur] is the current run, last character first. *)
Fixpoint tokens_go (cur : string) (s : string) : list string :=
  match s with
  | "" => match cur with "" => [] | _ => [String.rev cur] end
  | String c s' =>
      if Py.isspace c
      then match cur with
           | "" => tokens_go "" s'
           | _ => String.rev cur :: tokens_go "" s'
           end
      else tokens_go (String c cur) s'
  end.

Definition tokens (s : string) : list string := tokens_go "" s.

Definition has_class (cls : string) (e : element) : bool :=
  match get (elt e) "class" with
  | Some v => bool_decide (cls ∈ tokens v)
  | None => false
  end.

Definition has_id (i : string) (e : element) : bool :=
  match get (elt e) "id" with
  | Some v => String.eqb v i
  | None => false
  end.

(** The ancestors of the element at [p], the nearest first: the elements
    at the proper prefixes of [p], the root left out. *)
Fixpoint ancestors_at (soup : node) (p : list nat) (n : nat) : list element :=
  match n with
  | 0 => []
  | S n' =>
      match p with
      | [] => []
      | _ =>
          let up := removelast p in
          match up, node_at soup up with
          | _ :: _, Some x => Element up x :: ancestors_at soup up n'
          | _, _ => []
          end
      end
  end.

Definition ancestors (soup : node) (e : element) : list element :=
  ancestors_at soup (pos e) (length (pos e)).

(** [soup.select("nm.cls")] *)
Definition select_class (soup : node) (nm cls : string) : list element :=
  List.filter (fun e => is_tag nm e && has_class cls e) (descendants [] soup).

(** [soup.select("outer#i nm")] *)
Definition select_under_id (soup : node) (outer i nm : string) : list element :=
  List.filter
    (fun e => is_tag nm e
              && existsb (fun up => is_tag outer up && has_id i up)
                         (ancestors soup e))
    (descendants [] soup).

End selectors.

Module scraper_pages.
Import Bs4 models scraper_utils.

(** The headings that [extract_api_endpoints] goes through: the [h2] of
    class [api_method_name] or, when there is none, the [h2] under
    [div#content] whose text has a method and a path. *)
Definition api_methods (soup : node) : list element :=
  match selectors.select_class soup "h2" "api_method_name" with
  | [] =>
      List.filter
        (fun method =>
           bool_decide (is_Some (Re.re_search strict_pattern
                                   (get_text true (elt method)))))
        (selectors.select_under_id soup "div" "content" "h2")
  | found => found
  end.

(** The loop over the headings: the records of those that give one, unless
    a call raises. *)
Fixpoint parse_all (soup : node) (methods : list element)
    (resource_name : string) : outcome (list endpoint) :=
  match methods with
  | [] => Return []
  | method :: rest =>
      match parse_api_method soup method resource_name with
      | Raise exn => Raise exn
      | Return endpoint =>
          match parse_all soup rest resource_name with
          | Raise exn => Raise exn
          | Return endpoints =>
              Return (match endpoint with
                      | Some e => e :: endpoints
                      | None => endpoints
                      end)
          end
      end
  end.

(** [extract_api_endpoints], [result] being what the crawler gave for the
    page. *)
Definition extract_api_endpoints (result : main.crawl_result)
    (resource_name : string) : outcome (list endpoint) :=
  if negb (main.success result) then Return []
  else
    let soup := main.cleaned_html result in
    parse_all soup (api_methods soup) resource_name.

End scraper_pages.

(** The element reached from [current] by [k] steps of [next_sibling]. *)
Fixpoint walk_siblings (soup : Bs4.node) (k : nat)
    (current : option Bs4.element) : option Bs4.element :=
  match k, current with
  | 0, _ => current
  | S k', Some cur => walk_siblings soup k' (Bs4.next_sibling soup cur)
  | S _, None => None
  end.

(** ** Character-wise conditions on strings *)

(** Every character of [s] is in the class [p]. *)
Fixpoint all_chars (p : ascii -> bool) (s : string) : bool :=
  match s with
  | "" => true
  | String c s' => p c && all_chars p s'
  end.

Definition not_slash (c : ascii) : bool := negb (nat_of_ascii c =? 47).

(** [s] does not start with white space, and does not end with it. *)
Definition starts_clean (s : string) : bool :=
  match s with
  | "" => true
  | String c _ => negb (Py.isspace c)
  end.

Fixpoint ends_clean (s : string) : bool :=
  match s with
  | "" => true
  | String c "" => negb (Py.isspace c)
  | String _ s' => ends_clean s'
  end.

(** [s] has no white space at either end: [s.strip() == s]. *)
Definition stripped (s : string) : bool := starts_clean s && ends_clean s.

(** The identity of a row of the table. *)
Definition row_identity (r : data_utils.row) : string * string * string :=
  (data_utils.row_resource r, data_utils.row_http_method r, data_utils.row_path r).

Module more_scenarios.
Import Bs4 models scenarios.

(** A page whose headings carry the class, one of them without a method. *)
Definition classed_page : node :=
  document [ el "div"
    [ Tag "h2" [("class", "title api_method_name")] [txt "GET /api/v1/users"];
      el "p" [txt "Lists the users of an account."];
      Tag "h2" [("class", "api_method_name")] [txt "Overview"];
      el "h2" [txt "DELETE /api/v1/users/:id"] ] ].

(** A page without the class: the headings under [div#content] count. *)
Definition content_page : node :=
  document
    [ el "h2" [txt "GET /outside"];
      Tag "div" [("id", "content")]
        [ el "section"
            [ el "h2" [txt "PUT /api/v1/users/:id"];
              el "h2" [txt "About this page"] ] ] ].

Definition fetched (soup : node) : main.crawl_result :=
  {| main.success := true; main.cleaned_html := soup |}.

Definition failed : main.crawl_result :=
  {| main.success := false; main.cleaned_html := document [] |}.

(** A Canvas section without a paragraph after the method line. *)
Definition no_paragraph : node :=
  document [ el "div" [ el "div"
    [ el "h2" [ el "a" [txt "List users"] ];
      el "h3" [txt "GET /api/v1/users"] ] ] ].

(** The records that [canvas_scraper] gives for [canvas_layout] and for
    [no_paragraph]. *)
Definition users_record : endpoint :=
  {| resource := "Users"; name := "List users"; http_method := "GET";
     path := "/api/v1/users"; description := "Lists users.";
     parameters :=
       [ {| param_name := "id"; param_type := "integer";
            param_desc := "The user id." |};
         {| param_name := "name"; param_type := "string";
            param_desc := "The user name." |} ];
     examples := RequestResponse "" "" |}.

Definition bare_record : endpoint :=
  {| resource := "Users"; name := "List users"; http_method := "GET";
     path := "/api/v1/users"; description := "";
     parameters := []; examples := RequestResponse "" "" |}.

End more_scenarios.

(** ** The aggregation with the key written out *)

(** The identity key of the specification: the resource, the method and
    the path, joined by underscores. *)
Definition identity_key (e : models.endpoint) : string :=
  models.resource e +:+ "_" +:+ models.http_method e +:+ "_" +:+ models.path e.

(** The aggregation as the specification words it, on that key: a candidate
    is kept when its key has not been seen and its required fields are
    there, and its key is seen from then on. *)
Fixpoint first_seen_by_key (seen : gset string)
    (candidates : list models.endpoint) : list models.endpoint :=
  match candidates with
  | [] => []
  | e :: rest =>
      if bool_decide (identity_key e ∈ seen) then first_seen_by_key seen rest
      else if bool_decide (required_fields_present e)
           then e :: first_seen_by_key ({[ identity_key e ]} ∪ seen) rest
           else first_seen_by_key seen rest
  end.

(** ** Conditions on the siblings of a heading *)

(** A sibling that the search of [parse_api_method] stops at: a [p] or a
    [div] whose stripped text has more than ten characters. *)
Definition substantial (e : Bs4.element) : bool :=
  (Bs4.is_tag "p" e || Bs4.is_tag "div" e)
  && Py.truthy (Bs4.get_text true (Bs4.elt e))
  && (10 <? String.length (Bs4.get_text true (Bs4.elt e))).

(** The text of cell number [i] of a row, stripped. *)
Definition cell_text (cells : list Bs4.element) (i : nat) : string :=
  default "" (Bs4.get_text true ∘ Bs4.elt <$> cells !! i).

Module cap_scenarios.
Import Bs4 models scenarios.

Definition heading : node := el "h2" [txt "GET /api/v1/users"].

(** A paragraph of 600 characters after the heading. *)
Definition long_sibling_page : node :=
  document [ el "div" [ heading; el "p" [txt long_text] ] ].

(** A title of 600 characters on the heading, nothing after it. *)
Definition titled_heading : node :=
  Tag "h2" [("title", long_text)] [txt "GET /api/v1/users"].

Definition long_title_page : node :=
  document [ el "div" [ titled_heading ] ].

(** 600 characters in the parent, in an element that the search of the
    siblings passes over. *)
Definition long_parent_page : node :=
  document [ el "div" [ heading; el "span" [txt long_text] ] ].

(** A heading with a title, ten short siblings, and a paragraph as the
    eleventh. *)
Definition described_heading : node :=
  Tag "h2" [("title", "Described by its title.")] [txt "GET /api/v1/users"].

Definition eleven_siblings : node :=
  document [ el "div"
    ([ described_heading ]
     ++ repeat (el "span" [txt "s"]) 10
     ++ [ el "p" [txt "A paragraph that is too far away."] ]) ].

(** Text between the heading and the paragraph. *)
Definition spaced_page : node :=
  document [ el "div"
    [ heading; txt " and "; el "p" [txt "Lists the users of an account."] ] ].

End cap_scenarios.

(** ** The two cuts of a description *)

(** The record [e] has the raw description [raw] cut to its first 500
    characters and an ellipsis, and its row in the table has that cut to the
    first 200 characters and an ellipsis. *)
Definition cut_twice (raw : string) (e : models.endpoint) : Prop :=
  models.description e = Py.slice_to 500 raw +:+ "..."
  ∧ String.length (models.description e) = 503
  ∧ data_utils.row_description (data_utils.csv_row e)
    = Py.slice_to 200 raw +:+ "..."
  ∧ String.length (data_utils.row_description (data_utils.csv_row e)) = 203.

(** * Properties *)

(** ** The embedded operations on small inputs *)

Example strip_both_ends : Py.strip "  a b  " = "a b".
Proof. reflexivity. Qed.

Example split_a_path : Py.split "/" "/api/v1/users" = [""; "api"; "v1"; "users"].
Proof. reflexivity. Qed.

Example split_overlapping : Py.split "aa" "aaa" = [""; "a"].
Proof. reflexivity. Qed.

Example replace_every_occurrence : Py.replace "ab" "" "xabyabab" = "xy".
Proof. reflexivity. Qed.

Example find_absent : Py.find "." "no period" = (-1)%Z.
Proof. reflexivity. Qed.

Example match_at_the_start :
  Re.re_match canvas_scraper.method_path "GET   /api/v1/users and more"
  = Some ["GET"; "/api/v1/users"].
Proof. reflexivity. Qed.

Example match_needs_the_start :
  Re.re_match canvas_scraper.method_path "see GET /api/v1/users" = None.
Proof. reflexivity. Qed.

Example patch_is_not_a_canvas_method :
  Re.re_match canvas_scraper.method_path "PATCH /api/v1/users" = None.
Proof. reflexivity. Qed.

Example search_finds_a_method_inside_a_word :
  scraper_utils.match_method_text "FORGET /foo" = Some ["GET"; "/foo"].
Proof. reflexivity. Qed.

Example loose_pattern_takes_a_bare_slash :
  scraper_utils.match_method_text "GET /" = Some ["GET"; "/"].
Proof. reflexivity. Qed.

Example name_is_the_last_segment :
  scraper_utils.name_of_path "GET" "/api/v1/users" "Users" = "users".
Proof. reflexivity. Qed.

Example name_synthesized_for_a_bare_slash :
  scraper_utils.name_of_path "GET" "/" "Users" = "GET Users endpoint".
Proof. reflexivity. Qed.

Example text_of_a_table_row :
  Bs4.get_text true
    (scenarios.el "tr" [ scenarios.el "td" [scenarios.txt " id "];
                         scenarios.txt "  ";
                         scenarios.el "td" [scenarios.txt "integer"] ])
  = "idinteger".
Proof. reflexivity. Qed.

Example resource_names_of_the_configuration :
  main.resource_name_of <$> take 3 config.RESOURCE_LINKS
  = ["Users"; "Courses"; "Accounts"]
  ∧ main.resource_name_of "discussion_topics.html" = "Discussion_topics".
Proof. split; reflexivity. Qed.

Example headings_selected_in_document_order :
  Bs4.pos <$> Bs4.select_children scenarios.two_sections ["div"; "div"; "h2"]
  = [[0; 0; 0]; [0; 0; 2]].
Proof. reflexivity. Qed.

(** ** Strings *)

Lemma truthy_true (s : string) : Py.truthy s = true ↔ s ≠ "".
Proof. destruct s; simpl; split; try done. Qed.

Lemma truthy_false (s : string) : Py.truthy s = false ↔ s = "".
Proof. destruct s; simpl; split; try done. Qed.

Lemma append_cons (c : ascii) (a b : string) : String c a +:+ b = String c (a +:+ b).
Proof. reflexivity. Qed.

Lemma append_empty (b : string) : "" +:+ b = b.
Proof. reflexivity. Qed.

Lemma length_append (a b : string) :
  String.length (a +:+ b) = String.length a + String.length b.
Proof.
  induction a as [|c a IH]; [done |].
  rewrite append_cons. simpl. by rewrite IH.
Qed.

Lemma append_nonempty_l (a b : string) : a ≠ "" → a +:+ b ≠ "".
Proof. destruct a; [done |]. by rewrite append_cons. Qed.

Lemma append_nonempty_r (a b : string) : b ≠ "" → a +:+ b ≠ "".
Proof. destruct a; [done |]. by rewrite append_cons. Qed.

Lemma prefix_split (p s : string) :
  String.prefix p s = true → s = p +:+ Py.slice_from (String.length p) s.
Proof.
  revert s. induction p as [|c p IH]; intros s H.
  - by destruct s.
  - destruct s as [|d s]; simpl in H; [done |].
    destruct (Ascii.ascii_dec c d) as [->|]; [| done].
    rewrite append_cons. simpl. f_equal. by apply IH.
Qed.

Lemma prefix_append (p r : string) : String.prefix p (p +:+ r) = true.
Proof.
  induction p as [|c p IH]; [by destruct r |].
  rewrite append_cons. simpl. by destruct (Ascii.ascii_dec c c).
Qed.

Lemma slice_to_append (a b : string) : Py.slice_to (String.length a) (a +:+ b) = a.
Proof.
  induction a as [|c a IH]; [by destruct b |].
  rewrite append_cons. simpl. by rewrite IH.
Qed.

Lemma slice_to_length (n : nat) (s : string) :
  String.length (Py.slice_to n s) = n `min` String.length s.
Proof.
  revert s. induction n as [|n IH]; intros [|c s]; simpl; try done.
  by rewrite IH.
Qed.

Lemma consumed_append (a b : string) : Re.consumed (a +:+ b) b = a.
Proof.
  unfold Re.consumed. rewrite length_append.
  replace (String.length a + String.length b - String.length b)
    with (String.length a) by lia.
  apply slice_to_append.
Qed.

Lemma find_unfold (sub s : string) :
  Py.find sub s =
    if String.prefix sub s then 0%Z
    else match s with
         | "" => (-1)%Z
         | String _ s' =>
             match Py.find sub s' with
             | Zneg _ => (-1)%Z
             | i => (i + 1)%Z
             end
         end.
Proof. by destruct s. Qed.

(** [sub in s] holds exactly when [s] splits around an occurrence of
    [sub]. *)
Lemma find_nonneg_split (sub s : string) :
  (0 <= Py.find sub s)%Z → ∃ a b, s = a +:+ sub +:+ b.
Proof.
  induction s as [|c s IH]; rewrite find_unfold;
    destruct (String.prefix sub _) eqn:Hp.
  - intros _. exists "", "". by destruct sub.
  - intros; lia.
  - intros _. exists "". eexists. rewrite append_empty. by apply prefix_split.
  - intros H. destruct IH as (a & b & ->).
    { destruct (Py.find sub s); lia. }
    by exists (String c a), b.
Qed.

Lemma find_split_nonneg (sub a b : string) : (0 <= Py.find sub (a +:+ sub +:+ b))%Z.
Proof.
  induction a as [|c a IH]; rewrite find_unfold.
  - rewrite append_empty, prefix_append. lia.
  - destruct (String.prefix sub _); [lia |]. rewrite append_cons.
    destruct (Py.find sub (a +:+ sub +:+ b)); lia.
Qed.

Lemma contains_spec (sub s : string) :
  Py.contains sub s = true ↔ ∃ a b, s = a +:+ sub +:+ b.
Proof.
  unfold Py.contains. rewrite Z.leb_le. split.
  - apply find_nonneg_split.
  - intros (a & b & ->). apply find_split_nonneg.
Qed.

(** ** The filter-and-deduplicate loop *)

Section aggregation.
Import models main.

Lemma has_required_keys_spec (e : endpoint) :
  has_required_keys e = true ↔ required_fields_present e.
Proof.
  unfold required_fields_present. rewrite <- !truthy_true.
  change (has_required_keys e)
    with (Py.truthy (resource e) && (Py.truthy (name e)
          && (Py.truthy (http_method e) && (Py.truthy (path e)
          && (Py.truthy (description e) && true))))).
  rewrite !andb_true_iff. tauto.
Qed.

Lemma has_required_keys_decide (e : endpoint) :
  has_required_keys e = bool_decide (required_fields_present e).
Proof.
  apply eq_true_iff_eq. rewrite bool_decide_eq_true.
  apply has_required_keys_spec.
Qed.

Lemma filter_step_seen (st : state) (e : endpoint) :
  endpoint_id e ∈ seen_endpoint_ids st → filter_step st e = st.
Proof. intros H. unfold filter_step. by rewrite bool_decide_eq_true_2. Qed.

Lemma filter_step_incomplete (st : state) (e : endpoint) :
  ¬ required_fields_present e → filter_step st e = st.
Proof.
  intros H. unfold filter_step. destruct (bool_decide _); [done |].
  rewrite has_required_keys_decide, bool_decide_eq_false_2; done.
Qed.

Lemma filter_step_accept (st : state) (e : endpoint) :
  endpoint_id e ∉ seen_endpoint_ids st → required_fields_present e →
  filter_step st e =
    {| all_endpoints := all_endpoints st ++ [e];
       seen_endpoint_ids := {[ endpoint_id e ]} ∪ seen_endpoint_ids st |}.
Proof.
  intros Hid Hreq. unfold filter_step.
  rewrite bool_decide_eq_false_2 by done.
  by rewrite has_required_keys_decide, bool_decide_eq_true_2.
Qed.

Lemma filter_endpoints_cons (st : state) (e : endpoint) (l : list endpoint) :
  filter_endpoints st (e :: l) = filter_endpoints (filter_step st e) l.
Proof. reflexivity. Qed.

Lemma filter_endpoints_app (st : state) (l1 l2 : list endpoint) :
  filter_endpoints st (l1 ++ l2) = filter_endpoints (filter_endpoints st l1) l2.
Proof. apply foldl_app. Qed.

Lemma filter_batches_concat (st : state) (batches : list (list endpoint)) :
  foldl filter_endpoints st batches = filter_endpoints st (concat batches).
Proof.
  revert st. induction batches as [|b bs IH]; intros st; [done |].
  simpl. by rewrite IH, filter_endpoints_app.
Qed.

(** The loop computes the first-seen selection of the specification. *)
Lemma filter_endpoints_first_seen (l : list endpoint) (st : state) :
  all_endpoints (filter_endpoints st l)
  = all_endpoints st ++ first_seen (seen_endpoint_ids st) l.
Proof.
  revert st. induction l as [|e l IH]; intros st.
  - simpl. by rewrite app_nil_r.
  - rewrite filter_endpoints_cons, IH. simpl.
    unfold filter_step. rewrite has_required_keys_decide.
    destruct (bool_decide (endpoint_id e ∈ _)); [done |].
    destruct (bool_decide (required_fields_present e)); simpl; [| done].
    by rewrite <- app_assoc.
Qed.

Lemma first_seen_sublist (seen : gset string) (l : list endpoint) :
  first_seen seen l `sublist_of` l.
Proof.
  revert seen. induction l as [|e l IH]; intros seen; simpl; [done |].
  destruct (bool_decide _); [by apply sublist_cons |].
  destruct (bool_decide _); [by apply sublist_skip | by apply sublist_cons].
Qed.

Lemma first_seen_required (seen : gset string) (l : list endpoint) (e : endpoint) :
  e ∈ first_seen seen l → required_fields_present e.
Proof.
  revert seen. induction l as [|x l IH]; intros seen; simpl.
  - by intros ?%elem_of_nil.
  - destruct (bool_decide (_ ∈ _)); [by apply IH |].
    destruct (bool_decide (required_fields_present x)) eqn:Hx; [| by apply IH].
    apply bool_decide_eq_true in Hx.
    intros [->|H]%elem_of_cons; [done | by eapply IH].
Qed.

Lemma first_seen_fresh (seen : gset string) (l : list endpoint) (e : endpoint) :
  e ∈ first_seen seen l → endpoint_id e ∉ seen.
Proof.
  revert seen. induction l as [|x l IH]; intros seen; simpl.
  - by intros ?%elem_of_nil.
  - destruct (bool_decide (_ ∈ _)) eqn:Hs; [by apply IH |].
    apply bool_decide_eq_false in Hs.
    destruct (bool_decide (required_fields_present x)); [| by apply IH].
    intros [->|H]%elem_of_cons; [done |].
    apply IH in H. set_solver.
Qed.

Lemma first_seen_NoDup (seen : gset string) (l : list endpoint) :
  NoDup (endpoint_id <$> first_seen seen l).
Proof.
  revert seen. induction l as [|x l IH]; intros seen; simpl.
  - constructor.
  - destruct (bool_decide (_ ∈ _)); [by apply IH |].
    destruct (bool_decide (required_fields_present x)); [| by apply IH].
    rewrite fmap_cons. constructor; [| by apply IH].
    intros (e & Heq & He)%list_elem_of_fmap.
    apply first_seen_fresh in He. set_solver.
Qed.

Lemma seen_step_mono (st : state) (e : endpoint) :
  seen_endpoint_ids st ⊆ seen_endpoint_ids (filter_step st e).
Proof.
  unfold filter_step. destruct (bool_decide _); [done |].
  destruct (negb _); [done |]. simpl. set_solver.
Qed.

Lemma seen_mono (l : list endpoint) (st : state) :
  seen_endpoint_ids st ⊆ seen_endpoint_ids (filter_endpoints st l).
Proof.
  revert st. induction l as [|e l IH]; intros st; [done |].
  rewrite filter_endpoints_cons. etrans; [apply (seen_step_mono st e) | apply IH].
Qed.

(** After a batch went through, each of its candidates has its key in the
    seen-set or lacks a required field. *)
Lemma settled_after (l : list endpoint) (st : state) (e : endpoint) :
  e ∈ l →
  endpoint_id e ∈ seen_endpoint_ids (filter_endpoints st l)
  ∨ ¬ required_fields_present e.
Proof.
  revert st. induction l as [|x l IH]; intros st.
  - by intros ?%elem_of_nil.
  - rewrite filter_endpoints_cons. intros [->|H]%elem_of_cons; [| by apply IH].
    destruct (decide (required_fields_present x)) as [Hreq|]; [left | by right].
    apply seen_mono.
    destruct (decide (endpoint_id x ∈ seen_endpoint_ids st)) as [Hin|Hin].
    + by apply seen_step_mono.
    + rewrite filter_step_accept by done. simpl. set_solver.
Qed.

Lemma stable_when_settled (l : list endpoint) (st : state) :
  (∀ e, e ∈ l → endpoint_id e ∈ seen_endpoint_ids st ∨ ¬ required_fields_present e) →
  filter_endpoints st l = st.
Proof.
  induction l as [|x l IH]; intros H; [done |].
  rewrite filter_endpoints_cons.
  assert (filter_step st x = st) as ->.
  { destruct (H x) as [?|?]; [by left | by apply filter_step_seen
                                      | by apply filter_step_incomplete]. }
  apply IH. intros e He. apply H. by right.
Qed.

Lemma coherent_step (st : state) (e : endpoint) :
  coherent st → coherent (filter_step st e).
Proof.
  intros [Hnd Hseen].
  destruct (decide (endpoint_id e ∈ seen_endpoint_ids st)) as [Hin|Hin].
  { by rewrite filter_step_seen. }
  destruct (decide (required_fields_present e)) as [Hreq|Hreq].
  2: { by rewrite filter_step_incomplete. }
  rewrite filter_step_accept by done. split; simpl.
  - rewrite fmap_app. apply NoDup_app. split; [done |]. split.
    + intros k (x & -> & Hx)%list_elem_of_fmap Hk.
      apply list_elem_of_singleton in Hk. apply Hseen in Hx. congruence.
    + apply NoDup_singleton.
  - intros x [Hx| ->%list_elem_of_singleton]%elem_of_app.
    + apply Hseen in Hx. set_solver.
    + set_solver.
Qed.

Lemma reachable_coherent (st : state) : reachable st → coherent st.
Proof.
  induction 1 as [|st e _ IH].
  - split; simpl; [constructor | by intros ? ?%elem_of_nil].
  - by apply coherent_step.
Qed.

Lemma reachable_filter_endpoints (l : list endpoint) (st : state) :
  reachable st → reachable (filter_endpoints st l).
Proof.
  revert st. induction l as [|e l IH]; intros st H; [done |].
  rewrite filter_endpoints_cons. apply IH. by constructor.
Qed.

Lemma reachable_crawl_from (pages : list (string * crawl_result)) (st : state) :
  reachable st → reachable (foldl crawl_step st pages).
Proof.
  revert st. induction pages as [|[nm r] pages IH]; intros st H; [done |].
  simpl. apply IH. destruct (negb _); [done |].
  by apply reachable_filter_endpoints.
Qed.

Lemma reachable_crawl (pages : list (string * crawl_result)) :
  reachable (crawl_pages pages).
Proof. apply reachable_crawl_from. constructor. Qed.

Lemma identity_endpoint_id (e1 e2 : endpoint) :
  identity e1 = identity e2 → endpoint_id e1 = endpoint_id e2.
Proof. unfold identity, endpoint_id. by intros [= -> -> ->]. Qed.

End aggregation.

(** ** Regular expressions *)

Section regex.
Import Re.

Lemma re_match_In (r : regex) (s : string) (g : list string) :
  re_match r s = Some g → ∃ rest, In (g, rest) (matches r s).
Proof.
  unfold re_match. destruct (matches r s) as [|[g' rest] ms]; [done |].
  intros [= <-]. exists rest. by left.
Qed.

Lemma re_search_re_match (r : regex) (s : string) (g : list string) :
  re_search r s = Some g → ∃ s', re_match r s' = Some g.
Proof.
  induction s as [|c s IH]; simpl; destruct (re_match r _) eqn:Hm;
    intros H; simplify_eq; eauto.
Qed.

Lemma matches_Lit (l s : string) (m : list string * string) :
  In m (matches (Lit l) s) → m.1 = [] ∧ s = l +:+ m.2.
Proof.
  simpl. destruct (String.prefix l s) eqn:Hp; [| done].
  intros [<-|[]]. split; [done |]. by apply prefix_split.
Qed.

Lemma matches_Plus (p : ascii → bool) (s : string) (m : list string * string) :
  In m (matches (Plus p) s) → m.1 = [].
Proof. simpl. by intros (rest & <- & _)%in_map_iff. Qed.

Lemma matches_Cat (r1 r2 : regex) (s : string) (m : list string * string) :
  In m (matches (Cat r1 r2) s) →
  ∃ m1 m2, In m1 (matches r1 s) ∧ In m2 (matches r2 m1.2)
           ∧ m = (m1.1 ++ m2.1, m2.2).
Proof.
  simpl. intros (m1 & H1 & (m2 & <- & H2)%in_map_iff)%in_flat_map. eauto.
Qed.

Lemma matches_Grp (r : regex) (s : string) (m : list string * string) :
  In m (matches (Grp r) s) →
  ∃ m1, In m1 (matches r s) ∧ m = (consumed s m1.2 :: m1.1, m1.2).
Proof. simpl. intros (m1 & <- & H1)%in_map_iff. eauto. Qed.

(** A method group followed by white space and a path group: two groups,
    the first being one of the alternatives. *)
Lemma method_then_path (alts : list string) (methods path : regex)
    (s : string) (m : list string * string) :
  (∀ s m, In m (matches methods s) → m.1 = [] ∧ ∃ l, l ∈ alts ∧ s = l +:+ m.2) →
  (∀ s m, In m (matches path s) → m.1 = []) →
  In m (matches (Cat (Grp methods) (Cat (Plus space) (Grp path))) s) →
  ∃ http_method path, m.1 = [http_method; path] ∧ http_method ∈ alts.
Proof.
  intros Hmethods Hpath (m1 & m2 & H1 & H2 & ->)%matches_Cat.
  apply matches_Grp in H1 as (a & Ha & ->).
  apply matches_Cat in H2 as (w & b & Hw & Hb & ->).
  apply matches_Plus in Hw. apply matches_Grp in Hb as (b' & Hb' & ->).
  apply Hpath in Hb'. apply Hmethods in Ha as (Ha & l & Hl & Hs).
  simpl in *. rewrite Ha, Hw, Hb'. simpl.
  eexists _, _. split; [done |].
  rewrite Hs at 1. by rewrite consumed_append.
Qed.

Lemma strict_path_groups (s : string) (m : list string * string) :
  In m (matches (Cat (Lit "/") (Plus not_space)) s) → m.1 = [].
Proof.
  intros (m1 & m2 & [H1 _]%matches_Lit & H2%matches_Plus & ->)%matches_Cat.
  simpl. by rewrite H1, H2.
Qed.

End regex.

Lemma canvas_methods (s : string) (m : list string * string) :
  In m (Re.matches (Re.Alt (Re.Lit "GET") (Re.Alt (Re.Lit "POST")
                      (Re.Alt (Re.Lit "PUT") (Re.Lit "DELETE")))) s) →
  m.1 = [] ∧ ∃ l, l ∈ ["GET"; "POST"; "PUT"; "DELETE"] ∧ s = l +:+ m.2.
Proof.
  change (In m (Re.matches (Re.Lit "GET") s ++ Re.matches (Re.Lit "POST") s
                ++ Re.matches (Re.Lit "PUT") s ++ Re.matches (Re.Lit "DELETE") s)
          → m.1 = [] ∧ ∃ l, l ∈ ["GET"; "POST"; "PUT"; "DELETE"] ∧ s = l +:+ m.2).
  rewrite !in_app_iff.
  intros [H|[H|[H|H]]]; apply matches_Lit in H as [-> ?];
    (split; [done |]); eexists; (split; [| done]); set_solver.
Qed.

Lemma scraper_methods (s : string) (m : list string * string) :
  In m (Re.matches scraper_utils.methods s) →
  m.1 = [] ∧ ∃ l, l ∈ ["GET"; "POST"; "PUT"; "DELETE"; "PATCH"] ∧ s = l +:+ m.2.
Proof.
  change (In m (Re.matches (Re.Lit "GET") s ++ Re.matches (Re.Lit "POST") s
                ++ Re.matches (Re.Lit "PUT") s ++ Re.matches (Re.Lit "DELETE") s
                ++ Re.matches (Re.Lit "PATCH") s)
          → m.1 = [] ∧ ∃ l, l ∈ ["GET"; "POST"; "PUT"; "DELETE"; "PATCH"]
                            ∧ s = l +:+ m.2).
  rewrite !in_app_iff.
  intros [H|[H|[H|[H|H]]]]; apply matches_Lit in H as [-> ?];
    (split; [done |]); eexists; (split; [| done]); set_solver.
Qed.

(** What [re.match] gives for the pattern of [canvas_scraper]. *)
Lemma canvas_pattern_groups (s : string) (g : list string) :
  Re.re_match canvas_scraper.method_path s = Some g →
  ∃ http_method path,
    g = [http_method; path] ∧ http_method ∈ ["GET"; "POST"; "PUT"; "DELETE"].
Proof.
  intros [rest H]%re_match_In.
  by apply (method_then_path _ _ _ _ _ canvas_methods strict_path_groups) in H.
Qed.

(** What [re.search] gives for the two patterns of [scraper_utils]. *)
Lemma scraper_pattern_groups (s : string) (g : list string) :
  scraper_utils.match_method_text s = Some g →
  ∃ http_method path,
    g = [http_method; path]
    ∧ http_method ∈ ["GET"; "POST"; "PUT"; "DELETE"; "PATCH"].
Proof.
  unfold scraper_utils.match_method_text.
  destruct (Re.re_search scraper_utils.strict_pattern s) as [g'|] eqn:Hstrict.
  - intros [= <-]. apply re_search_re_match in Hstrict as [s' Hs'].
    apply re_match_In in Hs' as [rest H].
    by apply (method_then_path _ _ _ _ _ scraper_methods strict_path_groups) in H.
  - intros [s' Hs']%re_search_re_match.
    apply re_match_In in Hs' as [rest H].
    apply (method_then_path _ _ _ _ _ scraper_methods) in H; [done |].
    apply matches_Plus.
Qed.

(** ** The parse tree *)

Section tree.
Import Bs4.

Lemma node_nested_ind (P : node → Prop) :
  (∀ s, P (NavigableString s)) →
  (∀ nm attrs cs, Forall P cs → P (Tag nm attrs cs)) →
  ∀ n, P n.
Proof.
  intros Hs Ht. fix IH 1. intros [nm attrs cs|s]; [| apply Hs].
  apply Ht. induction cs as [|c cs IHcs]; constructor; [apply IH | apply IHcs].
Qed.

Lemma descendants_Tag (p : list nat) (nm : string) (attrs : list (string * string))
    (cs : list node) :
  descendants p (Tag nm attrs cs) = descendants_of_children p 0 cs.
Proof. reflexivity. Qed.

Lemma children_placed (cs : list node) (p : list nat) (i : nat) (e : element) :
  Forall placed cs →
  e ∈ descendants_of_children p i cs →
  ∃ k c q, cs !! k = Some c ∧ pos e = p ++ (i + k) :: q
           ∧ node_at c q = Some (elt e).
Proof.
  intros Hcs. revert i. induction Hcs as [|c cs Hc _ IH]; intros i; simpl.
  - by intros ?%elem_of_nil.
  - intros [->|[H|H]%elem_of_app]%elem_of_cons.
    + exists 0, c, []. simpl. by rewrite Nat.add_0_r.
    + apply Hc in H as (q & _ & Hpos & Hat).
      exists 0, c, q. rewrite Nat.add_0_r. split; [done |].
      split; [| done]. by rewrite Hpos, <- app_assoc.
    + apply IH in H as (k & c' & q & Hk & Hpos & Hat).
      exists (S k), c', q. split; [done |]. split; [| done].
      by replace (i + S k) with (S i + k) by lia.
Qed.

Lemma descendants_placed (n : node) : placed n.
Proof.
  induction n as [s|nm attrs cs IH] using node_nested_ind; intros p e.
  - simpl. by intros ?%elem_of_nil.
  - rewrite descendants_Tag. intros H.
    apply (children_placed _ _ _ _ IH) in H as (k & c & q & Hk & Hpos & Hat).
    exists (k :: q). split; [done |]. split; [done |]. simpl. by rewrite Hk.
Qed.

Lemma node_at_app (n : node) (a b : list nat) (x : node) :
  node_at n (a ++ b) = Some x → is_Some (node_at n a).
Proof.
  revert n. induction a as [|i a IH]; intros n; simpl; [by eauto |].
  destruct (contents_of n !! i); [apply IH | done].
Qed.

(** Every element below the root has a parent. *)
Lemma parent_of_descendant (soup : node) (e : element) :
  e ∈ descendants [] soup → is_Some (parent soup e).
Proof.
  intros (q & Hq & Hpos & Hat)%descendants_placed. simpl in Hpos.
  unfold parent. rewrite Hpos. destruct q as [|i q]; [done |].
  rewrite (app_removelast_last 0 (l := i :: q)) in Hat by done.
  apply node_at_app in Hat as [up ->]. by eexists.
Qed.

Lemma selected_is_descendant (soup : node) (names : list string) (e : element) :
  e ∈ select_children soup names → e ∈ descendants [] soup.
Proof.
  unfold select_children. rewrite !list_elem_of_In. by intros [? _]%filter_In.
Qed.

Lemma find_next_matching_app (soup : node) (e1 e2 : element)
    (f : element → bool) (between : list element) :
  next_elements soup e1 = between ++ next_elements soup e2 →
  (∀ x, x ∈ between → is_a_tag x && f x = false) →
  find_next_matching soup e1 f = find_next_matching soup e2 f.
Proof.
  unfold find_next_matching. intros -> H.
  induction between as [|x l IH]; [done |]. simpl.
  rewrite H by set_solver. apply IH. intros y Hy. apply H. set_solver.
Qed.

End tree.

(** ** The extractor of [canvas_scraper] *)

Section canvas.
Import Bs4 models canvas_scraper.

(** A section gives a record exactly when it has a name, an [h3] follows
    it, and the text of the [h3] matches the pattern. *)
Lemma extract_endpoint_Some (soup : node) (section : element)
    (resource_name : string) (e : endpoint) :
  extract_endpoint_from_section soup section resource_name = Some e ↔
  ∃ h3 http_method path,
    method_name section ≠ ""
    ∧ find_next soup section "h3" = Some h3
    ∧ Re.re_match method_path (get_text true (elt h3)) = Some [http_method; path]
    ∧ e = {| resource := resource_name;
             name := method_name section;
             http_method := http_method;
             path := path;
             description := first_paragraph soup h3;
             parameters := table_parameters soup section;
             examples :=
               RequestResponse
                 (example_block soup section "Example Request")
                 (example_block soup section "Example Response") |}.
Proof.
  unfold extract_endpoint_from_section. split.
  - destruct (Py.truthy (method_name section)) eqn:Hname; simpl; [| done].
    apply truthy_true in Hname.
    destruct (find_next soup section "h3") as [h3|]; [| done].
    destruct (Re.re_match _ _) as [g|] eqn:Hm; [| done].
    destruct (canvas_pattern_groups _ _ Hm) as (m & p & -> & _).
    intros [= <-]. by exists h3, m, p.
  - intros (h3 & m & p & Hname & -> & -> & ->).
    apply truthy_true in Hname. by rewrite Hname.
Qed.

Lemma extract_endpoint_None (soup : node) (section : element)
    (resource_name : string) :
  extract_endpoint_from_section soup section resource_name = None ↔
  method_name section = ""
  ∨ find_next soup section "h3" = None
  ∨ ∃ h3, find_next soup section "h3" = Some h3
          ∧ Re.re_match method_path (get_text true (elt h3)) = None.
Proof.
  unfold extract_endpoint_from_section.
  destruct (Py.truthy (method_name section)) eqn:Hname; simpl.
  2: { apply truthy_false in Hname. by split; [left |]. }
  apply truthy_true in Hname.
  destruct (find_next soup section "h3") as [h3|].
  2: { by split; [right; left |]. }
  destruct (Re.re_match _ _) as [g|] eqn:Hm.
  - destruct (canvas_pattern_groups _ _ Hm) as (m & p & -> & _).
    split; [done |]. intros [?|[?|(h & [= <-] & ?)]]; congruence.
  - split; [| done]. intros _. right; right. by exists h3.
Qed.

Lemma parse_canvas_api_page_method (soup : node) (resource_name : string)
    (e : endpoint) :
  e ∈ parse_canvas_api_page soup resource_name →
  http_method e ∈ ["GET"; "POST"; "PUT"; "DELETE"].
Proof.
  unfold parse_canvas_api_page.
  intros (section & _ & H)%list_elem_of_omap.
  apply extract_endpoint_Some in H as (h3 & m & p & _ & _ & Hm & ->).
  by destruct (canvas_pattern_groups _ _ Hm) as (? & ? & [= <- <-] & ?).
Qed.

End canvas.

(** ** The extractor of [scraper_utils] *)

Section scraper.
Import Bs4 models scraper_utils.

Lemma scan_siblings_substantial (soup : node) (n : nat)
    (current : option element) (text : string) :
  scan_siblings soup n current = Some text →
  Py.truthy text = true ∧ 10 < String.length text.
Proof.
  revert current. induction n as [|n IH]; intros current; [done |].
  cbn [scan_siblings]. destruct current as [cur|]; [| done].
  destruct (falsy (Some cur)); [done |].
  destruct (_ && _) eqn:Hc; [| by apply IH].
  intros [= <-]. apply andb_true_iff in Hc as [[_ ?]%andb_true_iff ?%Nat.ltb_lt].
  done.
Qed.

Lemma limit_description_nonempty (d : string) :
  d ≠ "" → limit_description d ≠ "".
Proof.
  unfold limit_description. destruct (500 <? _); [| done].
  intros _. by apply append_nonempty_r.
Qed.

Lemma limit_description_length (d : string) :
  String.length (limit_description d) ≤ 503.
Proof.
  unfold limit_description. destruct (500 <? _) eqn:H.
  - rewrite length_append, slice_to_length.
    change (String.length "...") with 3. lia.
  - apply Nat.ltb_ge in H. lia.
Qed.

Lemma name_of_path_nonempty (http_method path resource_name : string) :
  name_of_path http_method path resource_name ≠ "".
Proof.
  unfold name_of_path.
  destruct (negb (Py.truthy _) || _) eqn:H.
  - apply append_nonempty_r, append_nonempty_l. done.
  - apply orb_false_iff in H as [H%negb_false_iff _]. by apply truthy_true.
Qed.

(** The end of the function always gives a record: its method and path are
    the ones matched, the description and the name are never empty. *)
Lemma finish_record (resource_name http_method path description : string) :
  ∃ e, finish resource_name http_method path description = Return (Some e)
       ∧ resource e = resource_name
       ∧ models.http_method e = http_method
       ∧ models.path e = path
       ∧ models.description e ≠ ""
       ∧ String.length (models.description e) ≤ 503
       ∧ name e ≠ ""
       ∧ parameters e = []
       ∧ examples e = Example None.
Proof.
  unfold finish. eexists. split; [done |]. simpl.
  repeat split; [| apply limit_description_length | apply name_of_path_nonempty].
  apply limit_description_nonempty.
  destruct (Py.truthy description) eqn:H; simpl.
  - by apply truthy_true.
  - by apply append_nonempty_l.
Qed.

Lemma finish_description (resource_name http_method path description : string)
    (e : endpoint) :
  description ≠ "" →
  finish resource_name http_method path description = Return (Some e) →
  models.description e = limit_description description.
Proof.
  intros H%truthy_true. unfold finish. rewrite H. simpl. by intros [= <-].
Qed.

(** Once the method and path are matched, the function raises or goes to
    its end. *)
Lemma parse_api_method_shape (soup : node) (method_element : element)
    (resource_name http_method path : string) :
  match_method_text (get_text true (elt method_element))
    = Some [http_method; path] →
  (∃ exn, parse_api_method soup method_element resource_name = Raise exn)
  ∨ ∃ d, parse_api_method soup method_element resource_name
         = finish resource_name http_method path d.
Proof.
  intros Hm. unfold parse_api_method. rewrite Hm.
  repeat case_match; eauto.
Qed.

(** For a tag below the root nothing is raised. *)
Lemma parse_api_method_finish (soup : node) (method_element : element)
    (resource_name http_method path : string) :
  method_element ∈ descendants [] soup →
  is_a_tag method_element = true →
  match_method_text (get_text true (elt method_element))
    = Some [http_method; path] →
  ∃ d, parse_api_method soup method_element resource_name
       = finish resource_name http_method path d.
Proof.
  intros [up Hup]%parent_of_descendant Htag Hm.
  unfold parse_api_method. rewrite Hm, Htag, Hup, andb_false_r.
  repeat case_match; eauto.
Qed.

(** A description found in the siblings is the one that is kept. *)
Lemma parse_api_method_found (soup : node) (method_element : element)
    (resource_name http_method path text : string) :
  match_method_text (get_text true (elt method_element))
    = Some [http_method; path] →
  scan_siblings soup 10 (next_sibling soup method_element) = Some text →
  parse_api_method soup method_element resource_name
  = finish resource_name http_method path text.
Proof.
  intros Hm Hfound. unfold parse_api_method. rewrite Hm, Hfound.
  apply scan_siblings_substantial in Hfound as [Ht _].
  rewrite bool_decide_eq_true_2 by eauto. simpl. by rewrite Ht.
Qed.

(** The end of the function on a raw description: the generic one takes the
    place of an empty one, and the result is cut by [limit_description]. *)
Lemma finish_cut (resource_name http_method path raw : string) :
  ∃ e, finish resource_name http_method path raw = Return (Some e)
       ∧ resource e = resource_name
       ∧ models.http_method e = http_method
       ∧ models.path e = path
       ∧ name e = name_of_path http_method path resource_name
       ∧ description e
         = limit_description
             (if Py.truthy raw then raw else "API endpoint for " +:+ path).
Proof.
  unfold finish. eexists. split; [done |]. simpl.
  by destruct (Py.truthy raw).
Qed.

(** With nothing found in the siblings, a non-empty title is the
    description. *)
Lemma parse_api_method_title (soup : node) (method_element : element)
    (resource_name http_method path t : string) :
  match_method_text (get_text true (elt method_element))
    = Some [http_method; path] →
  scan_siblings soup 10 (next_sibling soup method_element) = None →
  Bs4.get (elt method_element) "title" = Some t →
  t ≠ "" →
  parse_api_method soup method_element resource_name
  = finish resource_name http_method path t.
Proof.
  intros Hm Hscan Htitle Ht%truthy_true.
  unfold parse_api_method. rewrite Hm, Hscan, Htitle.
  assert (is_a_tag method_element = true) as ->.
  { unfold is_a_tag. by destruct (elt method_element). }
  rewrite andb_false_r, Ht. simpl. by rewrite Ht.
Qed.

(** With nothing found in the siblings and no title, the text of the parent
    is looked at. *)
Lemma parse_api_method_parent (soup : node) (method_element up : element)
    (resource_name http_method path : string) :
  match_method_text (get_text true (elt method_element))
    = Some [http_method; path] →
  scan_siblings soup 10 (next_sibling soup method_element) = None →
  is_a_tag method_element = true →
  Bs4.get (elt method_element) "title" = None
  ∨ Bs4.get (elt method_element) "title" = Some "" →
  parent soup method_element = Some up →
  parse_api_method soup method_element resource_name
  = finish resource_name http_method path
      (if Py.truthy (get_text true (elt up))
          && negb (String.eqb (get_text true (elt up))
                              (get_text true (elt method_element)))
       then Py.strip (Py.replace (get_text true (elt method_element)) ""
                                 (get_text true (elt up)))
       else "").
Proof.
  intros Hm Hscan Htag Htitle Hup.
  unfold parse_api_method. rewrite Hm, Hscan, Htag, Hup, andb_false_r.
  destruct Htitle as [-> | ->]; simpl; by destruct (_ && _).
Qed.

Lemma parse_api_method_method (soup : node) (method_element : element)
    (resource_name : string) (e : endpoint) :
  parse_api_method soup method_element resource_name = Return (Some e) →
  http_method e ∈ ["GET"; "POST"; "PUT"; "DELETE"; "PATCH"].
Proof.
  intros H.
  destruct (match_method_text (get_text true (elt method_element)))
    as [g|] eqn:Hm.
  2: { unfold parse_api_method in H. by rewrite Hm in H. }
  destruct (scraper_pattern_groups _ _ Hm) as (m & p & -> & Hin).
  destruct (parse_api_method_shape soup method_element resource_name _ _ Hm)
    as [[exn Hr]|[d Hd]]; [congruence |].
  rewrite Hd in H. unfold finish in H. by simplify_eq.
Qed.

(** The description of a returned record is a raw description cut by
    [limit_description]. *)
Lemma parse_api_method_description (soup : node) (method_element : element)
    (resource_name : string) (e : endpoint) :
  parse_api_method soup method_element resource_name = Return (Some e) →
  ∃ raw, description e = limit_description raw.
Proof.
  intros H.
  destruct (match_method_text (get_text true (elt method_element)))
    as [g|] eqn:Hm.
  2: { unfold parse_api_method in H. by rewrite Hm in H. }
  destruct (scraper_pattern_groups _ _ Hm) as (m & p & -> & Hin).
  destruct (parse_api_method_shape soup method_element resource_name _ _ Hm)
    as [[exn Hr]|[d Hd]]; [congruence |].
  rewrite Hd in H. unfold finish in H. simplify_eq. simpl. by eexists.
Qed.

End scraper.

(** ** Runs of the driver *)

Section driver.
Import models main.

Lemma crawl_step_batch (st : state) (page : string * crawl_result) :
  crawl_step st page = filter_endpoints st (batch_of page).
Proof.
  destruct page as [nm r]. unfold crawl_step, batch_of. simpl.
  by destruct (success r).
Qed.

Lemma crawl_batches (pages : list (string * crawl_result)) :
  crawl_pages pages = foldl filter_endpoints initial (batch_of <$> pages).
Proof.
  unfold crawl_pages. generalize initial.
  induction pages as [|page pages IH]; intros st; [done |].
  simpl. by rewrite IH, crawl_step_batch.
Qed.

Lemma accepted_from_batches (batches : list (list endpoint)) (e : endpoint) :
  e ∈ all_endpoints (foldl filter_endpoints initial batches) →
  ∃ batch, batch ∈ batches ∧ e ∈ batch.
Proof.
  rewrite filter_batches_concat, filter_endpoints_first_seen. simpl.
  intros H. eapply elem_of_sublist in H; [| apply first_seen_sublist].
  apply list_elem_of_In, in_concat in H as (batch & ? & ?).
  exists batch. by rewrite !list_elem_of_In.
Qed.

End driver.

(** ** The aggregator *)

Section aggregator_claims.
Import models main.

(** The seen-set of a reachable state holds the keys of its records. *)
Lemma reachable_seen_keys (st : state) :
  reachable st →
  seen_endpoint_ids st = list_to_set (endpoint_id <$> all_endpoints st).
Proof.
  induction 1 as [|st e _ IH]; [done |].
  unfold filter_step. destruct (bool_decide _); [done |].
  destruct (negb _); [done |]. simpl.
  rewrite fmap_app, list_to_set_app_L, <- IH. simpl.
  rewrite union_empty_r_L. apply union_comm_L.
Qed.

(** The key that the loop builds is the key of the specification, and the
    selection on that key is the one that the loop computes. *)
Lemma endpoint_id_identity_key (e : endpoint) : endpoint_id e = identity_key e.
Proof. reflexivity. Qed.

Lemma first_seen_by_key_first_seen (seen : gset string) (candidates : list endpoint) :
  first_seen_by_key seen candidates = first_seen seen candidates.
Proof.
  revert seen. induction candidates as [|e rest IH]; intros seen; [done |].
  cbn [first_seen_by_key first_seen].
  rewrite <- !endpoint_id_identity_key, !IH. done.
Qed.

(** C3.  Each candidate goes through the same three steps, on the key
    [resource + "_" + http_method + "_" + path] that [endpoint_id] builds:
    it is skipped when that key is already in the seen-set; otherwise it is
    skipped when one of the keys of [REQUIRED_KEYS] is missing from it or
    holds a falsy value, which for these records means that one of
    [resource], [name], [http_method], [path], [description] is the empty
    string; otherwise that key joins the seen-set and the record is appended
    to the output.  Over the batches of a run this makes the output the
    first-seen selection, on that key, of the concatenated batches: it is a
    subsequence of them in arrival order, every record in it has its
    required fields, and a candidate whose description is empty is never in
    it. *)
Theorem C3_aggregation_procedure :
  (∀ e, endpoint_id e
        = resource e +:+ "_" +:+ http_method e +:+ "_" +:+ path e)
  ∧ (∀ st e,
       resource e +:+ "_" +:+ http_method e +:+ "_" +:+ path e
         ∈ seen_endpoint_ids st →
       filter_step st e = st)
  ∧ (∀ st e,
       resource e +:+ "_" +:+ http_method e +:+ "_" +:+ path e
         ∉ seen_endpoint_ids st →
       ¬ required_fields_present e → filter_step st e = st)
  ∧ (∀ st e,
       resource e +:+ "_" +:+ http_method e +:+ "_" +:+ path e
         ∉ seen_endpoint_ids st →
       required_fields_present e →
       filter_step st e =
         {| all_endpoints := all_endpoints st ++ [e];
            seen_endpoint_ids :=
              {[ resource e +:+ "_" +:+ http_method e +:+ "_" +:+ path e ]}
              ∪ seen_endpoint_ids st |})
  ∧ (∀ e, required_fields_present e ↔
          ∀ key, key ∈ config.REQUIRED_KEYS →
                 ∃ v, getitem e key = Some v ∧ truth v = true)
  ∧ (∀ batches,
       let final := foldl filter_endpoints initial batches in
       all_endpoints final = first_seen_by_key ∅ (concat batches)
       ∧ seen_endpoint_ids final
         = list_to_set (identity_key <$> first_seen_by_key ∅ (concat batches))
       ∧ all_endpoints final `sublist_of` concat batches
       ∧ (∀ e, e ∈ all_endpoints final → required_fields_present e)
       ∧ (∀ e, description e = "" → e ∉ all_endpoints final))
  ∧ (∀ pages,
       all_endpoints (crawl_pages pages)
       = first_seen_by_key ∅ (concat (batch_of <$> pages))).
Proof.
  split; [done |].
  split; [exact filter_step_seen |].
  split; [intros st e _; apply filter_step_incomplete |].
  split; [exact filter_step_accept |].
  split.
  { intros e. rewrite <- has_required_keys_spec. unfold has_required_keys.
    rewrite forallb_forall. split; intros H key Hkey.
    - apply list_elem_of_In, H in Hkey.
      destruct (getitem e key) as [v|]; [eauto | done].
    - apply list_elem_of_In, H in Hkey as (v & -> & ?). done. }
  assert (∀ batches,
            all_endpoints (foldl filter_endpoints initial batches)
            = first_seen ∅ (concat batches)) as Hfirst.
  { intros batches. by rewrite filter_batches_concat, filter_endpoints_first_seen. }
  split.
  - intros batches final. subst final.
    rewrite first_seen_by_key_first_seen, Hfirst.
    split; [done |].
    split.
    { rewrite <- Hfirst.
      apply (reachable_seen_keys (foldl filter_endpoints initial batches)).
      rewrite filter_batches_concat. apply reachable_filter_endpoints. constructor. }
    split; [apply first_seen_sublist |].
    split; [apply first_seen_required |].
    intros e Hd He. apply first_seen_required in He.
    unfold required_fields_present in He. tauto.
  - intros pages. by rewrite first_seen_by_key_first_seen, crawl_batches, Hfirst.
Qed.

Lemma C3_aggregation_procedure_witness :
  filter_step initial (scenarios.with_description "") = initial
  ∧ filter_step initial scenarios.under_a =
      {| all_endpoints := [scenarios.under_a];
         seen_endpoint_ids := {[ "A_GET_/x_POST_/y" ]} ∪ ∅ |}.
Proof.
  destruct C3_aggregation_procedure as (_ & _ & Hskip & Haccept & _).
  split.
  - apply Hskip; [set_solver |]. unfold required_fields_present. simpl. tauto.
  - apply (Haccept initial scenarios.under_a); [set_solver |].
    unfold required_fields_present. simpl. by repeat split.
Defined.

(** C4.  In every state that the aggregator can reach, two accepted records
    at different places of the output never have the same
    (resource, http_method, path) triple. *)
Theorem C4_identity_unique (st : state) :
  reachable st →
  ∀ i j e1 e2,
    all_endpoints st !! i = Some e1 →
    all_endpoints st !! j = Some e2 →
    identity e1 = identity e2 →
    i = j.
Proof.
  intros [Hnd _]%reachable_coherent i j e1 e2 H1 H2 Hid.
  apply identity_endpoint_id in Hid.
  eapply (NoDup_lookup _ i j (endpoint_id e1)); [done | |].
  - by rewrite list_lookup_fmap, H1.
  - by rewrite list_lookup_fmap, H2, Hid.
Qed.

Lemma C4_identity_unique_witness :
  let st := filter_step (filter_step initial scenarios.under_a)
                        (scenarios.with_description "Lists users.") in
  reachable st
  ∧ all_endpoints st !! 1 = Some (scenarios.with_description "Lists users.")
  ∧ 1 = 1.
Proof.
  intros st.
  assert (reachable st) as Hreach by (do 2 constructor; constructor).
  assert (all_endpoints st !! 1 = Some (scenarios.with_description "Lists users."))
    as Hlookup by (vm_compute; reflexivity).
  split; [exact Hreach |]. split; [exact Hlookup |].
  exact (C4_identity_unique st Hreach 1 1 _ _ Hlookup Hlookup eq_refl).
Defined.

(** C5.  From any state, feeding a batch a second time changes nothing:
    the accepted records and the seen-set are those left by the first
    pass. *)
Theorem C5_idempotent (st : state) (batch : list endpoint) :
  filter_endpoints (filter_endpoints st batch) batch = filter_endpoints st batch.
Proof.
  apply stable_when_settled. intros e He. by apply settled_after.
Qed.

(** C9.  The key is [resource + "_" + http_method + "_" + path], and two
    candidates with different triples can have the same key: resource [A],
    [GET], path [/x_POST_/y] and resource [A_GET_/x], [POST], path [/y].
    The second one, accepted when it comes alone, is skipped as a duplicate
    when it comes after the first. *)
Theorem C9_key_collision :
  (∀ e, endpoint_id e
        = resource e +:+ "_" +:+ http_method e +:+ "_" +:+ path e)
  ∧ identity scenarios.under_a ≠ identity scenarios.under_a_get_x
  ∧ endpoint_id scenarios.under_a = endpoint_id scenarios.under_a_get_x
  ∧ all_endpoints (filter_endpoints initial [scenarios.under_a_get_x])
    = [scenarios.under_a_get_x]
  ∧ all_endpoints
      (filter_endpoints initial [scenarios.under_a; scenarios.under_a_get_x])
    = [scenarios.under_a]
  ∧ filter_step (filter_step initial scenarios.under_a) scenarios.under_a_get_x
    = filter_step initial scenarios.under_a.
Proof.
  split; [done |]. split; [done |]. split; [done |].
  split; [by vm_compute |]. split; [by vm_compute |].
  apply filter_step_seen.
  rewrite filter_step_accept; [simpl; set_solver | set_solver |].
  unfold required_fields_present. simpl. by repeat split.
Qed.

End aggregator_claims.

(** ** The extractors and the tabular projection *)

Section extraction_claims.
Import Bs4 models.

Lemma slice_to_slice_append (n m : nat) (s t : string) :
  n ≤ m → n ≤ String.length s →
  Py.slice_to n (Py.slice_to m s +:+ t) = Py.slice_to n s.
Proof.
  revert m s. induction n as [|n IH]; intros m s Hm Hs.
  - by destruct (Py.slice_to m s +:+ t).
  - destruct m as [|m]; [lia |]. destruct s as [|c s]; simpl in Hs; [lia |].
    cbn [Py.slice_to]. rewrite append_cons. cbn [Py.slice_to].
    f_equal. apply IH; lia.
Qed.

Lemma csv_description_length (d : string) :
  String.length (data_utils.csv_description d) ≤ 203.
Proof.
  unfold data_utils.csv_description. destruct (200 <? _) eqn:H.
  - rewrite length_append, slice_to_length.
    change (String.length "...") with 3. lia.
  - apply Nat.ltb_ge in H. lia.
Qed.

Lemma csv_description_long (d : string) :
  200 < String.length d →
  data_utils.csv_description d = Py.slice_to 200 d +:+ "...".
Proof.
  intros H%Nat.ltb_lt. unfold data_utils.csv_description. by rewrite H.
Qed.

(** C1, as the scenario words it, does not hold: when the heading itself
    reads [GET /api/v1/users], with or without an anchor around the text,
    and the paragraph and the table follow it, [parse_canvas_api_page] finds
    no record at all, and [parse_api_method], which does accept such a
    heading, gives it no parameters. *)
Lemma C1_heading_scenario_no_record :
  ¬ (∃ e,
       canvas_scraper.parse_canvas_api_page scenarios.heading_only "Users" = [e]
       ∧ http_method e = "GET" ∧ path e = "/api/v1/users"
       ∧ description e = "Lists users." ∧ length (parameters e) = 2)
  ∧ canvas_scraper.parse_canvas_api_page scenarios.heading_anchor "Users" = []
  ∧ ∃ e,
      scraper_utils.parse_api_method scenarios.heading_only
        (scenarios.first_h2 scenarios.heading_only) "Users"
      = scraper_utils.Return (Some e)
      ∧ parameters e = []
      ∧ data_utils.parameter_count (data_utils.csv_row e) = 0.
Proof.
  split; [| split].
  - intros (e & H & _). vm_compute in H. discriminate H.
  - by vm_compute.
  - eexists. split; [by vm_compute |]. by split.
Qed.

(** C1, amended.  On a page laid out as [canvas_scraper] expects it (the
    name of the endpoint in an anchor of the [h2], the line
    [GET /api/v1/users] in the [h3] after it, then the paragraph
    [Lists users.] and a table with a header row and two rows of three
    cells) the extractor yields exactly one record, with method [GET], path
    [/api/v1/users], description [Lists users.] and two parameters; the
    aggregator accepts it, and its row in the table has
    [parameter_count = 2]. *)
Theorem C1_canvas_layout_scenario :
  ∃ e,
    canvas_scraper.parse_canvas_api_page scenarios.canvas_layout "Users" = [e]
    ∧ http_method e = "GET" ∧ path e = "/api/v1/users"
    ∧ description e = "Lists users." ∧ length (parameters e) = 2
    ∧ main.all_endpoints (main.filter_endpoints main.initial [e]) = [e]
    ∧ data_utils.parameter_count <$> data_utils.save_endpoints_to_csv [e] = [2]
    ∧ data_utils.parameter_count <$>
        main.saved_rows
          (main.crawl_pages
             [("Users", {| main.success := true;
                           main.cleaned_html := scenarios.canvas_layout |})])
      = [2].
Proof.
  eexists. split; [by vm_compute |].
  repeat split; by vm_compute.
Qed.

(** C2, as it is stated, does not hold for [extract_endpoint_from_section]:
    a heading without an anchor is discarded although a well-formed
    [GET /api/v1/users] line follows it, and the same page with the anchor
    gives a record. *)
Lemma C2_missing_name_discards :
  let section := scenarios.first_h2 scenarios.no_anchor in
  (∃ h3, find_next scenarios.no_anchor section "h3" = Some h3
         ∧ Re.re_match canvas_scraper.method_path (get_text true (elt h3))
           = Some ["GET"; "/api/v1/users"])
  ∧ canvas_scraper.method_name section = ""
  ∧ canvas_scraper.extract_endpoint_from_section scenarios.no_anchor section "Users"
    = None
  ∧ is_Some (canvas_scraper.extract_endpoint_from_section scenarios.canvas_layout
               (scenarios.first_h2 scenarios.canvas_layout) "Users").
Proof.
  intros section. split.
  { exists (Element [0; 0; 1] (scenarios.el "h3" [scenarios.txt "GET /api/v1/users"])).
    split; vm_compute; reflexivity. }
  split; [by vm_compute |]. split; [by vm_compute |].
  vm_compute. by eexists.
Qed.

(** C2, amended.  [extract_endpoint_from_section] returns nothing exactly
    when the name is missing (no anchor in the section, or an anchor without
    text), when no [h3] follows, or when the text of the [h3] does not match
    the method-and-path pattern; a missing paragraph, table or example never
    makes it return nothing.  [parse_api_method], applied to a tag of the
    document, has the method and path as its only mandatory fields: whenever
    one of its two patterns matches the text of the heading it returns a
    record with that method and path, a non-empty description, a non-empty
    name, no parameters and no example, and it returns nothing when neither
    pattern matches. *)
Theorem C2_mandatory_fields :
  (∀ soup section resource_name,
     canvas_scraper.extract_endpoint_from_section soup section resource_name = None
     ↔ canvas_scraper.method_name section = ""
       ∨ find_next soup section "h3" = None
       ∨ ∃ h3, find_next soup section "h3" = Some h3
               ∧ Re.re_match canvas_scraper.method_path (get_text true (elt h3))
                 = None)
  ∧ (∀ soup method_element resource_name g,
       method_element ∈ descendants [] soup →
       is_a_tag method_element = true →
       scraper_utils.match_method_text (get_text true (elt method_element))
         = Some g →
       ∃ e, scraper_utils.parse_api_method soup method_element resource_name
            = scraper_utils.Return (Some e)
            ∧ [http_method e; path e] = g
            ∧ description e ≠ "" ∧ name e ≠ ""
            ∧ parameters e = [] ∧ examples e = Example None)
  ∧ (∀ soup method_element resource_name,
       scraper_utils.match_method_text (get_text true (elt method_element))
         = None →
       scraper_utils.parse_api_method soup method_element resource_name
       = scraper_utils.Return None).
Proof.
  split; [exact extract_endpoint_None |]. split.
  - intros soup me rn g Hin Htag Hm.
    destruct (scraper_pattern_groups _ _ Hm) as (m & p & -> & _).
    destruct (parse_api_method_finish soup me rn m p Hin Htag Hm)
      as [d ->].
    destruct (finish_record rn m p d)
      as (e & -> & _ & <- & <- & ? & _ & ? & ? & ?).
    by exists e.
  - intros soup me rn Hm. unfold scraper_utils.parse_api_method. by rewrite Hm.
Qed.

Lemma C2_mandatory_fields_witness :
  ∃ e, scraper_utils.parse_api_method scenarios.lone_heading scenarios.lone_h2
         "Users"
       = scraper_utils.Return (Some e)
       ∧ [http_method e; path e] = ["PATCH"; "/api/v1/users/:id"]
       ∧ description e ≠ "" ∧ name e ≠ ""
       ∧ parameters e = [] ∧ examples e = Example None.
Proof.
  destruct C2_mandatory_fields as (_ & H & _).
  apply (H scenarios.lone_heading scenarios.lone_h2 "Users"
           ["PATCH"; "/api/v1/users/:id"]).
  - vm_compute. apply list_elem_of_further, list_elem_of_here.
  - reflexivity.
  - vm_compute. reflexivity.
Defined.

End extraction_claims.

Section more_extraction_claims.
Import Bs4 models.

(** C6.  The [http_method] of every record that a run accepts is one of
    [GET], [POST], [PUT], [DELETE], [PATCH], and so is that of every record
    that [parse_api_method] returns.  A heading whose method text reads
    [FETCH /foo] gives no candidate, in either extractor. *)
Theorem C6_method_enumeration :
  (∀ pages e,
     e ∈ main.all_endpoints (main.crawl_pages pages) →
     http_method e ∈ ["GET"; "POST"; "PUT"; "DELETE"; "PATCH"])
  ∧ (∀ arun e,
       e ∈ main.all_endpoints (main.crawl_canvas_api arun) →
       http_method e ∈ ["GET"; "POST"; "PUT"; "DELETE"; "PATCH"])
  ∧ (∀ soup method_element resource_name e,
       scraper_utils.parse_api_method soup method_element resource_name
         = scraper_utils.Return (Some e) →
       http_method e ∈ ["GET"; "POST"; "PUT"; "DELETE"; "PATCH"])
  ∧ (∀ soup section resource_name h3,
       find_next soup section "h3" = Some h3 →
       get_text true (elt h3) = "FETCH /foo" →
       canvas_scraper.extract_endpoint_from_section soup section resource_name
       = None)
  ∧ (∀ soup method_element resource_name,
       get_text true (elt method_element) = "FETCH /foo" →
       scraper_utils.parse_api_method soup method_element resource_name
       = scraper_utils.Return None).
Proof.
  assert (∀ pages e,
            e ∈ main.all_endpoints (main.crawl_pages pages) →
            http_method e ∈ ["GET"; "POST"; "PUT"; "DELETE"; "PATCH"]) as Hpages.
  { intros pages e. rewrite crawl_batches.
    intros (batch & (page & -> & _)%list_elem_of_fmap & He)%accepted_from_batches.
    unfold batch_of in He. destruct (main.success page.2).
    - apply parse_canvas_api_page_method in He.
      rewrite !elem_of_cons in He. rewrite !elem_of_cons. tauto.
    - by apply elem_of_nil in He. }
  split; [exact Hpages |]. split; [| split; [| split]].
  - intros arun e. apply Hpages.
  - exact parse_api_method_method.
  - intros soup section rn h3 Hh3 Htext. apply extract_endpoint_None.
    right; right. exists h3. split; [done |]. by rewrite Htext.
  - intros soup me rn Htext. unfold scraper_utils.parse_api_method.
    by rewrite Htext.
Qed.

Lemma C6_method_enumeration_witness :
  canvas_scraper.extract_endpoint_from_section scenarios.fetch_page
    (scenarios.first_h2 scenarios.fetch_page) "Users" = None
  ∧ scraper_utils.parse_api_method scenarios.fetch_page
      (scenarios.first_h2 scenarios.fetch_page) "Users"
    = scraper_utils.Return None.
Proof.
  destruct C6_method_enumeration as (_ & _ & _ & Hcanvas & Hscraper). split.
  - apply (Hcanvas _ _ _
             (Element [0; 0; 1] (scenarios.el "h3" [scenarios.txt "FETCH /foo"])));
      vm_compute; reflexivity.
  - apply Hscraper. vm_compute. reflexivity.
Defined.

(** C7.  [extract_scope] looks for the marker [Scope:] in the description.
    With a code tag after the marker it returns what the tag holds; without
    one it returns the text up to the next period, stripped; and it returns
    the empty string when the marker does not occur in the description. *)
Theorem C7_scope_extraction :
  (∀ e, description e = "Scope: <code>url:GET|/api/v1/users</code> more text." →
        data_utils.extract_scope e = "url:GET|/api/v1/users")
  ∧ (∀ e, description e = "Scope: allows read access. Other info." →
          data_utils.extract_scope e = "allows read access")
  ∧ (∀ e, (¬ ∃ before after, description e = before +:+ "Scope:" +:+ after) →
          data_utils.extract_scope e = "").
Proof.
  split; [| split].
  - intros e H. unfold data_utils.extract_scope. rewrite H. by vm_compute.
  - intros e H. unfold data_utils.extract_scope. rewrite H. by vm_compute.
  - intros e H. unfold data_utils.extract_scope.
    destruct (Py.contains "Scope:" (description e)) eqn:Hc; [| done].
    by apply contains_spec in Hc.
Qed.

Lemma C7_scope_extraction_witness :
  data_utils.extract_scope
    (scenarios.with_description "Scope: <code>url:GET|/api/v1/users</code> more text.")
  = "url:GET|/api/v1/users"
  ∧ data_utils.extract_scope (scenarios.with_description "Lists users.") = "".
Proof.
  destruct C7_scope_extraction as (Hcode & _ & Habsent). split.
  - apply Hcode. reflexivity.
  - apply Habsent. rewrite <- contains_spec. vm_compute. discriminate.
Defined.

(** C8, as it is stated, does not hold for [extract_endpoint_from_section]:
    a paragraph of 600 characters is the description as it is, 600
    characters long and without an ellipsis. *)
Lemma C8_canvas_description_not_truncated :
  ∃ e,
    canvas_scraper.parse_canvas_api_page scenarios.long_paragraph "Users" = [e]
    ∧ description e = scenarios.long_text
    ∧ String.length (description e) = 600
    ∧ description e ≠ Py.slice_to 500 scenarios.long_text +:+ "...".
Proof.
  eexists. split; [vm_compute; reflexivity |].
  split; [vm_compute; reflexivity |]. split; [vm_compute; reflexivity |].
  vm_compute. discriminate.
Qed.

(** A raw description of 600 characters under the two cuts. *)
Lemma limit_description_600 (raw : string) :
  String.length raw = 600 →
  scraper_utils.limit_description raw = Py.slice_to 500 raw +:+ "..."
  ∧ data_utils.csv_description (scraper_utils.limit_description raw)
    = Py.slice_to 200 raw +:+ "...".
Proof.
  intros Hlen.
  assert (scraper_utils.limit_description raw = Py.slice_to 500 raw +:+ "...")
    as -> by (unfold scraper_utils.limit_description; by rewrite Hlen).
  split; [done |]. rewrite csv_description_long.
  - by rewrite slice_to_slice_append by lia.
  - rewrite length_append, slice_to_length, Hlen.
    change (String.length "...") with 3. lia.
Qed.

Lemma cut_twice_600 (raw : string) (e : endpoint) :
  description e = scraper_utils.limit_description raw →
  String.length raw = 600 →
  cut_twice raw e.
Proof.
  intros Hd Hlen. destruct (limit_description_600 raw Hlen) as [Hcut Hrow].
  unfold cut_twice. simpl. rewrite Hd, Hrow, Hcut.
  rewrite !length_append, !slice_to_length, Hlen. done.
Qed.

(** A record that comes out of [finish] on the raw description [raw]. *)
Lemma finish_cut_twice (resource_name http_method path raw : string) :
  ∃ e, scraper_utils.finish resource_name http_method path raw
       = scraper_utils.Return (Some e)
       ∧ description e
         = scraper_utils.limit_description
             (if Py.truthy raw then raw else "API endpoint for " +:+ path)
       ∧ (String.length
            (if Py.truthy raw then raw else "API endpoint for " +:+ path) = 600 →
          cut_twice (if Py.truthy raw then raw else "API endpoint for " +:+ path) e).
Proof.
  destruct (finish_cut resource_name http_method path raw)
    as (e & He & _ & _ & _ & _ & Hd).
  exists e. split; [done |]. split; [done |]. by apply cut_twice_600.
Qed.

(** C8, amended.  [parse_api_method] cuts the raw description to its first
    500 characters and an ellipsis when it is longer than 500, wherever it
    took it from: the text of a sibling of the heading, the title of the
    heading, the text of the parent without the text of the heading, or the
    generic sentence.  For a raw description of 600 characters the record
    has the first 500 characters and an ellipsis, 503 characters, and its
    row in the table has the first 200 characters and an ellipsis, 203
    characters.  [extract_endpoint_from_section] does not cut: its
    description is the text of the paragraph.  Whatever the description of
    a record, its rendering in the table is never longer than 200 characters
    plus the three of the ellipsis, and for a description of 600 characters
    it is the first 200 characters and an ellipsis. *)
Theorem C8_truncation :
  (∀ soup method_element resource_name http_method path text,
     scraper_utils.match_method_text (get_text true (elt method_element))
       = Some [http_method; path] →
     scraper_utils.scan_siblings soup 10 (next_sibling soup method_element)
       = Some text →
     ∃ e, scraper_utils.parse_api_method soup method_element resource_name
          = scraper_utils.Return (Some e)
          ∧ description e = scraper_utils.limit_description text
          ∧ (String.length text = 600 → cut_twice text e))
  ∧ (∀ soup method_element resource_name http_method path title,
       scraper_utils.match_method_text (get_text true (elt method_element))
         = Some [http_method; path] →
       scraper_utils.scan_siblings soup 10 (next_sibling soup method_element)
         = None →
       Bs4.get (elt method_element) "title" = Some title →
       title ≠ "" →
       ∃ e, scraper_utils.parse_api_method soup method_element resource_name
            = scraper_utils.Return (Some e)
            ∧ description e = scraper_utils.limit_description title
            ∧ (String.length title = 600 → cut_twice title e))
  ∧ (∀ soup method_element resource_name http_method path up,
       let method_text := get_text true (elt method_element) in
       let parent_text := get_text true (elt up) in
       let rest := Py.strip (Py.replace method_text "" parent_text) in
       scraper_utils.match_method_text method_text = Some [http_method; path] →
       scraper_utils.scan_siblings soup 10 (next_sibling soup method_element)
         = None →
       is_a_tag method_element = true →
       Bs4.get (elt method_element) "title" = None
       ∨ Bs4.get (elt method_element) "title" = Some "" →
       parent soup method_element = Some up →
       parent_text ≠ "" → parent_text ≠ method_text → rest ≠ "" →
       ∃ e, scraper_utils.parse_api_method soup method_element resource_name
            = scraper_utils.Return (Some e)
            ∧ description e = scraper_utils.limit_description rest
            ∧ (String.length rest = 600 → cut_twice rest e))
  ∧ (∀ soup method_element resource_name http_method path up,
       let method_text := get_text true (elt method_element) in
       let parent_text := get_text true (elt up) in
       let rest := Py.strip (Py.replace method_text "" parent_text) in
       let generic := "API endpoint for " +:+ path in
       scraper_utils.match_method_text method_text = Some [http_method; path] →
       scraper_utils.scan_siblings soup 10 (next_sibling soup method_element)
         = None →
       is_a_tag method_element = true →
       Bs4.get (elt method_element) "title" = None
       ∨ Bs4.get (elt method_element) "title" = Some "" →
       parent soup method_element = Some up →
       parent_text = "" ∨ parent_text = method_text ∨ rest = "" →
       ∃ e, scraper_utils.parse_api_method soup method_element resource_name
            = scraper_utils.Return (Some e)
            ∧ description e = scraper_utils.limit_description generic
            ∧ (String.length generic = 600 → cut_twice generic e))
  ∧ (∀ soup method_element resource_name e,
       scraper_utils.parse_api_method soup method_element resource_name
         = scraper_utils.Return (Some e) →
       ∃ raw, description e = scraper_utils.limit_description raw)
  ∧ (∀ raw, String.length raw = 600 →
       scraper_utils.limit_description raw = Py.slice_to 500 raw +:+ "..."
       ∧ data_utils.csv_description (scraper_utils.limit_description raw)
         = Py.slice_to 200 raw +:+ "...")
  ∧ (∀ soup section resource_name e,
       canvas_scraper.extract_endpoint_from_section soup section resource_name
         = Some e →
       ∃ h3, find_next soup section "h3" = Some h3
             ∧ description e = canvas_scraper.first_paragraph soup h3)
  ∧ (∀ e, String.length (data_utils.row_description (data_utils.csv_row e))
          ≤ 203)
  ∧ (∀ e, String.length (description e) = 600 →
          data_utils.row_description (data_utils.csv_row e)
          = Py.slice_to 200 (description e) +:+ "...").
Proof.
  split; [| split; [| split; [| split; [| split; [| split; [| split; [| split]]]]]]].
  - intros soup me rn m p text Hm Hfound.
    rewrite (parse_api_method_found _ _ _ _ _ _ Hm Hfound).
    destruct (finish_cut_twice rn m p text) as (e & He & Hd & Hcut).
    apply scan_siblings_substantial in Hfound as [Ht _].
    rewrite Ht in Hd, Hcut. by exists e.
  - intros soup me rn m p t Hm Hscan Htitle Ht.
    rewrite (parse_api_method_title _ _ _ _ _ _ Hm Hscan Htitle Ht).
    destruct (finish_cut_twice rn m p t) as (e & He & Hd & Hcut).
    apply truthy_true in Ht. rewrite Ht in Hd, Hcut. by exists e.
  - intros soup me rn m p up mt pt rest Hm Hscan Htag Htitle Hup Hpt Hne Hrest.
    rewrite (parse_api_method_parent _ _ _ _ _ _ Hm Hscan Htag Htitle Hup).
    apply truthy_true in Hpt. apply String.eqb_neq in Hne.
    subst mt pt. rewrite Hpt, Hne. simpl. fold rest.
    destruct (finish_cut_twice rn m p rest) as (e & He & Hd & Hcut).
    apply truthy_true in Hrest. rewrite Hrest in Hd, Hcut. by exists e.
  - intros soup me rn m p up mt pt rest generic Hm Hscan Htag Htitle Hup Hcase.
    rewrite (parse_api_method_parent _ _ _ _ _ _ Hm Hscan Htag Htitle Hup).
    subst mt pt rest.
    match goal with
    | |- ∃ e, scraper_utils.finish _ _ _ ?raw = _ ∧ _ =>
        assert (raw = "") as ->
    end.
    { destruct Hcase as [Hpt | [Heq | Hrest]].
      - apply truthy_false in Hpt. by rewrite Hpt.
      - apply String.eqb_eq in Heq. by rewrite Heq, andb_false_r.
      - rewrite Hrest. by destruct (_ && _). }
    destruct (finish_cut_twice rn m p "") as (e & He & Hd & Hcut). by exists e.
  - exact parse_api_method_description.
  - exact limit_description_600.
  - intros soup section rn e (h3 & m & p & _ & ? & _ & ->)%extract_endpoint_Some.
    by exists h3.
  - intros e. apply csv_description_length.
  - intros e H. simpl. apply csv_description_long. lia.
Qed.

Lemma C8_truncation_witness :
  (∃ e, scraper_utils.parse_api_method cap_scenarios.long_sibling_page
          (Element [0; 0] cap_scenarios.heading) "Users"
        = scraper_utils.Return (Some e)
        ∧ cut_twice scenarios.long_text e)
  ∧ (∃ e, scraper_utils.parse_api_method cap_scenarios.long_title_page
            (Element [0; 0] cap_scenarios.titled_heading) "Users"
          = scraper_utils.Return (Some e)
          ∧ cut_twice scenarios.long_text e)
  ∧ (∃ e, scraper_utils.parse_api_method cap_scenarios.long_parent_page
            (Element [0; 0] cap_scenarios.heading) "Users"
          = scraper_utils.Return (Some e)
          ∧ cut_twice scenarios.long_text e)
  ∧ data_utils.row_description
      (data_utils.csv_row (scenarios.with_description scenarios.long_text))
    = Py.slice_to 200 scenarios.long_text +:+ "...".
Proof.
  destruct C8_truncation
    as (Hsibling & Htitle & Hparent & _ & _ & _ & _ & _ & Hrow).
  split; [| split; [| split]].
  - destruct (Hsibling cap_scenarios.long_sibling_page
                (Element [0; 0] cap_scenarios.heading) "Users"
                "GET" "/api/v1/users" scenarios.long_text)
      as (e & He & _ & Hcut);
      [vm_compute; reflexivity | vm_compute; reflexivity |].
    exists e. split; [exact He |]. apply Hcut. vm_compute. reflexivity.
  - destruct (Htitle cap_scenarios.long_title_page
                (Element [0; 0] cap_scenarios.titled_heading) "Users"
                "GET" "/api/v1/users" scenarios.long_text)
      as (e & He & _ & Hcut);
      [vm_compute; reflexivity | vm_compute; reflexivity
       | vm_compute; reflexivity | vm_compute; discriminate |].
    exists e. split; [exact He |]. apply Hcut. vm_compute. reflexivity.
  - destruct (Hparent cap_scenarios.long_parent_page
                (Element [0; 0] cap_scenarios.heading) "Users"
                "GET" "/api/v1/users" (Element [0] (scenarios.el "div"
                   [cap_scenarios.heading;
                    scenarios.el "span" [scenarios.txt scenarios.long_text]])))
      as (e & He & _ & Hcut);
      [vm_compute; reflexivity | vm_compute; reflexivity
       | vm_compute; reflexivity | left; vm_compute; reflexivity
       | vm_compute; reflexivity | vm_compute; discriminate
       | vm_compute; discriminate | vm_compute; discriminate |].
    exists e. split; [exact He |].
    change scenarios.long_text
      with (Py.strip (Py.replace
              (get_text true (elt (Element [0; 0] cap_scenarios.heading))) ""
              (get_text true (elt (Element [0] (scenarios.el "div"
                 [cap_scenarios.heading;
                  scenarios.el "span" [scenarios.txt scenarios.long_text]]))))))
      at 1.
    apply Hcut. vm_compute. reflexivity.
  - apply (Hrow (scenarios.with_description scenarios.long_text)).
    vm_compute. reflexivity.
Defined.

(** C10.  The [h3] with the method and path, the parameters table and the
    example blocks are found by [find_next], a search through everything
    that follows the heading in document order, not only through its own
    section.  On a page whose first heading has an anchor and no [h3]
    before the next heading, the first heading is given the method, the path
    and the parameters of the section of the second one. *)
Theorem C10_forward_search_crosses_sections :
  let soup := scenarios.two_sections in
  ∃ first second e1 e2,
    select_children soup ["div"; "div"; "h2"] = [first; second]
    ∧ pos first = [0; 0; 0] ∧ pos second = [0; 0; 2]
    ∧ find first "h3" = None
    ∧ (pos <$> find_next soup first "h3") = Some [0; 0; 3]
    ∧ find_next soup first "h3" = find_next soup second "h3"
    ∧ find_next soup first "table" = find_next soup second "table"
    ∧ canvas_scraper.parse_canvas_api_page soup "Things" = [e1; e2]
    ∧ name e1 = "First" ∧ name e2 = "Second"
    ∧ http_method e1 = "GET" ∧ http_method e2 = "GET"
    ∧ path e1 = "/api/v1/second" ∧ path e2 = "/api/v1/second"
    ∧ description e1 = "Lists the second things."
    ∧ description e2 = "Lists the second things."
    ∧ parameters e1 = parameters e2 ∧ length (parameters e1) = 2
    ∧ examples e1 = examples e2
    ∧ examples e1 = RequestResponse "curl https://canvas/api/v1/second" "".
Proof.
  intros soup.
  exists (Element [0; 0; 0] (scenarios.el "h2" [scenarios.el "a" [scenarios.txt "First"]])),
         (Element [0; 0; 2] (scenarios.el "h2" [scenarios.el "a" [scenarios.txt "Second"]])).
  eexists _, _.
  split; [vm_compute; reflexivity |].
  split; [reflexivity |]. split; [reflexivity |].
  split; [vm_compute; reflexivity |]. split; [vm_compute; reflexivity |].
  split; [vm_compute; reflexivity |]. split; [vm_compute; reflexivity |].
  split; [vm_compute; reflexivity |].
  repeat split; vm_compute; reflexivity.
Qed.

End more_extraction_claims.

(** * Further properties of the code *)

(** ** The accumulators of the driver *)

Section accumulators.
Import models main.

(** X1.  In every state that the loop can reach the seen-set holds exactly
    the keys of the accepted records, one key per record. *)
Theorem seen_are_the_accepted_keys (st : state) :
  reachable st →
  seen_endpoint_ids st = list_to_set (endpoint_id <$> all_endpoints st)
  ∧ size (seen_endpoint_ids st) = length (all_endpoints st).
Proof.
  intros Hreach. pose proof (reachable_seen_keys st Hreach) as Hseen.
  split; [done |].
  apply reachable_coherent in Hreach as [Hnd _].
  rewrite Hseen, size_list_to_set by done. by rewrite length_fmap.
Qed.

Lemma seen_are_the_accepted_keys_witness :
  let st := filter_step (filter_step initial scenarios.under_a)
                        scenarios.under_a_get_x in
  seen_endpoint_ids st = list_to_set (endpoint_id <$> all_endpoints st)
  ∧ size (seen_endpoint_ids st) = length (all_endpoints st).
Proof.
  intros st. apply (seen_are_the_accepted_keys st).
  do 2 constructor. constructor.
Defined.

(** X2.  Going through a batch never removes or reorders what was accepted
    before: the old output is a prefix of the new one, and the output grows
    by at most the number of candidates. *)
Theorem accepted_only_grows (st : state) (batch : list endpoint) :
  all_endpoints st `prefix_of` all_endpoints (filter_endpoints st batch)
  ∧ length (all_endpoints (filter_endpoints st batch))
    ≤ length (all_endpoints st) + length batch
  ∧ seen_endpoint_ids st ⊆ seen_endpoint_ids (filter_endpoints st batch).
Proof.
  rewrite filter_endpoints_first_seen. split; [by eexists |].
  split; [| apply seen_mono].
  rewrite length_app. apply Nat.add_le_mono_l, sublist_length, first_seen_sublist.
Qed.

(** X3.  A page whose fetch failed contributes nothing: a run over some
    pages ends in the state of the run over the fetched ones, and a run in
    which every fetch failed ends in the initial state, with no row to
    write. *)
Theorem failed_fetches_contribute_nothing (pages : list (string * crawl_result)) :
  crawl_pages pages
  = crawl_pages (List.filter (fun page => success page.2) pages)
  ∧ ((∀ page, page ∈ pages → success page.2 = false) →
     crawl_pages pages = initial ∧ saved_rows (crawl_pages pages) = []).
Proof.
  assert (∀ st, foldl crawl_step st pages
                = foldl crawl_step st
                    (List.filter (fun page => success page.2) pages)) as Hfilter.
  { induction pages as [|[nm r] pages IH]; intros st; [done |].
    cbn [List.filter foldl snd]. destruct (success r) eqn:Hs; [apply IH |].
    assert (crawl_step st (nm, r) = st) as ->; [| apply IH].
    unfold crawl_step. by rewrite Hs. }
  split; [apply Hfilter |].
  intros Hfail. assert (crawl_pages pages = initial) as ->; [| done].
  unfold crawl_pages. rewrite Hfilter.
  assert (List.filter (fun page => success page.2) pages = []) as ->; [| done].
  clear Hfilter. induction pages as [|page pages IH]; [done |]. simpl.
  rewrite (Hfail page) by apply list_elem_of_here.
  apply IH. intros p Hp. apply Hfail. by apply list_elem_of_further.
Qed.

Lemma failed_fetches_contribute_nothing_witness :
  crawl_pages [("Users", more_scenarios.failed); ("Courses", more_scenarios.failed)]
  = initial.
Proof.
  apply (failed_fetches_contribute_nothing
           [("Users", more_scenarios.failed); ("Courses", more_scenarios.failed)]).
  intros page Hpage. rewrite !elem_of_cons in Hpage.
  destruct Hpage as [->|[->|H]]; [reflexivity | reflexivity |].
  by apply elem_of_nil in H.
Defined.

(** X4.  The table written at the end of a run has one row per accepted
    record, in the order of acceptance, and no two rows of it have the same
    resource, method and path. *)
Theorem rows_of_a_run (st : state) :
  reachable st →
  length (saved_rows st) = length (all_endpoints st)
  ∧ row_identity <$> saved_rows st = identity <$> all_endpoints st
  ∧ data_utils.parameter_count <$> saved_rows st
    = (fun e => length (parameters e)) <$> all_endpoints st
  ∧ NoDup (row_identity <$> saved_rows st).
Proof.
  intros [Hnd _]%reachable_coherent.
  assert (saved_rows st = data_utils.csv_row <$> all_endpoints st) as ->.
  { unfold saved_rows, data_utils.save_endpoints_to_csv.
    by destruct (all_endpoints st). }
  rewrite length_fmap, <- !list_fmap_compose.
  split; [done |]. split; [done |]. split; [done |].
  change (row_identity ∘ data_utils.csv_row) with identity.
  eapply (NoDup_fmap_1 (fun t : string * string * string =>
                          t.1.1 +:+ "_" +:+ t.1.2 +:+ "_" +:+ t.2)).
  by rewrite <- list_fmap_compose.
Qed.

Lemma rows_of_a_run_witness :
  NoDup (row_identity <$>
           saved_rows (filter_step (filter_step initial scenarios.under_a)
                                   (scenarios.with_description "Lists users."))).
Proof.
  apply (rows_of_a_run (filter_step (filter_step initial scenarios.under_a)
                                    (scenarios.with_description "Lists users."))).
  do 2 constructor. constructor.
Defined.

End accumulators.

(** ** The text that the patterns capture *)

Section captured_text.
Import Re.

Lemma append_assoc (a b c : string) : (a +:+ b) +:+ c = a +:+ b +:+ c.
Proof.
  induction a as [|x a IH]; [done |]. rewrite !append_cons. by rewrite IH.
Qed.

Lemma all_chars_append (p : ascii → bool) (a b : string) :
  all_chars p (a +:+ b) = all_chars p a && all_chars p b.
Proof.
  induction a as [|x a IH]; [done |]. rewrite append_cons. simpl.
  by rewrite IH, andb_assoc.
Qed.

Lemma star_greedy_run (p : ascii → bool) (s rest : string) :
  In rest (star_greedy p s) → ∃ w, s = w +:+ rest ∧ all_chars p w = true.
Proof.
  induction s as [|c s IH]; simpl.
  - intros [<-|[]]. by exists "".
  - destruct (p c) eqn:Hc.
    + intros [H|[<-|[]]]%in_app_iff.
      * destruct (IH H) as (w & -> & Hw). exists (String c w).
        split; [done |]. simpl. by rewrite Hc.
      * by exists "".
    + intros [<-|[]]. by exists "".
Qed.

(** What [C+] passes over is a non-empty run of characters of the class. *)
Lemma matches_Plus_run (p : ascii → bool) (s : string)
    (m : list string * string) :
  In m (matches (Plus p) s) →
  ∃ w, s = w +:+ m.2 ∧ w ≠ "" ∧ all_chars p w = true.
Proof.
  simpl. intros (rest & <- & H)%in_map_iff. simpl.
  destruct s as [|c s]; simpl in H; [done |].
  destruct (p c) eqn:Hc; [| done].
  apply star_greedy_run in H as (w & -> & Hw).
  exists (String c w). split; [done |]. split; [done |]. simpl. by rewrite Hc.
Qed.

(** The two groups of a method-and-path pattern, with the text that the
    path group went over. *)
Lemma method_then_path_text (alts : list string) (methods path : regex)
    (s : string) (m : list string * string) :
  (∀ s m, In m (matches methods s) → m.1 = [] ∧ ∃ l, l ∈ alts ∧ s = l +:+ m.2) →
  (∀ s m, In m (matches path s) → m.1 = []) →
  In m (matches (Cat (Grp methods) (Cat (Plus space) (Grp path))) s) →
  ∃ http_method pth s2 mp,
    m.1 = [http_method; pth] ∧ http_method ∈ alts
    ∧ In mp (matches path s2) ∧ pth = consumed s2 mp.2.
Proof.
  intros Hmethods Hpath (m1 & m2 & H1 & H2 & ->)%matches_Cat.
  apply matches_Grp in H1 as (a & Ha & ->).
  apply matches_Cat in H2 as (w & b & Hw & Hb & ->).
  apply matches_Plus in Hw. apply matches_Grp in Hb as (b' & Hb' & ->).
  pose proof (Hpath _ _ Hb') as Hg.
  apply Hmethods in Ha as (Ha & l & Hl & Hs).
  simpl in *. rewrite Ha, Hw, Hg. simpl.
  eexists _, _, _, b'. split; [done |].
  split; [| by split]. rewrite Hs at 1. by rewrite consumed_append.
Qed.

(** The path group of the strict patterns: a slash and a non-empty run
    without white space. *)
Lemma strict_path_text (s : string) (m : list string * string) :
  In m (matches (Cat (Lit "/") (Plus not_space)) s) →
  ∃ w, consumed s m.2 = "/" +:+ w ∧ w ≠ "" ∧ all_chars not_space w = true.
Proof.
  intros (m1 & m2 & [_ H1]%matches_Lit & H2%matches_Plus_run & ->)%matches_Cat.
  destruct H2 as (w & H2 & Hw & Hall). simpl.
  exists w. split; [| done].
  rewrite H1, H2, <- append_assoc. apply consumed_append.
Qed.

Lemma loose_path_text (s : string) (m : list string * string) :
  In m (matches (Plus path_char) s) →
  ∃ w, consumed s m.2 = w ∧ w ≠ "" ∧ all_chars path_char w = true.
Proof.
  intros (w & H & Hw & Hall)%matches_Plus_run.
  exists w. split; [| done]. rewrite H at 1. apply consumed_append.
Qed.

Lemma path_char_is_not_space (c : ascii) :
  path_char c = true → not_space c = true.
Proof.
  assert (forallb (fun n => implb (path_char (ascii_of_nat n))
                                  (not_space (ascii_of_nat n)))
                  (seq 0 256) = true) as Hall by (vm_compute; reflexivity).
  rewrite forallb_forall in Hall.
  specialize (Hall (nat_of_ascii c)). rewrite ascii_nat_embedding in Hall.
  intros Hc. rewrite Hc in Hall. apply Hall.
  apply in_seq. pose proof (nat_ascii_bounded c). lia.
Qed.

Lemma path_char_not_space (w : string) :
  all_chars path_char w = true → all_chars not_space w = true.
Proof.
  induction w as [|c w IH]; [done |]. simpl.
  intros [Hc Hw]%andb_true_iff.
  by rewrite IH, (path_char_is_not_space c Hc).
Qed.

End captured_text.

(** What [canvas_scraper] captures: a method of its four and a path that
    starts with a slash, has a character after it and no white space. *)
Lemma canvas_pattern_text (s : string) (g : list string) :
  Re.re_match canvas_scraper.method_path s = Some g →
  ∃ http_method w,
    g = [http_method; "/" +:+ w]
    ∧ http_method ∈ ["GET"; "POST"; "PUT"; "DELETE"]
    ∧ w ≠ "" ∧ all_chars Re.not_space w = true.
Proof.
  intros [rest H]%re_match_In.
  apply (method_then_path_text _ _ _ _ _ canvas_methods strict_path_groups) in H
    as (m & p & s2 & mp & Hg & Hm & Hmp & ->).
  apply strict_path_text in Hmp as (w & Hc & Hw & Hall).
  simpl in Hg. rewrite Hc in Hg. by exists m, w.
Qed.

(** What the two patterns of [scraper_utils] capture. *)
Lemma scraper_pattern_text (s : string) (g : list string) :
  scraper_utils.match_method_text s = Some g →
  ∃ http_method pth,
    g = [http_method; pth]
    ∧ http_method ∈ ["GET"; "POST"; "PUT"; "DELETE"; "PATCH"]
    ∧ pth ≠ "" ∧ all_chars Re.not_space pth = true
    ∧ (is_Some (Re.re_search scraper_utils.strict_pattern s) →
       String.prefix "/" pth = true).
Proof.
  unfold scraper_utils.match_method_text.
  destruct (Re.re_search scraper_utils.strict_pattern s) as [g'|] eqn:Hstrict.
  - intros [= <-]. apply re_search_re_match in Hstrict as [s' Hs'].
    apply re_match_In in Hs' as [rest H].
    apply (method_then_path_text _ _ _ _ _ scraper_methods strict_path_groups) in H
      as (m & p & s2 & mp & Hg & Hm & Hmp & ->).
    apply strict_path_text in Hmp as (w & Hc & Hw & Hall).
    simpl in Hg. rewrite Hc in Hg.
    exists m, ("/" +:+ w). split; [done |]. split; [done |].
    split; [by apply append_nonempty_l |].
    split; [by rewrite all_chars_append, Hall |].
    intros _. apply prefix_append.
  - intros [s' Hs']%re_search_re_match.
    apply re_match_In in Hs' as [rest H].
    apply (method_then_path_text _ _ _ _ _ scraper_methods) in H
      as (m & p & s2 & mp & Hg & Hm & Hmp & ->); [| apply matches_Plus].
    apply loose_path_text in Hmp as (w & Hc & Hw & Hall).
    simpl in Hg. rewrite Hc in Hg.
    exists m, w. split; [done |]. split; [done |]. split; [done |].
    split; [by apply path_char_not_space |]. by intros [? ?].
Qed.

(** ** When the key tells the records apart *)

Section keys.
Import models main.

Lemma first_slash (a1 a2 b1 b2 : string) :
  all_chars not_slash a1 = true → all_chars not_slash a2 = true →
  a1 +:+ "/" +:+ b1 = a2 +:+ "/" +:+ b2 → a1 = a2 ∧ b1 = b2.
Proof.
  revert a2. induction a1 as [|c a1 IH]; intros [|d a2]; simpl.
  - intros _ _. change (String "/" b1 = String "/" b2 → "" = "" ∧ b1 = b2).
    by intros [= ->].
  - intros _ [Hd _]%andb_true_iff.
    change (String "/" b1 = String d (a2 +:+ "/" +:+ b2) → "" = String d a2 ∧ b1 = b2).
    intros [= <- _]. done.
  - intros [Hc _]%andb_true_iff _.
    change (String c (a1 +:+ "/" +:+ b1) = String "/" b2 → String c a1 = "" ∧ b1 = b2).
    intros [= -> _]. done.
  - intros [_ H1]%andb_true_iff [_ H2]%andb_true_iff.
    change (String c (a1 +:+ "/" +:+ b1) = String d (a2 +:+ "/" +:+ b2)
            → String c a1 = String d a2 ∧ b1 = b2).
    intros [= -> H]. by destruct (IH a2 H1 H2 H) as [-> ->].
Qed.

Lemma list_of_append (a b : string) :
  String.list_ascii_of_string (a +:+ b)
  = String.list_ascii_of_string a ++ String.list_ascii_of_string b.
Proof.
  induction a as [|c a IH]; [done |]. rewrite append_cons. simpl. by rewrite IH.
Qed.

Lemma list_of_string_inj (a b : string) :
  String.list_ascii_of_string a = String.list_ascii_of_string b → a = b.
Proof.
  intros H. rewrite <- (String.string_of_list_ascii_of_string a),
              <- (String.string_of_list_ascii_of_string b). by rewrite H.
Qed.

Lemma last_three (x y u v : list ascii) :
  x ++ u = y ++ v → 3 ≤ length u → 3 ≤ length v →
  take 3 (rev u) = take 3 (rev v).
Proof.
  intros H Hu Hv. apply (f_equal (fun l => take 3 (rev l))) in H.
  rewrite !rev_app_distr in H.
  by rewrite !take_app_le in H by (by rewrite length_rev).
Qed.

(** The part of the key before the path gives the resource and the method
    back. *)
Lemma resource_and_method (r1 r2 m1 m2 : string) :
  m1 ∈ ["GET"; "POST"; "PUT"; "DELETE"; "PATCH"] →
  m2 ∈ ["GET"; "POST"; "PUT"; "DELETE"; "PATCH"] →
  r1 +:+ "_" +:+ m1 +:+ "_" = r2 +:+ "_" +:+ m2 +:+ "_" →
  r1 = r2 ∧ m1 = m2.
Proof.
  intros H1 H2 H. apply (f_equal String.list_ascii_of_string) in H.
  rewrite !(list_of_append r1), !(list_of_append r2) in H.
  rewrite !elem_of_cons in H1, H2.
  destruct H1 as [->|[->|[->|[->|[->|H1]]]]];
    destruct H2 as [->|[->|[->|[->|[->|H2]]]]];
    try (by apply elem_of_nil in H1); try (by apply elem_of_nil in H2);
    try (apply app_inv_tail in H; apply list_of_string_inj in H; by subst);
    (apply last_three in H;
     [vm_compute in H; discriminate H | vm_compute; lia | vm_compute; lia]).
Qed.

Lemma endpoint_id_injective (e1 e2 : endpoint) :
  all_chars not_slash (resource e1) = true →
  all_chars not_slash (resource e2) = true →
  http_method e1 ∈ ["GET"; "POST"; "PUT"; "DELETE"; "PATCH"] →
  http_method e2 ∈ ["GET"; "POST"; "PUT"; "DELETE"; "PATCH"] →
  String.prefix "/" (path e1) = true →
  String.prefix "/" (path e2) = true →
  endpoint_id e1 = endpoint_id e2 →
  identity e1 = identity e2.
Proof.
  intros Hr1 Hr2 Hm1 Hm2 Hp1%prefix_split Hp2%prefix_split Hkey.
  unfold endpoint_id, identity in *.
  set (q1 := Py.slice_from (String.length "/") (path e1)) in *.
  set (q2 := Py.slice_from (String.length "/") (path e2)) in *.
  rewrite Hp1, Hp2 in *. clearbody q1 q2.
  assert (∀ r m q : string,
            r +:+ "_" +:+ m +:+ "_" +:+ "/" +:+ q
            = (r +:+ "_" +:+ m +:+ "_") +:+ "/" +:+ q) as Hassoc.
  { intros r m q. by rewrite !append_assoc. }
  rewrite !Hassoc in Hkey.
  assert (∀ r m, all_chars not_slash r = true →
                 m ∈ ["GET"; "POST"; "PUT"; "DELETE"; "PATCH"] →
                 all_chars not_slash (r +:+ "_" +:+ m +:+ "_") = true) as Hclean.
  { intros r m Hr Hm. rewrite all_chars_append, Hr. simpl.
    rewrite !elem_of_cons in Hm.
    destruct Hm as [->|[->|[->|[->|[->|Hm]]]]]; try done.
    by apply elem_of_nil in Hm. }
  apply first_slash in Hkey as [Hkey ->]; [| by apply Hclean..].
  by apply resource_and_method in Hkey as [-> ->].
Qed.

(** X5.  For records whose resource name has no slash, whose method is one
    of the five and whose path starts with a slash, the key of the loop
    determines the resource, the method and the path: two such records with
    one key are the same endpoint. *)
Theorem key_tells_endpoints_apart (e1 e2 : endpoint) :
  all_chars not_slash (resource e1) = true →
  all_chars not_slash (resource e2) = true →
  http_method e1 ∈ ["GET"; "POST"; "PUT"; "DELETE"; "PATCH"] →
  http_method e2 ∈ ["GET"; "POST"; "PUT"; "DELETE"; "PATCH"] →
  String.prefix "/" (path e1) = true →
  String.prefix "/" (path e2) = true →
  endpoint_id e1 = endpoint_id e2 →
  identity e1 = identity e2.
Proof. apply endpoint_id_injective. Qed.

Lemma key_tells_endpoints_apart_witness :
  identity (scenarios.with_description "Lists users.")
  = identity (scenarios.with_description "").
Proof.
  apply key_tells_endpoints_apart;
    try reflexivity; apply list_elem_of_here.
Defined.

End keys.

(** ** Records of [canvas_scraper] *)

Section canvas_records.
Import Bs4 models canvas_scraper.

Lemma canvas_record (soup : node) (resource_name : string) (e : endpoint) :
  e ∈ parse_canvas_api_page soup resource_name →
  ∃ section h3 http_method w,
    section ∈ select_children soup ["div"; "div"; "h2"]
    ∧ find_next soup section "h3" = Some h3
    ∧ http_method ∈ ["GET"; "POST"; "PUT"; "DELETE"]
    ∧ w ≠ "" ∧ all_chars Re.not_space w = true
    ∧ method_name section ≠ ""
    ∧ e = {| resource := resource_name;
             name := method_name section;
             http_method := http_method;
             path := "/" +:+ w;
             description := first_paragraph soup h3;
             parameters := table_parameters soup section;
             examples :=
               RequestResponse
                 (example_block soup section "Example Request")
                 (example_block soup section "Example Response") |}.
Proof.
  unfold parse_canvas_api_page.
  intros (section & Hsel & H)%list_elem_of_omap.
  apply extract_endpoint_Some in H as (h3 & m & p & Hname & Hh3 & Hm & ->).
  destruct (canvas_pattern_text _ _ Hm) as (m' & w & [= -> ->] & Hin & Hw & Hall).
  by exists section, h3, m', w.
Qed.

(** X6.  Every record that [parse_canvas_api_page] returns carries the
    resource name it was given, a non-empty name, one of the methods [GET],
    [POST], [PUT], [DELETE], and a path that starts with a slash, has at
    least one more character and contains no white space; its examples are
    the request and response pair. *)
Theorem canvas_record_fields (soup : node) (resource_name : string)
    (e : endpoint) :
  e ∈ parse_canvas_api_page soup resource_name →
  resource e = resource_name
  ∧ name e ≠ ""
  ∧ http_method e ∈ ["GET"; "POST"; "PUT"; "DELETE"]
  ∧ String.prefix "/" (path e) = true
  ∧ 2 ≤ String.length (path e)
  ∧ all_chars Re.not_space (path e) = true
  ∧ ∃ request response, examples e = RequestResponse request response.
Proof.
  intros (section & h3 & m & w & _ & _ & Hm & Hw & Hall & Hname & ->)%canvas_record.
  simpl. split; [done |]. split; [done |]. split; [done |].
  split; [apply prefix_append |].
  split; [| split; [by rewrite all_chars_append, Hall | by eexists _, _]].
  rewrite length_append. change (String.length "/") with 1.
  destruct w; [done |]. simpl. lia.
Qed.

Lemma canvas_record_fields_witness :
  resource more_scenarios.users_record = "Users"
  ∧ name more_scenarios.users_record ≠ ""
  ∧ http_method more_scenarios.users_record ∈ ["GET"; "POST"; "PUT"; "DELETE"]
  ∧ String.prefix "/" (path more_scenarios.users_record) = true
  ∧ 2 ≤ String.length (path more_scenarios.users_record)
  ∧ all_chars Re.not_space (path more_scenarios.users_record) = true
  ∧ ∃ request response,
      examples more_scenarios.users_record = RequestResponse request response.
Proof.
  apply (canvas_record_fields scenarios.canvas_layout "Users").
  vm_compute. apply list_elem_of_here.
Defined.

Lemma canvas_required_iff (soup : node) (resource_name : string)
    (e : endpoint) :
  e ∈ parse_canvas_api_page soup resource_name →
  required_fields_present e ↔ resource_name ≠ "" ∧ description e ≠ "".
Proof.
  intros (section & h3 & m & w & _ & _ & Hm & Hw & Hall & Hname & ->)%canvas_record.
  unfold required_fields_present. simpl.
  assert (m ≠ "") as Hne.
  { intros ->. rewrite !elem_of_cons in Hm.
    destruct Hm as [?|[?|[?|[?|Hm]]]]; try done. by apply elem_of_nil in Hm. }
  assert ("/" +:+ w ≠ "") by by apply append_nonempty_l.
  tauto.
Qed.

(** X7.  A record of [parse_canvas_api_page] passes the required-field
    gate of the driver exactly when the resource name and the description
    are not empty: the other required fields never are. *)
Theorem canvas_record_gate (soup : node) (resource_name : string)
    (e : endpoint) :
  e ∈ parse_canvas_api_page soup resource_name →
  main.has_required_keys e = true
  ↔ resource_name ≠ "" ∧ description e ≠ "".
Proof.
  intros He. rewrite has_required_keys_spec. by eapply canvas_required_iff.
Qed.

Lemma canvas_record_gate_witness :
  main.has_required_keys more_scenarios.bare_record = true
  ↔ "Users" ≠ "" ∧ description more_scenarios.bare_record ≠ "".
Proof.
  apply (canvas_record_gate more_scenarios.no_paragraph "Users").
  vm_compute. apply list_elem_of_here.
Defined.

(** X8.  When no paragraph follows the method line, the record has an empty
    description, and the loop of the driver never accepts it, whatever its
    state. *)
Theorem no_paragraph_no_entry (soup : node) (section : element)
    (resource_name : string) (e : endpoint) :
  extract_endpoint_from_section soup section resource_name = Some e →
  (∀ h3, find_next soup section "h3" = Some h3 → find_next soup h3 "p" = None) →
  description e = "" ∧ ∀ st, main.filter_step st e = st.
Proof.
  intros (h3 & m & p & _ & Hh3 & _ & ->)%extract_endpoint_Some Hnone.
  assert (first_paragraph soup h3 = "") as Hd.
  { unfold first_paragraph. by rewrite (Hnone h3 Hh3). }
  simpl. split; [done |]. intros st. apply filter_step_incomplete.
  unfold required_fields_present. simpl. rewrite Hd. tauto.
Qed.

Lemma no_paragraph_no_entry_witness :
  description more_scenarios.bare_record = ""
  ∧ ∀ st, main.filter_step st more_scenarios.bare_record = st.
Proof.
  apply (no_paragraph_no_entry more_scenarios.no_paragraph
           (scenarios.first_h2 more_scenarios.no_paragraph) "Users").
  - vm_compute. reflexivity.
  - intros h3 Hh3. vm_compute in Hh3. injection Hh3 as <-.
    vm_compute. reflexivity.
Defined.

Lemma filter_length_le {A} (f g : A → bool) (l : list A) :
  (∀ x, f x = true → g x = true) →
  length (List.filter f l) ≤ length (List.filter g l).
Proof.
  intros H. induction l as [|x l IH]; [done |]. simpl.
  destruct (f x) eqn:Hf.
  - rewrite (H x Hf). simpl. lia.
  - destruct (g x); simpl; lia.
Qed.

Lemma omap_length_le {A B} (f : A → option B) (l : list A) :
  length (omap f l) ≤ length l.
Proof.
  induction l as [|x l IH]; [done |]. csimpl. destruct (f x); simpl; lia.
Qed.

(** X9.  A page gives at most one record per [h2] heading, and a page
    without an [h2] gives none. *)
Theorem records_bounded_by_headings (soup : node) (resource_name : string) :
  length (parse_canvas_api_page soup resource_name)
  ≤ length (List.filter (is_tag "h2") (descendants [] soup))
  ∧ ((∀ e, e ∈ descendants [] soup → is_tag "h2" e = false) →
     parse_canvas_api_page soup resource_name = []).
Proof.
  assert (length (parse_canvas_api_page soup resource_name)
          ≤ length (List.filter (is_tag "h2") (descendants [] soup))) as Hle.
  { unfold parse_canvas_api_page. etrans; [apply omap_length_le |].
    unfold select_children. apply filter_length_le.
    intros x Hx. simpl in Hx. by apply andb_true_iff in Hx as [? _]. }
  split; [done |]. intros Hnone.
  assert (List.filter (is_tag "h2") (descendants [] soup) = []) as Hempty.
  { clear Hle. revert Hnone. generalize (descendants [] soup).
    intros l. induction l as [|x l IH]; intros Hnone; [done |]. simpl.
    rewrite (Hnone x) by apply list_elem_of_here.
    apply IH. intros y Hy. apply Hnone. by apply list_elem_of_further. }
  rewrite Hempty in Hle.
  destruct (parse_canvas_api_page soup resource_name); [done |].
  simpl in Hle. lia.
Qed.

Lemma records_bounded_by_headings_witness :
  parse_canvas_api_page (scenarios.document [scenarios.el "p" [scenarios.txt "Nothing here."]])
    "Users" = [].
Proof.
  apply (records_bounded_by_headings
           (scenarios.document [scenarios.el "p" [scenarios.txt "Nothing here."]])).
  intros e He. apply list_elem_of_In in He. simpl in He.
  destruct He as [<-|[<-|[]]]; reflexivity.
Defined.

Lemma omap_filter_fmap {A B} (f : A → option B) (p : A → bool) (g : A → B)
    (l : list A) :
  (∀ x, f x = if p x then Some (g x) else None) →
  omap f l = g <$> List.filter p l.
Proof.
  intros Hf. induction l as [|x l IH]; [done |]. csimpl.
  rewrite Hf, IH. by destruct (p x).
Qed.

Lemma parameter_of_row_cells (row : element) :
  parameter_of_row row
  = if 3 <=? length (find_all row "td")
    then Some {| param_name := cell_text (find_all row "td") 0;
                 param_type := cell_text (find_all row "td") 1;
                 param_desc := cell_text (find_all row "td") 2 |}
    else None.
Proof.
  unfold parameter_of_row.
  by destruct (find_all row "td") as [|c0 [|c1 [|c2 cs]]].
Qed.

(** X10.  The parameters of a record are read off the next table: one
    parameter for each row after the first that has at least three [td]
    cells, in the order of the rows, with the stripped texts of the first
    three cells as its name, type and description.  There are no
    parameters without a table, and never more than the number of rows less
    one. *)
Theorem parameters_of_the_table (soup : node) (section : element) :
  (find_next soup section "table" = None → table_parameters soup section = [])
  ∧ (∀ table,
       find_next soup section "table" = Some table →
       table_parameters soup section
       = (λ row, {| param_name := cell_text (find_all row "td") 0;
                    param_type := cell_text (find_all row "td") 1;
                    param_desc := cell_text (find_all row "td") 2 |})
         <$> List.filter (λ row, 3 <=? length (find_all row "td"))
                         (drop 1 (find_all table "tr"))
       ∧ length (table_parameters soup section)
         = length (List.filter (λ row, 3 <=? length (find_all row "td"))
                               (drop 1 (find_all table "tr")))
       ∧ length (table_parameters soup section)
         ≤ length (find_all table "tr") - 1)
  ∧ (∀ resource_name e,
       extract_endpoint_from_section soup section resource_name = Some e →
       parameters e = table_parameters soup section).
Proof.
  split; [unfold table_parameters; by intros -> |].
  split.
  - intros table Htable.
    assert (table_parameters soup section
            = (λ row, {| param_name := cell_text (find_all row "td") 0;
                         param_type := cell_text (find_all row "td") 1;
                         param_desc := cell_text (find_all row "td") 2 |})
              <$> List.filter (λ row, 3 <=? length (find_all row "td"))
                              (drop 1 (find_all table "tr"))) as Hmap.
    { unfold table_parameters. rewrite Htable.
      apply omap_filter_fmap, parameter_of_row_cells. }
    split; [done |].
    split; [by rewrite Hmap, length_fmap |].
    unfold table_parameters. rewrite Htable.
    etrans; [apply omap_length_le |]. by rewrite length_drop.
  - intros rn e (h3 & m & p & _ & _ & _ & ->)%extract_endpoint_Some. done.
Qed.

Lemma parameters_of_the_table_witness :
  find_next scenarios.canvas_layout
    (scenarios.first_h2 scenarios.canvas_layout) "table"
  = Some (Element [0; 0; 3] scenarios.users_table)
  ∧ table_parameters scenarios.canvas_layout
      (scenarios.first_h2 scenarios.canvas_layout)
    = [ {| param_name := "id"; param_type := "integer";
           param_desc := "The user id." |};
        {| param_name := "name"; param_type := "string";
           param_desc := "The user name." |} ].
Proof.
  assert (find_next scenarios.canvas_layout
            (scenarios.first_h2 scenarios.canvas_layout) "table"
          = Some (Element [0; 0; 3] scenarios.users_table)) as Htable
    by (vm_compute; reflexivity).
  split; [exact Htable |].
  refine (eq_trans
            (proj1 (proj1 (proj2 (parameters_of_the_table scenarios.canvas_layout
                                    (scenarios.first_h2 scenarios.canvas_layout)))
                          (Element [0; 0; 3] scenarios.users_table) Htable)) _).
  vm_compute. reflexivity.
Defined.

End canvas_records.

(** ** Records of [scraper_utils] *)

Section scraper_records.
Import Bs4 models scraper_utils.

Lemma parse_api_method_returned (soup : node) (method_element : element)
    (resource_name : string) (e : endpoint) :
  parse_api_method soup method_element resource_name = Return (Some e) →
  ∃ http_method pth raw,
    match_method_text (get_text true (elt method_element))
      = Some [http_method; pth]
    ∧ finish resource_name http_method pth raw = Return (Some e).
Proof.
  intros H.
  destruct (match_method_text (get_text true (elt method_element)))
    as [g|] eqn:Hm.
  2: { unfold parse_api_method in H. by rewrite Hm in H. }
  destruct (scraper_pattern_groups _ _ Hm) as (m & p & -> & Hin).
  destruct (parse_api_method_shape soup method_element resource_name _ _ Hm)
    as [[exn Hr]|[d Hd]]; [congruence |].
  rewrite Hd in H. by exists m, p, d.
Qed.

(** X11.  Every record that [parse_api_method] returns carries the
    resource name it was given, a path that is not empty and has no white
    space, a description of at most 503 characters, no parameters and no
    example, so that its row in the table counts no parameter; and the
    path starts with a slash whenever the strict pattern is the one that
    matched the heading. *)
Theorem scraper_record_fields (soup : node) (method_element : element)
    (resource_name : string) (e : endpoint) :
  parse_api_method soup method_element resource_name = Return (Some e) →
  resource e = resource_name
  ∧ path e ≠ ""
  ∧ all_chars Re.not_space (path e) = true
  ∧ (is_Some (Re.re_search strict_pattern (get_text true (elt method_element))) →
     String.prefix "/" (path e) = true)
  ∧ String.length (description e) ≤ 503
  ∧ parameters e = [] ∧ examples e = Example None
  ∧ data_utils.parameter_count (data_utils.csv_row e) = 0.
Proof.
  intros (m & p & raw & Hm & Hfin)%parse_api_method_returned.
  destruct (scraper_pattern_text _ _ Hm)
    as (m' & p' & [= <- <-] & _ & Hp & Hall & Hstrict).
  destruct (finish_record resource_name m p raw)
    as (e' & He' & Hr & _ & Hpath & _ & Hlen & _ & Hpar & Hex).
  rewrite He' in Hfin. injection Hfin as <-.
  rewrite Hpath. repeat split; try done. simpl. by rewrite Hpar.
Qed.

Lemma scraper_record_fields_witness :
  ∃ e, parse_api_method scenarios.lone_heading scenarios.lone_h2 "Users"
       = Return (Some e)
       ∧ resource e = "Users" ∧ path e ≠ "".
Proof.
  eexists. split; [vm_compute; reflexivity |].
  split; [reflexivity |].
  refine (proj1 (proj2 (scraper_record_fields scenarios.lone_heading
                          scenarios.lone_h2 "Users" _ _))).
  vm_compute. reflexivity.
Defined.

(** X12.  A record of [parse_api_method] has every required field of the
    driver as soon as the resource name is not empty: with a key that was
    not seen, the loop of the driver accepts it. *)
Theorem scraper_record_gate (soup : node) (method_element : element)
    (resource_name : string) (e : endpoint) :
  parse_api_method soup method_element resource_name = Return (Some e) →
  resource_name ≠ "" →
  main.has_required_keys e = true
  ∧ ∀ st, main.endpoint_id e ∉ main.seen_endpoint_ids st →
          main.all_endpoints (main.filter_step st e)
          = main.all_endpoints st ++ [e].
Proof.
  intros (m & p & raw & Hm & Hfin)%parse_api_method_returned Hrn.
  destruct (scraper_pattern_text _ _ Hm)
    as (m' & p' & [= <- <-] & Hin & Hp & _ & _).
  destruct (finish_record resource_name m p raw)
    as (e' & He' & Hr & Hmeth & Hpath & Hd & _ & Hname & _).
  rewrite He' in Hfin. injection Hfin as <-.
  assert (required_fields_present e') as Hreq.
  { unfold required_fields_present. rewrite Hr, Hmeth, Hpath.
    repeat split; try done. intros ->. rewrite !elem_of_cons in Hin.
    destruct Hin as [?|[?|[?|[?|[?|Hin]]]]]; try done.
    by apply elem_of_nil in Hin. }
  split; [by apply has_required_keys_spec |].
  intros st Hseen. by rewrite filter_step_accept.
Qed.

Lemma scraper_record_gate_witness :
  ∃ e, parse_api_method scenarios.lone_heading scenarios.lone_h2 "Users"
       = Return (Some e)
       ∧ main.has_required_keys e = true.
Proof.
  eexists. split; [vm_compute; reflexivity |].
  refine (proj1 (scraper_record_gate scenarios.lone_heading
                   scenarios.lone_h2 "Users" _ _ _)).
  - vm_compute. reflexivity.
  - discriminate.
Defined.

End scraper_records.

(** ** The pages of [extract_api_endpoints] *)

Section scraper_pages_facts.
Import Bs4 models scraper_utils scraper_pages.

Lemma api_methods_are_tags (soup : node) (method : element) :
  method ∈ api_methods soup →
  method ∈ descendants [] soup ∧ is_tag "h2" method = true.
Proof.
  unfold api_methods, selectors.select_class, selectors.select_under_id.
  destruct (List.filter _ _) as [|x l] eqn:Hsel.
  - rewrite !list_elem_of_In.
    intros [[? [? _]%andb_true_iff]%filter_In _]%filter_In. done.
  - rewrite <- Hsel, !list_elem_of_In.
    intros [? [? _]%andb_true_iff]%filter_In. done.
Qed.

Lemma is_tag_is_a_tag (nm : string) (e : element) :
  is_tag nm e = true → is_a_tag e = true.
Proof. unfold is_tag, is_a_tag. by destruct (elt e). Qed.

Lemma parse_api_method_returns (soup : node) (method_element : element)
    (resource_name : string) :
  method_element ∈ descendants [] soup →
  is_a_tag method_element = true →
  ∃ r, parse_api_method soup method_element resource_name = Return r.
Proof.
  intros Hin Htag.
  destruct (match_method_text (get_text true (elt method_element)))
    as [g|] eqn:Hm.
  - destruct (scraper_pattern_groups _ _ Hm) as (m & p & -> & _).
    destruct (parse_api_method_finish soup method_element resource_name m p
                Hin Htag Hm) as [d ->].
    unfold finish. by eexists.
  - unfold parse_api_method. rewrite Hm. by eexists.
Qed.

Lemma parse_all_returns (soup : node) (methods : list element)
    (resource_name : string) :
  (∀ m, m ∈ methods → m ∈ descendants [] soup ∧ is_a_tag m = true) →
  ∃ endpoints,
    parse_all soup methods resource_name = Return endpoints
    ∧ length endpoints ≤ length methods
    ∧ ∀ e, e ∈ endpoints →
           ∃ m, m ∈ methods
                ∧ parse_api_method soup m resource_name = Return (Some e).
Proof.
  induction methods as [|m ms IH]; intros Hms.
  - exists []. split; [done |]. split; [done |]. by intros e ?%elem_of_nil.
  - destruct IH as (es & Hes & Hlen & Hfrom).
    { intros x Hx. apply Hms. by apply list_elem_of_further. }
    destruct (Hms m) as [Hin Htag]; [apply list_elem_of_here |].
    destruct (parse_api_method_returns soup m resource_name Hin Htag) as [r Hr].
    simpl. rewrite Hr, Hes. destruct r as [e|].
    + exists (e :: es). split; [done |]. split; [simpl; lia |].
      intros x [->|Hx]%elem_of_cons.
      * exists m. split; [apply list_elem_of_here | done].
      * destruct (Hfrom x Hx) as (m' & ? & ?). exists m'.
        split; [by apply list_elem_of_further | done].
    + exists es. split; [done |]. split; [simpl; lia |].
      intros x Hx. destruct (Hfrom x Hx) as (m' & ? & ?). exists m'.
      split; [by apply list_elem_of_further | done].
Qed.

(** X13.  [extract_api_endpoints] never raises: it returns a list, empty
    when the fetch failed, with at most one record per selected heading,
    each of them being what [parse_api_method] gives for one of the
    selected headings. *)
Theorem extract_api_endpoints_returns (result : main.crawl_result)
    (resource_name : string) :
  ∃ endpoints,
    extract_api_endpoints result resource_name = Return endpoints
    ∧ (main.success result = false → endpoints = [])
    ∧ length endpoints ≤ length (api_methods (main.cleaned_html result))
    ∧ ∀ e, e ∈ endpoints →
           ∃ m, m ∈ api_methods (main.cleaned_html result)
                ∧ parse_api_method (main.cleaned_html result) m resource_name
                  = Return (Some e).
Proof.
  unfold extract_api_endpoints. destruct (main.success result); simpl.
  - destruct (parse_all_returns (main.cleaned_html result)
                (api_methods (main.cleaned_html result)) resource_name)
      as (es & -> & Hlen & Hfrom).
    { intros m [? ?%is_tag_is_a_tag]%api_methods_are_tags. done. }
    exists es. by repeat split.
  - exists []. split; [done |]. split; [done |]. split; [simpl; lia |].
    by intros e ?%elem_of_nil.
Qed.

Lemma extract_api_endpoints_returns_witness :
  ∃ endpoints,
    extract_api_endpoints more_scenarios.failed "Users" = Return endpoints
    ∧ endpoints = [].
Proof.
  destruct (extract_api_endpoints_returns more_scenarios.failed "Users")
    as (es & Hes & Hfailed & _).
  exists es. split; [exact Hes | apply Hfailed; reflexivity].
Defined.

Lemma parse_all_complete (soup : node) (methods : list element)
    (resource_name : string) :
  (∀ m, m ∈ methods →
        m ∈ descendants [] soup ∧ is_a_tag m = true
        ∧ is_Some (match_method_text (get_text true (elt m)))) →
  ∃ endpoints,
    parse_all soup methods resource_name = Return endpoints
    ∧ length endpoints = length methods.
Proof.
  induction methods as [|m ms IH]; intros Hms.
  - by exists [].
  - destruct IH as (es & Hes & Hlen).
    { intros x Hx. apply Hms. by apply list_elem_of_further. }
    destruct (Hms m) as (Hin & Htag & [g Hg]); [apply list_elem_of_here |].
    destruct (scraper_pattern_groups _ _ Hg) as (hm & p & -> & _).
    destruct (parse_api_method_finish soup m resource_name hm p Hin Htag Hg)
      as [d Hd].
    simpl. rewrite Hd, Hes. unfold finish.
    eexists. split; [done |]. simpl. by rewrite Hlen.
Qed.

(** X14.  On a fetched page without any [h2] of class [api_method_name],
    the headings kept are the [h2] under [div#content] whose text has a
    method and a path, and every one of them gives a record: there are as
    many records as headings kept. *)
Theorem fallback_headings_all_give_records (result : main.crawl_result)
    (resource_name : string) :
  main.success result = true →
  selectors.select_class (main.cleaned_html result) "h2" "api_method_name" = [] →
  ∃ endpoints,
    extract_api_endpoints result resource_name = Return endpoints
    ∧ length endpoints
      = length (List.filter
                  (fun method =>
                     bool_decide (is_Some (Re.re_search strict_pattern
                                             (get_text true (elt method)))))
                  (selectors.select_under_id (main.cleaned_html result)
                     "div" "content" "h2")).
Proof.
  intros Hok Hnone. unfold extract_api_endpoints. rewrite Hok. cbn [negb].
  assert (api_methods (main.cleaned_html result)
          = List.filter
              (fun method =>
                 bool_decide (is_Some (Re.re_search strict_pattern
                                         (get_text true (elt method)))))
              (selectors.select_under_id (main.cleaned_html result)
                 "div" "content" "h2")) as Heq.
  { unfold api_methods. by rewrite Hnone. }
  rewrite <- Heq. apply parse_all_complete. intros m Hm.
  destruct (api_methods_are_tags _ _ Hm) as [Hin Htag%is_tag_is_a_tag].
  split; [done |]. split; [done |].
  rewrite Heq in Hm. apply list_elem_of_In, filter_In in Hm as [_ Hs].
  apply bool_decide_eq_true in Hs as [g Hg].
  unfold match_method_text. rewrite Hg. by eexists.
Qed.

Lemma fallback_headings_all_give_records_witness :
  ∃ endpoints,
    extract_api_endpoints (more_scenarios.fetched more_scenarios.content_page)
      "Users" = Return endpoints
    ∧ length endpoints = 1.
Proof.
  destruct (fallback_headings_all_give_records
              (more_scenarios.fetched more_scenarios.content_page) "Users")
    as (es & Hes & Hlen); [reflexivity | vm_compute; reflexivity |].
  exists es. split; [exact Hes |]. rewrite Hlen. vm_compute. reflexivity.
Defined.

End scraper_pages_facts.

(** ** Runs in which the key is exact *)

Section exact_runs.
Import Bs4 models main.

Lemma canvas_candidates_same_key (soup1 soup2 : node) (rn1 rn2 : string)
    (e1 e2 : endpoint) :
  e1 ∈ canvas_scraper.parse_canvas_api_page soup1 rn1 →
  e2 ∈ canvas_scraper.parse_canvas_api_page soup2 rn2 →
  all_chars not_slash rn1 = true → all_chars not_slash rn2 = true →
  endpoint_id e1 = endpoint_id e2 → identity e1 = identity e2.
Proof.
  intros (s1 & h1 & m1 & w1 & _ & _ & Hm1 & _ & _ & _ & ->)%canvas_record
         (s2 & h2 & m2 & w2 & _ & _ & Hm2 & _ & _ & _ & ->)%canvas_record
         Hr1 Hr2.
  apply endpoint_id_injective; simpl; try done; try apply prefix_append.
  - rewrite !elem_of_cons in Hm1. rewrite !elem_of_cons. tauto.
  - rewrite !elem_of_cons in Hm2. rewrite !elem_of_cons. tauto.
Qed.

Lemma candidate_of_a_page (pages : list (string * crawl_result)) (e : endpoint) :
  e ∈ concat (batch_of <$> pages) →
  ∃ page, page ∈ pages
          ∧ e ∈ canvas_scraper.parse_canvas_api_page (cleaned_html page.2) page.1.
Proof.
  intros (batch & Hb & He)%list_elem_of_In%in_concat.
  apply list_elem_of_In, list_elem_of_fmap in Hb as (page & -> & Hpage).
  apply list_elem_of_In in He. unfold batch_of in He.
  destruct (success page.2); [by exists page | by apply elem_of_nil in He].
Qed.

Lemma represented_in_the_output (cands : list endpoint) (e : endpoint) :
  e ∈ cands → required_fields_present e →
  ∃ e', e' ∈ all_endpoints (filter_endpoints initial cands)
        ∧ e' ∈ cands ∧ endpoint_id e' = endpoint_id e.
Proof.
  intros He Hreq.
  destruct (settled_after cands initial e He) as [Hseen|]; [| done].
  rewrite (reachable_seen_keys (filter_endpoints initial cands)) in Hseen
    by apply reachable_filter_endpoints, reachable_initial.
  apply elem_of_list_to_set, list_elem_of_fmap in Hseen as (e' & Hkey & He').
  exists e'. split; [done |]. split; [| done].
  rewrite filter_endpoints_first_seen in He'. simpl in He'.
  eapply elem_of_sublist; [done | apply first_seen_sublist].
Qed.

(** X15.  In a run over pages whose resource names have no slash, the key
    is exact on the candidates: two candidates with one key have the same
    resource, method and path.  So no endpoint is lost to a collision of
    keys: every candidate with a non-empty resource name and description
    is represented in the output by a record with its resource, method and
    path. *)
Theorem exact_keys_lose_no_endpoint (pages : list (string * crawl_result)) :
  (∀ page, page ∈ pages → all_chars not_slash page.1 = true) →
  (∀ e1 e2, e1 ∈ concat (batch_of <$> pages) →
            e2 ∈ concat (batch_of <$> pages) →
            endpoint_id e1 = endpoint_id e2 → identity e1 = identity e2)
  ∧ (∀ e, e ∈ concat (batch_of <$> pages) →
          resource e ≠ "" → description e ≠ "" →
          ∃ e', e' ∈ all_endpoints (crawl_pages pages)
                ∧ identity e' = identity e).
Proof.
  intros Hnames.
  assert (∀ e1 e2, e1 ∈ concat (batch_of <$> pages) →
                   e2 ∈ concat (batch_of <$> pages) →
                   endpoint_id e1 = endpoint_id e2 → identity e1 = identity e2)
    as Hexact.
  { intros e1 e2 (p1 & Hp1 & H1)%candidate_of_a_page
                 (p2 & Hp2 & H2)%candidate_of_a_page.
    eapply canvas_candidates_same_key; eauto. }
  split; [done |]. intros e He Hr Hd.
  destruct (candidate_of_a_page pages e He) as (page & Hpage & Hrec).
  assert (required_fields_present e) as Hreq.
  { apply (canvas_required_iff _ _ _ Hrec). split; [| done].
    apply canvas_record in Hrec as (? & ? & ? & ? & _ & _ & _ & _ & _ & _ & ->).
    done. }
  destruct (represented_in_the_output _ e He Hreq) as (e' & Hout & Hc & Hkey).
  exists e'. split; [| by apply Hexact].
  by rewrite crawl_batches, filter_batches_concat.
Qed.

Lemma exact_keys_lose_no_endpoint_witness :
  ∃ e', e' ∈ all_endpoints
               (crawl_pages [("Users", more_scenarios.fetched scenarios.canvas_layout)])
        ∧ identity e' = identity more_scenarios.users_record.
Proof.
  apply (exact_keys_lose_no_endpoint
           [("Users", more_scenarios.fetched scenarios.canvas_layout)]).
  - intros page Hpage. apply list_elem_of_In in Hpage.
    destruct Hpage as [<-|[]]. reflexivity.
  - vm_compute. apply list_elem_of_here.
  - discriminate.
  - discriminate.
Defined.

Lemma configured_names :
  ∀ link, link ∈ config.RESOURCE_LINKS →
          all_chars not_slash (resource_name_of link) = true
          ∧ resource_name_of link ≠ "".
Proof.
  assert (forallb (fun link =>
                     all_chars not_slash (resource_name_of link)
                     && Py.truthy (resource_name_of link))
                  config.RESOURCE_LINKS = true) as H by (vm_compute; reflexivity).
  rewrite forallb_forall in H. intros link Hlink%list_elem_of_In.
  apply H, andb_true_iff in Hlink as [? ?%truthy_true]. done.
Qed.

Lemma page_of_a_link (arun : string → crawl_result) (links : list string)
    (page : string * crawl_result) :
  page ∈ pages_of arun links → ∃ link, link ∈ links ∧ page.1 = resource_name_of link.
Proof.
  unfold pages_of. intros (link & -> & Hlink)%list_elem_of_fmap. by exists link.
Qed.

(** X16.  Whatever the crawler returns for the twelve pages of the
    configuration, the key is exact on the candidates of the run, and every
    candidate with a description is represented in the output by a record
    with its resource, method and path. *)
Theorem configured_run_loses_no_endpoint (arun : string → crawl_result) :
  let candidates := concat (batch_of <$> pages_of arun config.RESOURCE_LINKS) in
  (∀ e1 e2, e1 ∈ candidates → e2 ∈ candidates →
            endpoint_id e1 = endpoint_id e2 → identity e1 = identity e2)
  ∧ (∀ e, e ∈ candidates → description e ≠ "" →
          ∃ e', e' ∈ all_endpoints (crawl_canvas_api arun)
                ∧ identity e' = identity e).
Proof.
  intros candidates. 
  assert (∀ e1 e2, e1 ∈ candidates → e2 ∈ candidates →
                   endpoint_id e1 = endpoint_id e2 → identity e1 = identity e2)
    as Hexact.
  { intros e1 e2 (p1 & Hp1 & H1)%candidate_of_a_page
                 (p2 & Hp2 & H2)%candidate_of_a_page.
    apply page_of_a_link in Hp1 as (l1 & Hl1 & Hn1).
    apply page_of_a_link in Hp2 as (l2 & Hl2 & Hn2).
    eapply canvas_candidates_same_key; eauto.
    - rewrite Hn1. by apply configured_names.
    - rewrite Hn2. by apply configured_names. }
  split; [done |]. intros e He Hd.
  destruct (candidate_of_a_page _ e He) as (page & Hpage & Hrec).
  apply page_of_a_link in Hpage as (link & Hlink & Hn).
  assert (required_fields_present e) as Hreq.
  { apply (canvas_required_iff _ _ _ Hrec). split; [| done].
    rewrite Hn. by apply configured_names. }
  destruct (represented_in_the_output _ e He Hreq) as (e' & Hout & Hc & Hkey).
  exists e'. split; [| by apply Hexact].
  unfold crawl_canvas_api. by rewrite crawl_batches, filter_batches_concat.
Qed.

Lemma configured_run_loses_no_endpoint_witness :
  let arun := fun _ : string => more_scenarios.fetched scenarios.canvas_layout in
  ∃ e', e' ∈ all_endpoints (crawl_canvas_api arun)
        ∧ identity e' = identity more_scenarios.users_record.
Proof.
  intros arun.
  apply (configured_run_loses_no_endpoint arun).
  - vm_compute. apply list_elem_of_here.
  - discriminate.
Defined.

End exact_runs.

(** ** The caps on the description *)

Section caps.
Import models.

Lemma csv_description_short (d : string) :
  String.length d ≤ 200 → data_utils.csv_description d = d.
Proof.
  intros H%Nat.ltb_ge. unfold data_utils.csv_description. by rewrite H.
Qed.

Lemma cut_length (n : nat) (d : string) :
  n < String.length d → String.length (Py.slice_to n d +:+ "...") = n + 3.
Proof.
  intros H. rewrite length_append, slice_to_length.
  change (String.length "...") with 3. lia.
Qed.

(** X17.  The cap of the table leaves a description of at most 200
    characters as it is, never changes the first 200 characters, gives 203
    characters for every longer description, and changes nothing when it is
    applied a second time. *)
Theorem csv_description_cap (d : string) :
  (String.length d ≤ 200 → data_utils.csv_description d = d)
  ∧ (200 < String.length d →
     String.length (data_utils.csv_description d) = 203)
  ∧ Py.slice_to 200 (data_utils.csv_description d) = Py.slice_to 200 d
  ∧ data_utils.csv_description (data_utils.csv_description d)
    = data_utils.csv_description d.
Proof.
  split; [apply csv_description_short |].
  destruct (Nat.lt_ge_cases 200 (String.length d)) as [H|H].
  - rewrite !(csv_description_long d H).
    pose proof (cut_length 200 d H) as Hlen.
    split; [done |]. split; [apply slice_to_slice_append; lia |].
    rewrite csv_description_long by lia.
    by rewrite slice_to_slice_append by lia.
  - rewrite !(csv_description_short d H). split; [lia |]. by split.
Qed.

Lemma csv_description_cap_witness :
  data_utils.csv_description "Lists users." = "Lists users."
  ∧ String.length (data_utils.csv_description scenarios.long_text) = 203.
Proof.
  split.
  - refine (proj1 (csv_description_cap "Lists users.") _). vm_compute. lia.
  - refine (proj1 (proj2 (csv_description_cap scenarios.long_text)) _).
    vm_compute. lia.
Defined.

Lemma limit_description_short (d : string) :
  String.length d ≤ 500 → scraper_utils.limit_description d = d.
Proof.
  intros H%Nat.ltb_ge. unfold scraper_utils.limit_description. by rewrite H.
Qed.

Lemma limit_description_long (d : string) :
  500 < String.length d →
  scraper_utils.limit_description d = Py.slice_to 500 d +:+ "...".
Proof.
  intros H%Nat.ltb_lt. unfold scraper_utils.limit_description. by rewrite H.
Qed.

(** X18.  The cap of [parse_api_method] leaves a description of at most 500
    characters as it is and changes nothing when it is applied a second
    time; and it does not show in the table: the row of a description that
    went through it is the row of the description itself. *)
Theorem limit_description_cap (d : string) :
  (String.length d ≤ 500 → scraper_utils.limit_description d = d)
  ∧ scraper_utils.limit_description (scraper_utils.limit_description d)
    = scraper_utils.limit_description d
  ∧ data_utils.csv_description (scraper_utils.limit_description d)
    = data_utils.csv_description d.
Proof.
  split; [apply limit_description_short |].
  destruct (Nat.lt_ge_cases 500 (String.length d)) as [H|H].
  - rewrite !(limit_description_long d H).
    pose proof (cut_length 500 d H) as Hlen. split.
    + rewrite limit_description_long by lia.
      by rewrite slice_to_slice_append by lia.
    + rewrite !csv_description_long by lia.
      by rewrite slice_to_slice_append by lia.
  - by rewrite !(limit_description_short d H).
Qed.

Lemma limit_description_cap_witness :
  scraper_utils.limit_description "Lists users." = "Lists users.".
Proof.
  refine (proj1 (limit_description_cap "Lists users.") _). vm_compute. lia.
Defined.

End caps.

(** ** The name taken from the path *)

Section names.

Lemma append_empty_r (s : string) : s +:+ "" = s.
Proof.
  induction s as [|c s IH]; [done |]. rewrite append_cons. by rewrite IH.
Qed.

Lemma rev_app_append (s t : string) :
  String.rev_app s t = String.rev_app s "" +:+ t.
Proof.
  revert t. induction s as [|c s IH]; intros t; [done |].
  simpl. rewrite (IH (String c t)), (IH (String c "")).
  by rewrite append_assoc.
Qed.

Lemma rev_cons (c : ascii) (s : string) :
  String.rev (String c s) = String.rev s +:+ String c "".
Proof. unfold String.rev. simpl. apply rev_app_append. Qed.

Lemma prefix_slash (c : ascii) (s : string) :
  String.prefix "/" (String c s) = bool_decide (c = "/"%char).
Proof.
  change (String.prefix "/" (String c s))
    with (match Ascii.ascii_dec "/" c with
          | left _ => String.prefix "" s
          | right _ => false
          end).
  destruct (Ascii.ascii_dec "/" c) as [<-|Hne].
  - rewrite bool_decide_eq_true_2 by done. by destruct s.
  - by rewrite bool_decide_eq_false_2 by (by intros ->).
Qed.

Lemma not_slash_spec (c : ascii) : not_slash c = true ↔ c ≠ "/"%char.
Proof.
  unfold not_slash. rewrite negb_true_iff, Nat.eqb_neq. split.
  - by intros H ->.
  - intros H Hn. apply H. rewrite <- (ascii_nat_embedding c), Hn. done.
Qed.

Lemma split_go_without_slash (cur seg : string) :
  all_chars not_slash seg = true →
  Py.split_go "/" 0 cur seg = [String.rev cur +:+ seg].
Proof.
  revert cur. induction seg as [|c seg IH]; intros cur H.
  - simpl. by rewrite append_empty_r.
  - simpl in H. apply andb_true_iff in H as [Hc%not_slash_spec Hseg].
    cbn [Py.split_go]. rewrite prefix_slash, bool_decide_eq_false_2 by done.
    rewrite IH by done. by rewrite rev_cons, append_assoc.
Qed.

(** The last piece of a path cut at its slashes is what follows the last
    slash. *)
Lemma split_last_segment (cur a seg : string) :
  all_chars not_slash seg = true →
  last (Py.split_go "/" 0 cur (a +:+ "/" +:+ seg)) = Some seg.
Proof.
  intros Hseg. revert cur. induction a as [|c a IH]; intros cur.
  - change ("" +:+ "/" +:+ seg) with (String "/" seg).
    cbn [Py.split_go]. rewrite prefix_slash, bool_decide_eq_true_2 by done.
    change (String.length "/" - 1) with 0.
    by rewrite split_go_without_slash.
  - rewrite append_cons. cbn [Py.split_go]. rewrite prefix_slash.
    change (String.length "/" - 1) with 0.
    destruct (bool_decide (c = "/"%char)); [| apply IH].
    specialize (IH ""). destruct (Py.split_go "/" 0 "" (a +:+ "/" +:+ seg));
      [done | exact IH].
Qed.

Lemma name_of_path_segment (http_method resource_name a seg : string) :
  all_chars not_slash seg = true → seg ≠ "" →
  scraper_utils.name_of_path http_method (a +:+ "/" +:+ seg) resource_name
  = seg.
Proof.
  intros Hseg Hne. unfold scraper_utils.name_of_path, Py.split.
  rewrite split_last_segment by done.
  apply truthy_true in Hne as Ht. rewrite !Ht. cbn [negb orb].
  destruct (String.eqb seg "/") eqn:Heq; [| done].
  apply String.eqb_eq in Heq as ->. done.
Qed.

Lemma name_of_path_trailing_slash (http_method resource_name a : string) :
  a ≠ "" →
  scraper_utils.name_of_path http_method (a +:+ "/") resource_name
  = a +:+ "/".
Proof.
  intros Hne. unfold scraper_utils.name_of_path, Py.split.
  change (a +:+ "/") with (a +:+ "/" +:+ "").
  rewrite (split_last_segment "" a "") by done.
  change (a +:+ "/" +:+ "") with (a +:+ "/"). cbn [Py.truthy].
  assert (Py.truthy (a +:+ "/") = true) as ->.
  { apply truthy_true. by apply append_nonempty_l. }
  cbn [negb orb]. destruct (String.eqb (a +:+ "/") "/") eqn:Heq; [| done].
  apply String.eqb_eq in Heq. destruct a as [|c a]; [done |].
  rewrite append_cons in Heq. injection Heq as _ Heq.
  by destruct a.
Qed.

Lemma name_of_path_without_slash (http_method resource_name path : string) :
  all_chars not_slash path = true → path ≠ "" →
  scraper_utils.name_of_path http_method path resource_name = path.
Proof.
  intros Hall Hne. unfold scraper_utils.name_of_path, Py.split.
  rewrite split_go_without_slash by done.
  change (String.rev "" +:+ path) with path. cbn [last].
  apply truthy_true in Hne as Ht. rewrite !Ht. cbn [negb orb].
  destruct (String.eqb path "/") eqn:Heq; [| done].
  apply String.eqb_eq in Heq as ->. done.
Qed.

(** The name of a returned record is the one taken from its path. *)
Lemma parse_api_method_name (soup : Bs4.node) (method_element : Bs4.element)
    (resource_name : string) (e : models.endpoint) :
  scraper_utils.parse_api_method soup method_element resource_name
    = scraper_utils.Return (Some e) →
  models.name e
  = scraper_utils.name_of_path (models.http_method e) (models.path e)
      resource_name.
Proof.
  intros (m & p & raw & _ & He)%parse_api_method_returned.
  unfold scraper_utils.finish in He. by simplify_eq.
Qed.

(** X19.  The name of a record that [parse_api_method] returns is taken
    from its path: it is what follows the last slash when that is not
    empty; for a path that ends with a slash after something else it is the
    whole path; for the path [/] it is made of the method and the resource
    name; and for a path without a slash it is the path. *)
Theorem name_from_the_path (soup : Bs4.node) (method_element : Bs4.element)
    (resource_name : string) (e : models.endpoint) :
  scraper_utils.parse_api_method soup method_element resource_name
    = scraper_utils.Return (Some e) →
  (∀ a seg, models.path e = a +:+ "/" +:+ seg →
            all_chars not_slash seg = true → seg ≠ "" →
            models.name e = seg)
  ∧ (∀ a, models.path e = a +:+ "/" → a ≠ "" →
          models.name e = models.path e)
  ∧ (models.path e = "/" →
     models.name e
     = models.http_method e +:+ " " +:+ resource_name +:+ " endpoint")
  ∧ (all_chars not_slash (models.path e) = true → models.path e ≠ "" →
     models.name e = models.path e).
Proof.
  intros Hname%parse_api_method_name. rewrite Hname.
  split; [| split; [| split]].
  - intros a seg -> Hseg Hne. by apply name_of_path_segment.
  - intros a -> Hne. by apply name_of_path_trailing_slash.
  - by intros ->.
  - intros Hall Hne. by apply name_of_path_without_slash.
Qed.

Lemma name_from_the_path_witness :
  ∃ e,
    scraper_utils.parse_api_method scenarios.lone_heading
      (Bs4.Element [0; 0]
         (Bs4.Tag "h2" [("class", "api_method_name")]
            [scenarios.txt "PATCH /api/v1/users/:id"])) "Users"
    = scraper_utils.Return (Some e)
    ∧ models.path e = "/api/v1/users" +:+ "/" +:+ ":id"
    ∧ models.name e = ":id".
Proof.
  exists {| models.resource := "Users"; models.name := ":id";
            models.http_method := "PATCH"; models.path := "/api/v1/users/:id";
            models.description := "API endpoint for /api/v1/users/:id";
            models.parameters := [];
            models.examples := models.Example None |}.
  assert (scraper_utils.parse_api_method scenarios.lone_heading
            (Bs4.Element [0; 0]
               (Bs4.Tag "h2" [("class", "api_method_name")]
                  [scenarios.txt "PATCH /api/v1/users/:id"])) "Users"
          = scraper_utils.Return (Some
              {| models.resource := "Users"; models.name := ":id";
                 models.http_method := "PATCH";
                 models.path := "/api/v1/users/:id";
                 models.description := "API endpoint for /api/v1/users/:id";
                 models.parameters := [];
                 models.examples := models.Example None |})) as Hrun
    by (vm_compute; reflexivity).
  split; [exact Hrun |]. split; [reflexivity |].
  refine (proj1 (name_from_the_path _ _ _ _ Hrun) "/api/v1/users" ":id" _ _ _).
  - reflexivity.
  - vm_compute. reflexivity.
  - discriminate.
Defined.

End names.

(** ** White space at the ends of the extracted text *)

Section stripped_text.
Import Bs4 models canvas_scraper.

Lemma lstrip_starts_clean (s : string) : starts_clean (Py.lstrip s) = true.
Proof.
  induction s as [|c s IH]; [done |]. cbn [Py.lstrip].
  destruct (Py.isspace c) eqn:Hc; [done |]. cbn [starts_clean]. by rewrite Hc.
Qed.

Lemma rstrip_ends_clean (s : string) : ends_clean (Py.rstrip s) = true.
Proof.
  induction s as [|c s IH]; [done |]. cbn [Py.rstrip].
  destruct (Py.rstrip s) as [|d r].
  - destruct (Py.isspace c) eqn:Hc; [done |]. cbn [ends_clean]. by rewrite Hc.
  - exact IH.
Qed.

Lemma rstrip_starts_clean (s : string) :
  starts_clean s = true → starts_clean (Py.rstrip s) = true.
Proof.
  destruct s as [|c s]; [done |]. cbn [Py.rstrip starts_clean]. intros Hc.
  destruct (Py.rstrip s); [| done].
  destruct (Py.isspace c) eqn:Hs; [done |]. cbn [starts_clean]. by rewrite Hs.
Qed.

Lemma strip_stripped (s : string) : stripped (Py.strip s) = true.
Proof.
  unfold stripped, Py.strip.
  by rewrite rstrip_starts_clean, rstrip_ends_clean by apply lstrip_starts_clean.
Qed.

Lemma starts_clean_append (a b : string) :
  a ≠ "" → starts_clean (a +:+ b) = starts_clean a.
Proof. destruct a; [done |]. by rewrite append_cons. Qed.

Lemma ends_clean_append (a b : string) :
  b ≠ "" → ends_clean (a +:+ b) = ends_clean b.
Proof.
  intros Hb. induction a as [|c a IH]; [done |].
  rewrite append_cons. pose proof (append_nonempty_r a b Hb) as Hne.
  cbn [ends_clean]. by destruct (a +:+ b).
Qed.

Lemma join_stripped (l : list string) :
  Forall (fun s => s ≠ "" ∧ stripped s = true) l →
  stripped (Py.join l) = true.
Proof.
  induction 1 as [|x l [Hx Hs] _ IH]; [done |].
  change (Py.join (x :: l)) with (x +:+ Py.join l).
  apply andb_true_iff in Hs as [Hs He]. apply andb_true_iff in IH as [_ IHe].
  unfold stripped. rewrite starts_clean_append, Hs by done. simpl.
  destruct (Py.join l) as [|c r] eqn:Hj.
  - by rewrite append_empty_r.
  - by rewrite ends_clean_append.
Qed.

(** The text of a node, taken with [strip=True], has no white space at its
    ends. *)
Lemma get_text_stripped (n : node) : stripped (get_text true n) = true.
Proof.
  unfold get_text. apply join_stripped, Forall_forall.
  intros s [(raw & <- & _)%in_map_iff Ht]%list_elem_of_In%filter_In.
  split; [by apply truthy_true | apply strip_stripped].
Qed.

Lemma parameter_of_row_stripped (row : element) (p : param) :
  parameter_of_row row = Some p →
  stripped (param_name p) = true ∧ stripped (param_type p) = true
  ∧ stripped (param_desc p) = true.
Proof.
  unfold parameter_of_row.
  destruct (find_all row "td") as [|c0 [|c1 [|c2 cs]]]; try done.
  intros [= <-]. simpl. repeat split; apply get_text_stripped.
Qed.

(** X20.  No text of a record of [parse_canvas_api_page] has white space at
    its ends: not its name, its description, its examples, nor the name,
    type and description of any of its parameters. *)
Theorem canvas_text_is_stripped (soup : node) (resource_name : string)
    (e : endpoint) :
  e ∈ parse_canvas_api_page soup resource_name →
  stripped (name e) = true
  ∧ stripped (description e) = true
  ∧ (∀ p, p ∈ parameters e →
          stripped (param_name p) = true ∧ stripped (param_type p) = true
          ∧ stripped (param_desc p) = true)
  ∧ ∃ request response,
      examples e = RequestResponse request response
      ∧ stripped request = true ∧ stripped response = true.
Proof.
  intros (section & h3 & m & w & _ & _ & _ & _ & _ & _ & ->)%canvas_record.
  simpl.
  assert (∀ marker, stripped (example_block soup section marker) = true) as Hex.
  { intros marker. unfold example_block.
    destruct (find_next_matching _ _ _); [| done].
    destruct (find_next _ _ _); [apply get_text_stripped | done]. }
  split; [| split; [| split]].
  - unfold method_name. destruct (find section "a"); [| done].
    apply get_text_stripped.
  - unfold first_paragraph. destruct (find_next soup h3 "p"); [| done].
    apply get_text_stripped.
  - intros p. unfold table_parameters.
    destruct (find_next soup section "table"); [| by intros ?%elem_of_nil].
    intros (row & _ & Hrow)%list_elem_of_omap.
    by apply parameter_of_row_stripped in Hrow.
  - eexists _, _. split; [done |]. split; apply Hex.
Qed.

Lemma canvas_text_is_stripped_witness :
  stripped (name more_scenarios.users_record) = true
  ∧ stripped (description more_scenarios.users_record) = true.
Proof.
  destruct (canvas_text_is_stripped scenarios.canvas_layout "Users"
              more_scenarios.users_record) as (H1 & H2 & _).
  - vm_compute. apply list_elem_of_here.
  - split; [exact H1 | exact H2].
Defined.

End stripped_text.

(** ** The order of the candidates *)

Section order.
Import models main.

Lemma seen_after_batch (l : list endpoint) (st : state) :
  seen_endpoint_ids (filter_endpoints st l)
  = seen_endpoint_ids st
    ∪ list_to_set (endpoint_id <$> List.filter has_required_keys l).
Proof.
  revert st. induction l as [|e l IH]; intros st.
  - simpl. by rewrite union_empty_r_L.
  - rewrite filter_endpoints_cons, IH. unfold filter_step. simpl.
    destruct (bool_decide (endpoint_id e ∈ seen_endpoint_ids st)) eqn:Hseen.
    + apply bool_decide_eq_true in Hseen.
      destruct (has_required_keys e); [| done]. simpl.
      apply set_eq. intros k. rewrite !elem_of_union, elem_of_singleton.
      split; [tauto |]. intros [?|[->|?]]; tauto.
    + destruct (has_required_keys e); simpl; [| done].
      apply set_eq. intros k. rewrite !elem_of_union, elem_of_singleton. tauto.
Qed.

(** X21.  Which keys end up in the seen-set does not depend on the order
    of the candidates: after a run they are the keys of the candidates
    that have their required fields.  Two runs over the same candidates in
    different orders accept the same number of records, with the same
    keys. *)
Theorem accepted_keys_whatever_the_order (l1 l2 : list endpoint) :
  l1 ≡ₚ l2 →
  seen_endpoint_ids (filter_endpoints initial l1)
  = list_to_set (endpoint_id <$> List.filter has_required_keys l1)
  ∧ seen_endpoint_ids (filter_endpoints initial l1)
    = seen_endpoint_ids (filter_endpoints initial l2)
  ∧ length (all_endpoints (filter_endpoints initial l1))
    = length (all_endpoints (filter_endpoints initial l2)).
Proof.
  intros Hperm.
  assert (∀ l, seen_endpoint_ids (filter_endpoints initial l)
               = list_to_set (endpoint_id <$> List.filter has_required_keys l))
    as Hkeys.
  { intros l. rewrite seen_after_batch. simpl. by rewrite union_empty_l_L. }
  assert (seen_endpoint_ids (filter_endpoints initial l1)
          = seen_endpoint_ids (filter_endpoints initial l2)) as Hsame.
  { rewrite !Hkeys. apply set_eq. intros k.
    rewrite !elem_of_list_to_set, !list_elem_of_fmap.
    split; intros (e & -> & He); exists e; (split; [done |]);
      rewrite list_elem_of_In, filter_In, <- list_elem_of_In in *;
      destruct He as [He ?]; (split; [| done]).
    - by rewrite <- Hperm.
    - by rewrite Hperm. }
  split; [apply Hkeys |]. split; [done |].
  assert (∀ l, length (all_endpoints (filter_endpoints initial l))
               = size (seen_endpoint_ids (filter_endpoints initial l))) as Hsize.
  { intros l.
    assert (reachable (filter_endpoints initial l)) as Hr
      by apply reachable_filter_endpoints, reachable_initial.
    pose proof (reachable_seen_keys _ Hr) as Hs.
    apply reachable_coherent in Hr as [Hnd _].
    rewrite Hs, size_list_to_set by done. by rewrite length_fmap. }
  by rewrite !Hsize, Hsame.
Qed.

Lemma accepted_keys_whatever_the_order_witness :
  seen_endpoint_ids
    (filter_endpoints initial [scenarios.under_a; scenarios.under_a_get_x])
  = seen_endpoint_ids
      (filter_endpoints initial [scenarios.under_a_get_x; scenarios.under_a]).
Proof.
  refine (proj1 (proj2 (accepted_keys_whatever_the_order
                          [scenarios.under_a; scenarios.under_a_get_x]
                          [scenarios.under_a_get_x; scenarios.under_a] _))).
  apply perm_swap.
Defined.

End order.

(** ** The scope taken as free text *)

Section scope_text.
Import models.

(** Every piece that [split] gives is a part of the string. *)
Lemma split_go_pieces (sep : string) (s : string) (skip : nat)
    (cur piece : string) :
  skip = 0 ∨ cur = "" →
  piece ∈ Py.split_go sep skip cur s →
  ∃ before after, String.rev cur +:+ s = before +:+ piece +:+ after.
Proof.
  revert skip cur. induction s as [|c s IH]; intros skip cur Hinv.
  - simpl. intros ->%list_elem_of_singleton. exists "", "".
    by rewrite append_empty_r.
  - cbn [Py.split_go]. destruct skip as [|k].
    + destruct (String.prefix sep (String c s)).
      * intros [->|H]%elem_of_cons.
        -- by exists "", (String c s).
        -- apply IH in H as (b & a & H); [| by right].
           change (String.rev "" +:+ s) with s in H. rewrite H.
           exists (String.rev cur +:+ String c b), a.
           by rewrite append_assoc, append_cons.
      * intros (b & a & H)%IH; [| by left]. exists b, a. rewrite <- H.
        by rewrite rev_cons, append_assoc.
    + destruct Hinv as [?| ->]; [done |].
      intros (b & a & H)%IH; [| by right].
      change (String.rev "" +:+ s) with s in H.
      change (String.rev "" +:+ String c s) with (String c s).
      rewrite H. by exists (String c b), a.
Qed.

Lemma split_pieces (sep s piece : string) :
  piece ∈ Py.split sep s → ∃ before after, s = before +:+ piece +:+ after.
Proof.
  intros H. apply split_go_pieces in H as (b & a & H); [| by left].
  by exists b, a.
Qed.

Lemma re_search_suffix (r : Re.regex) (s : string) (g : list string) :
  Re.re_search r s = Some g →
  ∃ a s', s = a +:+ s' ∧ Re.re_match r s' = Some g.
Proof.
  induction s as [|c s IH]; simpl; destruct (Re.re_match r _) eqn:Hm;
    intros H; simplify_eq.
  - by exists "", "".
  - by exists "", (String c s).
  - destruct (IH H) as (a & s' & -> & Hs'). by exists (String c a), s'.
Qed.

(** A description without the text [<code>] has no code match in any of
    its parts. *)
Lemma no_code_no_match (d part before after : string) :
  Py.contains "<code>" d = false →
  d = before +:+ part +:+ after →
  Re.re_search data_utils.code_pattern part = None.
Proof.
  intros Hno Hd.
  destruct (Re.re_search data_utils.code_pattern part) as [g|] eqn:Hs; [| done].
  apply re_search_suffix in Hs as (a & s' & -> & Hm).
  apply re_match_In in Hm as [rest Hm].
  apply matches_Cat in Hm as (m1 & m2 & [_ H1]%matches_Lit & _ & _).
  assert (Py.contains "<code>" d = true) as Hyes; [| congruence].
  apply contains_spec. exists (before +:+ a), (m1.2 +:+ after).
  rewrite Hd, H1. by rewrite !append_assoc.
Qed.

(** X22.  For a description in which the text [<code>] does not occur,
    the scope is taken as free text, and it has no white space at its
    ends. *)
Theorem free_text_scope_is_stripped (e : endpoint) :
  Py.contains "<code>" (description e) = false →
  stripped (data_utils.extract_scope e) = true.
Proof.
  intros Hno. unfold data_utils.extract_scope.
  destruct (Py.contains "Scope:" (description e)); [| done].
  destruct (1 <? length (Py.split "Scope:" (description e))); [| done].
  destruct (Py.split "Scope:" (description e) !! 1) as [part|] eqn:Hpart.
  - simpl.
    assert (part ∈ Py.split "Scope:" (description e)) as Hin
      by by eapply list_elem_of_lookup_2.
    apply split_pieces in Hin as (b & a & Hd).
    rewrite (no_code_no_match _ _ _ _ Hno Hd).
    repeat case_match; apply strip_stripped.
  - simpl. done.
Qed.

Lemma free_text_scope_is_stripped_witness :
  stripped (data_utils.extract_scope
              (scenarios.with_description "Scope: allows read access. Other info."))
  = true.
Proof.
  apply free_text_scope_is_stripped. vm_compute. reflexivity.
Defined.

End scope_text.

(** ** The siblings searched for a description *)

Section siblings.
Import Bs4 scraper_utils.

(** The search stops at the first sibling that is a [p] or a [div] with
    more than ten characters, when it gets there within its rounds. *)
Lemma scan_siblings_first (soup : node) (k n : nat) (current : option element)
    (sib : element) :
  k < n →
  walk_siblings soup k current = Some sib →
  substantial sib = true →
  (∀ j s, j < k → walk_siblings soup j current = Some s →
          elt s ≠ NavigableString "" ∧ substantial s = false) →
  scan_siblings soup n current = Some (get_text true (elt sib)).
Proof.
  revert n current. induction k as [|k IH]; intros n current Hk Hwalk Hsub Hbefore.
  - destruct n as [|n]; [lia |]. simpl in Hwalk. subst current.
    cbn [scan_siblings].
    assert (falsy (Some sib) = false) as ->.
    { unfold substantial, is_tag in Hsub. unfold falsy.
      by destruct (elt sib). }
    unfold substantial in Hsub. by rewrite Hsub.
  - destruct n as [|n]; [lia |].
    destruct current as [cur|]; [| done].
    destruct (Hbefore 0 cur) as [Hcur Hnot]; [lia | done |].
    cbn [scan_siblings].
    assert (falsy (Some cur) = false) as ->.
    { unfold falsy. destruct (elt cur) as [| [|]]; done. }
    unfold substantial in Hnot. rewrite Hnot.
    apply IH; [lia | done | done |].
    intros j s Hj Hs. apply (Hbefore (S j) s); [lia | done].
Qed.

(** It finds nothing when none of the siblings it can get to is one. *)
Lemma scan_siblings_none (soup : node) (n : nat) (current : option element) :
  (∀ k sib, k < n → walk_siblings soup k current = Some sib →
            substantial sib = false) →
  scan_siblings soup n current = None.
Proof.
  revert current. induction n as [|n IH]; intros current Hnone; [done |].
  cbn [scan_siblings]. destruct current as [cur|]; [| done].
  destruct (falsy (Some cur)); [done |].
  pose proof (Hnone 0 cur ltac:(lia) eq_refl) as Hcur.
  unfold substantial in Hcur. rewrite Hcur.
  apply IH. intros k sib Hk Hwalk. apply (Hnone (S k) sib); [lia | done].
Qed.

(** X23.  [parse_api_method] looks for the description in the ten siblings
    that follow the heading, and no further.  When one of these ten is a
    [p] or a [div] whose stripped text has more than ten characters, and
    no sibling before it is one or is an empty string, its text, cut by
    [limit_description], is the description of the record.  When none of
    the ten is one, a title of the heading that is not empty is the
    description, whatever the eleventh sibling and those after it are. *)
Theorem description_within_ten_siblings (soup : node) (method_element : element)
    (resource_name http_method path : string) :
  match_method_text (get_text true (elt method_element))
    = Some [http_method; path] →
  (∀ k sib,
     k < 10 →
     walk_siblings soup (S k) (Some method_element) = Some sib →
     substantial sib = true →
     (∀ j s, j < k →
             walk_siblings soup (S j) (Some method_element) = Some s →
             elt s ≠ NavigableString "" ∧ substantial s = false) →
     ∃ e, parse_api_method soup method_element resource_name = Return (Some e)
          ∧ models.description e = limit_description (get_text true (elt sib)))
  ∧ (∀ title,
       (∀ k sib, k < 10 →
                 walk_siblings soup (S k) (Some method_element) = Some sib →
                 substantial sib = false) →
       Bs4.get (elt method_element) "title" = Some title →
       title ≠ "" →
       ∃ e, parse_api_method soup method_element resource_name = Return (Some e)
            ∧ models.description e = limit_description title).
Proof.
  intros Hm. split.
  - intros k sib Hk Hwalk Hsub Hbefore.
    assert (scan_siblings soup 10 (next_sibling soup method_element)
            = Some (get_text true (elt sib))) as Hscan.
    { by apply (scan_siblings_first soup k). }
    rewrite (parse_api_method_found _ _ _ _ _ _ Hm Hscan).
    destruct (finish_cut resource_name http_method path (get_text true (elt sib)))
      as (e & He & _ & _ & _ & _ & Hd).
    apply scan_siblings_substantial in Hscan as [Ht _]. rewrite Ht in Hd.
    by exists e.
  - intros title Hnone Htitle Hne.
    assert (scan_siblings soup 10 (next_sibling soup method_element) = None)
      as Hscan by (by apply scan_siblings_none).
    rewrite (parse_api_method_title _ _ _ _ _ _ Hm Hscan Htitle Hne).
    destruct (finish_cut resource_name http_method path title)
      as (e & He & _ & _ & _ & _ & Hd).
    apply truthy_true in Hne. rewrite Hne in Hd. by exists e.
Qed.

Lemma description_within_ten_siblings_witness :
  (∃ e, parse_api_method cap_scenarios.spaced_page
          (Element [0; 0] cap_scenarios.heading) "Users" = Return (Some e)
        ∧ models.description e
          = limit_description "Lists the users of an account.")
  ∧ walk_siblings cap_scenarios.eleven_siblings 11
      (Some (Element [0; 0] cap_scenarios.described_heading))
    = Some (Element [0; 11]
              (scenarios.el "p" [scenarios.txt "A paragraph that is too far away."]))
  ∧ substantial
      (Element [0; 11]
         (scenarios.el "p" [scenarios.txt "A paragraph that is too far away."]))
    = true
  ∧ ∃ e, parse_api_method cap_scenarios.eleven_siblings
           (Element [0; 0] cap_scenarios.described_heading) "Users"
         = Return (Some e)
         ∧ models.description e = limit_description "Described by its title.".
Proof.
  split; [| split; [vm_compute; reflexivity | split; [vm_compute; reflexivity |]]].
  - refine (proj1 (description_within_ten_siblings cap_scenarios.spaced_page
                     (Element [0; 0] cap_scenarios.heading) "Users"
                     "GET" "/api/v1/users" _) 1
              (Element [0; 2]
                 (scenarios.el "p" [scenarios.txt "Lists the users of an account."]))
              _ _ _ _).
    + vm_compute. reflexivity.
    + lia.
    + vm_compute. reflexivity.
    + vm_compute. reflexivity.
    + intros j s Hj Hs. destruct j as [|j]; [| lia].
      vm_compute in Hs. injection Hs as <-.
      split; [discriminate | reflexivity].
  - refine (proj2 (description_within_ten_siblings cap_scenarios.eleven_siblings
                     (Element [0; 0] cap_scenarios.described_heading) "Users"
                     "GET" "/api/v1/users" _)
              "Described by its title." _ _ _).
    + vm_compute. reflexivity.
    + intros k sib Hk Hwalk.
      do 10 (destruct k as [|k];
             [vm_compute in Hwalk; injection Hwalk as <-; reflexivity |]).
      lia.
    + vm_compute. reflexivity.
    + discriminate.
Defined.

End siblings.
